(** * Hand-eye calibration experiments: the loop-closure evaluator and the driver

    A shallow embedding of
    [hand_eye_calibration_experiments/bin/compute_set_of_hand_eye_calibrations.py].

    Python values are modelled as follows: a list is a [list], indexed with
    Python's rule for negative indices; [None] in a list of dual quaternions
    is [None : option DQ]; an uncaught exception is [Raise]; integers are [Z].
    The classes and functions the script imports ([DualQuaternion],
    [compute_pose_error], the solvers, the optimizer process) are not part of
    the script: they are taken as parameters. *)

From Stdlib Require Import ZArith Lia List String.
From stdpp Require Import base list gmap strings pretty.
Import ListNotations.

Local Open Scope Z_scope.

(** ** Outcomes of running Python code *)

(** The exceptions that the script can let escape. [LibraryError] stands for
    an exception raised inside imported code. *)
Inductive exn : Type :=
| AssertionError
| IndexError
| AttributeError
| NameError (var : string)
| LibraryError.

(** [Ok a]: normal completion with value [a]; [Raise e]: an uncaught
    exception; [Diverge]: no completion, because imported code does not
    return or because the loop budget of the model ran out (shown below never
    to happen in [compute_loop_error]). *)
Inductive outcome (A : Type) : Type :=
| Ok (a : A)
| Raise (e : exn)
| Diverge.

Arguments Ok {A} a.
Arguments Raise {A} e.
Arguments Diverge {A}.

Definition bind {A B : Type} (m : outcome A) (k : A -> outcome B) : outcome B :=
  match m with
  | Ok a => k a
  | Raise e => Raise e
  | Diverge => Diverge
  end.

Declare Scope py_scope.
Delimit Scope py_scope with py.
Notation "x <- m ;; k" := (bind m (fun x => k))
  (at level 100, m at next level, right associativity) : py_scope.
Notation "'assert' b ;; k" := (if b then k else Raise AssertionError)
  (at level 100, b at next level, right associativity) : py_scope.
Local Open Scope py_scope.

(** ** Python lists *)

(** [len(l)]. *)
Definition len {A : Type} (l : list A) : Z := Z.of_nat (length l).

(** [l[i]]: a negative index counts from the end, an index out of range
    raises [IndexError]. *)
Definition py_index {A : Type} (l : list A) (i : Z) : outcome A :=
  let j := if i <? 0 then i + len l else i in
  if j <? 0 then Raise IndexError
  else match l !! Z.to_nat j with
       | Some x => Ok x
       | None => Raise IndexError
       end.

(** [range(lo, hi)]. *)
Definition py_range (lo hi : Z) : list Z :=
  (fun k : nat => lo + Z.of_nat k) <$> seq 0 (Z.to_nat (hi - lo)).

(** [itertools.combinations(l, 2)]: the pairs of elements of [l] at
    positions i < j, in lexicographic order of (i, j). *)
Fixpoint combinations2 {A : Type} (l : list A) : list (A * A) :=
  match l with
  | [] => []
  | x :: l' => (pair x <$> l') ++ combinations2 l'
  end.

(** [sum(l)] for a list of booleans: the number of [True]. *)
Definition sum_bools (l : list bool) : Z :=
  fold_left (fun acc (b : bool) => acc + (if b then 1 else 0)) l 0.

(** The binomial coefficient, by Pascal's rule. *)
Fixpoint choose (n k : nat) : nat :=
  match k with
  | O => 1%nat
  | S k' =>
      match n with
      | O => 0%nat
      | S n' => (choose n' k' + choose n' k)%nat
      end
  end.

(** ** The interface of the imported dual-quaternion code *)

(** What [compute_loop_error] uses of [DualQuaternion] and of
    [compute_pose_error]: the identity transform
    [DualQuaternion(Quaternion(0, 0, 0, 1), Quaternion(0, 0, 0, 0))],
    [__mul__], [inverse()], [to_pose()], and the pose error, a pair
    (position error, orientation error). *)
Class DualQuaternionOps (DQ Pose Err : Type) : Type := {
  dq_identity : DQ;
  dq_mul : DQ -> DQ -> DQ;
  dq_inverse : DQ -> DQ;
  dq_to_pose : DQ -> Pose;
  compute_pose_error : Pose -> Pose -> Err * Err
}.

Section LoopError.

Context {DQ Pose Err : Type} `{Ops : DualQuaternionOps DQ Pose Err}.

(** [x.inverse()] where [x] may be [None]. *)
Definition py_inverse (x : option DQ) : outcome DQ :=
  match x with
  | Some d => Ok (dq_inverse d)
  | None => Raise AttributeError
  end.

(** [dq_tmp *= x] where [x] may be [None]; the imported multiplication
    rejects an operand that is not a dual quaternion. *)
Definition py_imul (dq_tmp : DQ) (x : option DQ) : outcome DQ :=
  match x with
  | Some d => Ok (dq_mul dq_tmp d)
  | None => Raise LibraryError
  end.

(** The [while i < (num_poses_sets - 2)] loop of [compute_loop_error]. *)
Fixpoint chain_loop (fuel : nat) (num_poses_sets : Z)
    (results_dq_H_E : list (option DQ)) (i idx : Z)
    (chain : list (option DQ)) : outcome (list (option DQ)) :=
  if i <? num_poses_sets - 2 then
    match fuel with
    | O => Diverge
    | S fuel' =>
        let idx := idx + (num_poses_sets - i - 1) in
        x <- py_index results_dq_H_E idx ;;
        let chain := chain ++ [x] in
        let i := i + 1 in
        chain_loop fuel' num_poses_sets results_dq_H_E i idx chain
    end
  else Ok chain.

(** The first part of [compute_loop_error]: the construction of
    [calibration_transformation_chain]. [num_poses_sets] is the global the
    function reads. *)
Definition build_chain (num_poses_sets : Z)
    (results_dq_H_E : list (option DQ)) : outcome (list (option DQ)) :=
  let chain := [] in
  let chain := chain ++ [Some dq_identity] in
  x <- py_index results_dq_H_E 0 ;;
  let chain := chain ++ [x] in
  chain <- chain_loop (Z.to_nat num_poses_sets) num_poses_sets
             results_dq_H_E 0 0 chain ;;
  x <- py_index results_dq_H_E (num_poses_sets - 2) ;;
  x <- py_inverse x ;;
  Ok (chain ++ [Some x]).

(** The [for i in range(0, len(calibration_transformation_chain))] loop. *)
Fixpoint compose_loop (chain : list (option DQ)) (indices : list Z)
    (dq_tmp : DQ) (poses_to_plot : list Pose) : outcome (list Pose) :=
  match indices with
  | [] => Ok poses_to_plot
  | i :: indices' =>
      x <- py_index chain i ;;
      dq_tmp <- py_imul dq_tmp x ;;
      compose_loop chain indices' dq_tmp (poses_to_plot ++ [dq_to_pose dq_tmp])
  end.

(** [compute_loop_error(results_dq_H_E, visualize)], with the global
    [num_poses_sets] as an argument. The printed line and the plot are
    output only. *)
Definition compute_loop_error (num_poses_sets : Z)
    (results_dq_H_E : list (option DQ)) (visualize : bool)
    : outcome (Err * Err) :=
  chain <- build_chain num_poses_sets results_dq_H_E ;;
  assert (len chain =? num_poses_sets + 1) ;;
  poses_to_plot <- compose_loop chain (py_range 0 (len chain)) dq_identity [] ;;
  p_first <- py_index poses_to_plot 0 ;;
  p_last <- py_index poses_to_plot (-1) ;;
  let loop_error := compute_pose_error p_first p_last in
  if visualize then
    assert (len poses_to_plot =? len chain) ;;
    Ok loop_error
  else Ok loop_error.

End LoopError.

(** ** An exact instance of the interface *)

(** Modelled from the spec: the [Quaternion] and [DualQuaternion] classes are
    imported by the script and not part of it. The spec describes a
    quaternion as 4 components (x, y, z, w) under the Hamilton product and a
    dual quaternion as an ordered pair (real quaternion, dual quaternion)
    whose product composes rigid transforms. This instance keeps integer
    coefficients, so that the laws hold exactly; it serves to run the
    evaluator on concrete inputs. *)
Module IntDQ.

Record quat : Type := Quat { qx : Z; qy : Z; qz : Z; qw : Z }.

Definition qmul (p q : quat) : quat :=
  {| qx := qw p * qx q + qx p * qw q + qy p * qz q - qz p * qy q;
     qy := qw p * qy q - qx p * qz q + qy p * qw q + qz p * qx q;
     qz := qw p * qz q + qx p * qy q - qy p * qx q + qz p * qw q;
     qw := qw p * qw q - qx p * qx q - qy p * qy q - qz p * qz q |}.

Definition qadd (p q : quat) : quat :=
  {| qx := qx p + qx q; qy := qy p + qy q; qz := qz p + qz q; qw := qw p + qw q |}.

Definition qneg (p : quat) : quat :=
  {| qx := - qx p; qy := - qy p; qz := - qz p; qw := - qw p |}.

Definition qconj (p : quat) : quat :=
  {| qx := - qx p; qy := - qy p; qz := - qz p; qw := qw p |}.

Definition qnorm2 (p : quat) : Z :=
  qx p * qx p + qy p * qy p + qz p * qz p + qw p * qw p.

Record dq : Type := Dq { q_rot : quat; q_dual : quat }.

Definition identity : dq := Dq (Quat 0 0 0 1) (Quat 0 0 0 0).

Definition mul (a b : dq) : dq :=
  Dq (qmul (q_rot a) (q_rot b))
     (qadd (qmul (q_rot a) (q_dual b)) (qmul (q_dual a) (q_rot b))).

(** The inverse of a unit dual quaternion. *)
Definition inverse (a : dq) : dq :=
  let r := qconj (q_rot a) in
  Dq r (qneg (qmul (qmul r (q_dual a)) r)).

(** A pose: position x, y, z and orientation quaternion. *)
Record pose : Type := Pose_ { position : Z * Z * Z; orientation : quat }.

Definition to_pose (a : dq) : pose :=
  let t := qmul (q_dual a) (qconj (q_rot a)) in
  Pose_ (2 * qx t, 2 * qy t, 2 * qz t) (q_rot a).

(** Exact stand-ins for the two distances: the squared distance between the
    positions and the squared distance between the orientation
    quaternions. Both vanish on equal poses. *)
Definition pose_error (p q : pose) : Z * Z :=
  let '(x1, y1, z1) := position p in
  let '(x2, y2, z2) := position q in
  ((x2 - x1) * (x2 - x1) + (y2 - y1) * (y2 - y1) + (z2 - z1) * (z2 - z1),
   qnorm2 (qadd (orientation q) (qneg (orientation p)))).

(** A rigid transform: the rotation part has unit norm. *)
Definition valid (a : dq) : Prop := qnorm2 (q_rot a) = 1.

#[global] Instance ops : DualQuaternionOps dq pose Z := {|
  dq_identity := identity;
  dq_mul := mul;
  dq_inverse := inverse;
  dq_to_pose := to_pose;
  compute_pose_error := pose_error
|}.

(** Half a turn about z, then 2 along x (the dual part is t * r / 2). *)
Definition turn_z : dq := Dq (Quat 0 0 1 0) (Quat 0 (-1) 0 0).
(** Half a turn about x, then 4 along y. *)
Definition turn_x : dq := Dq (Quat 1 0 0 0) (Quat 0 0 2 0).
(** A pure translation by (2, 4, 6). *)
Definition shift : dq := Dq (Quat 0 0 0 1) (Quat 1 2 3 0).

End IntDQ.


(** ** The driver *)

(** A Python value handed around by the driver without being inspected:
    what the solvers and the evaluation return as diagnostics, and the
    driver's own defaults [(-1, -1)] and [0]. *)
Inductive pyval (O : Type) : Type :=
| PyNone
| PyInt (z : Z)
| PyPair (a b : pyval O)
| PyOpaque (x : O).

Arguments PyNone {O}.
Arguments PyInt {O} z.
Arguments PyPair {O} a b.
Arguments PyOpaque {O} x.

(** The fields of [HandEyeConfig] and of the optimization configuration that
    the driver reads. *)
Record HandEyeConfig : Type := {
  use_baseline_approach : bool;
  enable_exhaustive_search : bool
}.

Record OptimizationConfig : Type := {
  enable_optimization : bool;
  optimization_only : bool
}.

(** One element of [get_all_configs()]; the filtering configuration is only
    passed on to imported code. *)
Record algorithm_config : Type := {
  algorithm_name : string;
  hand_eye_config : HandEyeConfig;
  optimization_config : OptimizationConfig
}.

(** The command-line arguments that steer the driver. *)
Record arguments : Type := {
  aligned_poses_B_H_csv_files : list string;
  is_absolute_pose_sensor : option (list Z);
  num_iterations_arg : Z
}.

Section Driver.

Context {DQ Pose Err O : Type} `{Ops : DualQuaternionOps DQ Pose Err}.

#[local] Abbreviation val := (pyval O).

(** The lists of [ResultEntry] that the driver appends to, and the two
    loop-error fields it assigns. *)
Record ResultEntry : Type := {
  dataset_names : list (string * string);
  success : list bool;
  num_initial_poses : list Z;
  num_poses_kept : list val;
  runtimes : list val;
  singular_values : list val;
  bad_singular_value : list val;
  optimization_success : list bool;
  rmse : list val;
  num_inliers : list val;
  loop_error_position : option Err;
  loop_error_orientation : option Err
}.

(** [ResultEntry()]. *)
Definition new_result_entry : ResultEntry :=
  {| dataset_names := []; success := []; num_initial_poses := [];
     num_poses_kept := []; runtimes := []; singular_values := [];
     bad_singular_value := []; optimization_success := []; rmse := [];
     num_inliers := []; loop_error_position := None;
     loop_error_orientation := None |}.

(** The variables of the pair loop that are assigned in the branch of the
    initial algorithm only. They are module globals: a binding survives
    into the next pair, iteration and configuration. [None] is an unbound
    name. *)
Record pair_vars : Type := {
  v_dual_quat_B_H_vec : option (list DQ);
  v_success : option bool;
  v_dq_H_E : option (option DQ);
  v_rmse : option val;
  v_num_inliers : option val;
  v_num_poses_kept : option val;
  v_runtime : option val;
  v_singular_values : option val;
  v_bad_singular_values : option val
}.

Definition unbound_vars : pair_vars :=
  {| v_dual_quat_B_H_vec := None; v_success := None; v_dq_H_E := None;
     v_rmse := None; v_num_inliers := None; v_num_poses_kept := None;
     v_runtime := None; v_singular_values := None;
     v_bad_singular_values := None |}.

(** Reading a name. *)
Definition read_var {A : Type} (name : string) (v : option A) : outcome A :=
  match v with
  | Some a => Ok a
  | None => Raise (NameError name)
  end.

(** What the imported code does for one pose pair, as seen by the driver. *)

(** Lines 204-255, when they complete: time alignment, conversion to dual
    quaternions and the solver ([compute_hand_eye_calibration_BASELINE] or
    [..._RANSAC]). *)
Record initial_result : Type := {
  r_dual_quat_B_H_vec : list DQ;
  r_success : bool;
  r_dq_H_E : option DQ;
  r_rmse : val;
  r_num_inliers : val;
  r_num_poses_kept : val;
  r_runtime : val;
  r_singular_values : val;
  r_bad_singular_values : val
}.

(** Lines 310-324, when they complete: the optimized calibration read back
    and [evaluate_calibration]. *)
Record optimized_result : Type := {
  o_pose_dq : DQ;
  o_rmse : val;
  o_num_inliers : val
}.

Record pair_world : Type := {
  (** reading the two pose files (lines 187-200) *)
  w_read : outcome unit;
  (** the initial algorithm (lines 204-255) *)
  w_initial : outcome initial_result;
  (** writing the unit initial guess (lines 259-267) *)
  w_guess : outcome unit;
  (** [run(...)] of the batch estimator: [None] when it returns, [Some ex]
      when it raises the exception [ex] *)
  w_run : option string;
  (** reading back and evaluating the optimized calibration *)
  w_optimized : outcome optimized_result
}.

(** The environment of a run: the configurations, what the imported code
    does at configuration [c], iteration [it], pair [k], and whether writing
    the result files of an iteration completes. *)
Record world : Type := {
  all_algorithm_configurations : list algorithm_config;
  pair_at : nat -> Z -> Z -> pair_world;
  flush_at : nat -> Z -> outcome unit
}.

(** The lines that the driver prints about its own decisions. *)
Inductive message : Type :=
| MsgRunAlgorithm (name : string)
| MsgRunIterations (n : Z)
| MsgHandCalibrationBetween (files : string * string) (absolute : bool * bool)
| MsgOptimizationFailed (ex : string)
| MsgLoopError (position orientation : Err)
| MsgNoLoopError.

Record state : Type := {
  vars : pair_vars;
  stdout : list message;
  result_entry : ResultEntry;
  results_dq_H_E : list (option DQ);
  results_poses_H_E : list (option Pose);
  pose_pair_num : Z;
  (** the entries whose rows were appended to [results.csv] *)
  results_file : list ResultEntry
}.

Definition initial_state : state :=
  {| vars := unbound_vars; stdout := []; result_entry := new_result_entry;
     results_dq_H_E := []; results_poses_H_E := []; pose_pair_num := 0;
     results_file := [] |}.

(** [print(m)]. *)
Definition print (m : message) (s : state) : state :=
  {| vars := vars s; stdout := stdout s ++ [m]; result_entry := result_entry s;
     results_dq_H_E := results_dq_H_E s;
     results_poses_H_E := results_poses_H_E s;
     pose_pair_num := pose_pair_num s; results_file := results_file s |}.

(** The assignments of lines 215-250. *)
Definition assign_initial (r : initial_result) : pair_vars :=
  {| v_dual_quat_B_H_vec := Some (r_dual_quat_B_H_vec r);
     v_success := Some (r_success r);
     v_dq_H_E := Some (r_dq_H_E r);
     v_rmse := Some (r_rmse r);
     v_num_inliers := Some (r_num_inliers r);
     v_num_poses_kept := Some (r_num_poses_kept r);
     v_runtime := Some (r_runtime r);
     v_singular_values := Some (r_singular_values r);
     v_bad_singular_values := Some (r_bad_singular_values r) |}.

(** Lines 270-276: "Fill in result entries". *)
Definition fill_in_result_entries (pose_files : string * string)
    (success_ : bool) (num_initial : Z) (kept runtime sv bad_sv : val)
    (e : ResultEntry) : ResultEntry :=
  {| dataset_names := dataset_names e ++ [pose_files];
     success := success e ++ [success_];
     num_initial_poses := num_initial_poses e ++ [num_initial];
     num_poses_kept := num_poses_kept e ++ [kept];
     runtimes := runtimes e ++ [runtime];
     singular_values := singular_values e ++ [sv];
     bad_singular_value := bad_singular_value e ++ [bad_sv];
     optimization_success := optimization_success e;
     rmse := rmse e;
     num_inliers := num_inliers e;
     loop_error_position := loop_error_position e;
     loop_error_orientation := loop_error_orientation e |}.

(** The three appends that end both branches of "Run optimization if
    enabled". *)
Definition append_outcome (opt_success : bool) (rmse_ num_inliers_ : val)
    (e : ResultEntry) : ResultEntry :=
  {| dataset_names := dataset_names e;
     success := success e;
     num_initial_poses := num_initial_poses e;
     num_poses_kept := num_poses_kept e;
     runtimes := runtimes e;
     singular_values := singular_values e;
     bad_singular_value := bad_singular_value e;
     optimization_success := optimization_success e ++ [opt_success];
     rmse := rmse e ++ [rmse_];
     num_inliers := num_inliers e ++ [num_inliers_];
     loop_error_position := loop_error_position e;
     loop_error_orientation := loop_error_orientation e |}.

Definition set_loop_error (err : Err * Err) (e : ResultEntry) : ResultEntry :=
  {| dataset_names := dataset_names e;
     success := success e;
     num_initial_poses := num_initial_poses e;
     num_poses_kept := num_poses_kept e;
     runtimes := runtimes e;
     singular_values := singular_values e;
     bad_singular_value := bad_singular_value e;
     optimization_success := optimization_success e;
     rmse := rmse e;
     num_inliers := num_inliers e;
     loop_error_position := Some (fst err);
     loop_error_orientation := Some (snd err) |}.

(** "Store results": the estimate and its pose are appended to the two
    result lists, then the entry is completed and the pair counted. *)
Definition store_results (dq : option DQ) (opt_success : bool)
    (rmse_ num_inliers_ : val) (s : state) : state :=
  {| vars := vars s; stdout := stdout s;
     result_entry := append_outcome opt_success rmse_ num_inliers_ (result_entry s);
     results_dq_H_E := results_dq_H_E s ++ [dq];
     results_poses_H_E :=
       results_poses_H_E s ++
         [match dq with Some d => Some (dq_to_pose d) | None => None end];
     pose_pair_num := pose_pair_num s + 1;
     results_file := results_file s |}.

(** Lines 179-276 of the pair loop: the initial algorithm, or the unit
    initial guess in optimization-only mode, then "Fill in result entries". *)
Definition initial_stage (cfg : algorithm_config) (w : pair_world)
    (pose_files : string * string) (absolute : bool * bool) (s : state)
    : outcome state :=
  let s := print (MsgHandCalibrationBetween pose_files absolute) s in
  _ <- w_read w ;;
  vars_ <- (if negb (optimization_only (optimization_config cfg)) then
              r <- w_initial w ;; Ok (assign_initial r)
            else
              _ <- w_guess w ;; Ok (vars s)) ;;
  success_ <- read_var "success" (v_success vars_) ;;
  dual_quat_B_H_vec <- read_var "dual_quat_B_H_vec" (v_dual_quat_B_H_vec vars_) ;;
  num_poses_kept_ <- read_var "num_poses_kept" (v_num_poses_kept vars_) ;;
  runtime <- read_var "runtime" (v_runtime vars_) ;;
  singular_values_ <- read_var "singular_values" (v_singular_values vars_) ;;
  bad_singular_values <- read_var "bad_singular_values" (v_bad_singular_values vars_) ;;
  Ok {| vars := vars_; stdout := stdout s;
        result_entry := fill_in_result_entries pose_files success_
                    (len dual_quat_B_H_vec) num_poses_kept_ runtime
                    singular_values_ bad_singular_values (result_entry s);
        results_dq_H_E := results_dq_H_E s;
        results_poses_H_E := results_poses_H_E s;
        pose_pair_num := pose_pair_num s;
        results_file := results_file s |}.

(** Lines 278-349: "Run optimization if enabled", else "Use result of initial
    algorithms without optimization". *)
Definition optimization_stage (cfg : algorithm_config) (w : pair_world)
    (s : state) : outcome state :=
  if enable_optimization (optimization_config cfg) then
    let dq_H_E_optimized : option DQ := None in
    let rmse_optimized : val := PyPair (PyInt (-1)) (PyInt (-1)) in
    let num_inliers_optimized : val := PyInt 0 in
    match w_run w with
    | Some ex =>
        let s := print (MsgOptimizationFailed ex) s in
        let optimization_success_ := false in
        Ok (store_results dq_H_E_optimized optimization_success_
              rmse_optimized num_inliers_optimized s)
    | None =>
        let optimization_success_ := true in
        o <- w_optimized w ;;
        Ok (store_results (Some (o_pose_dq o)) optimization_success_
              (o_rmse o) (o_num_inliers o) s)
    end
  else
    dq_H_E <- read_var "dq_H_E" (v_dq_H_E (vars s)) ;;
    rmse_ <- read_var "rmse" (v_rmse (vars s)) ;;
    num_inliers_ <- read_var "num_inliers" (v_num_inliers (vars s)) ;;
    Ok (store_results dq_H_E true rmse_ num_inliers_ s).

(** The body of the loop over [zip(set_of_pose_pairs,
    set_of_is_absolute_sensor_flags)]. *)
Definition process_pair (cfg : algorithm_config) (w : pair_world)
    (pose_files : string * string) (absolute : bool * bool) (s : state)
    : outcome state :=
  s <- initial_stage cfg w pose_files absolute s ;;
  optimization_stage cfg w s.

Fixpoint pair_loop (cfg : algorithm_config) (ws : Z -> pair_world)
    (pairs : list ((string * string) * (bool * bool))) (s : state)
    : outcome state :=
  match pairs with
  | [] => Ok s
  | (pose_files, absolute) :: pairs' =>
      s <- process_pair cfg (ws (pose_pair_num s)) pose_files absolute s ;;
      pair_loop cfg ws pairs' s
  end.

(** The body of [for iteration in range(0, num_iterations)]. The calls
    [init_from_configs] and [check_length] belong to the imported
    [ResultEntry] and are not modelled; the writing of the result files
    (lines 364-392) either completes or raises, as [flush] says. *)
Definition run_iteration (num_poses_sets num_pose_pairs : Z)
    (pairs : list ((string * string) * (bool * bool)))
    (cfg : algorithm_config) (ws : Z -> pair_world) (flush : outcome unit)
    (s : state) : outcome state :=
  let s := {| vars := vars s; stdout := stdout s; result_entry := new_result_entry;
              results_dq_H_E := []; results_poses_H_E := [];
              pose_pair_num := 0; results_file := results_file s |} in
  s <- pair_loop cfg ws pairs s ;;
  assert (len (results_dq_H_E s) =? num_pose_pairs) ;;
  assert (len (results_poses_H_E s) =? num_pose_pairs) ;;
  s <- (if sum_bools (optimization_success (result_entry s)) =? num_pose_pairs then
          err <- compute_loop_error num_poses_sets (results_dq_H_E s) true ;;
          let s := print (MsgLoopError (fst err) (snd err)) s in
          Ok {| vars := vars s; stdout := stdout s;
                result_entry := set_loop_error err (result_entry s);
                results_dq_H_E := results_dq_H_E s;
                results_poses_H_E := results_poses_H_E s;
                pose_pair_num := pose_pair_num s;
                results_file := results_file s |}
        else Ok (print MsgNoLoopError s)) ;;
  _ <- flush ;;
  Ok {| vars := vars s; stdout := stdout s; result_entry := result_entry s;
        results_dq_H_E := results_dq_H_E s;
        results_poses_H_E := results_poses_H_E s;
        pose_pair_num := pose_pair_num s;
        results_file := results_file s ++ [result_entry s] |}.

(** Lines 162-165. *)
Definition num_iterations (cfg : algorithm_config) (a : arguments) : Z :=
  if enable_exhaustive_search (hand_eye_config cfg) || use_baseline_approach (hand_eye_config cfg)
  then 1
  else num_iterations_arg a.

Fixpoint iteration_loop (num_poses_sets num_pose_pairs : Z)
    (pairs : list ((string * string) * (bool * bool)))
    (cfg : algorithm_config) (ws : Z -> Z -> pair_world)
    (flush : Z -> outcome unit) (iterations : list Z) (s : state)
    : outcome state :=
  match iterations with
  | [] => Ok s
  | iteration :: iterations' =>
      s <- run_iteration num_poses_sets num_pose_pairs pairs cfg
             (ws iteration) (flush iteration) s ;;
      iteration_loop num_poses_sets num_pose_pairs pairs cfg ws flush
        iterations' s
  end.

(** The body of the loop over [all_algorithm_configurations]. *)
Definition run_config (num_poses_sets num_pose_pairs : Z)
    (pairs : list ((string * string) * (bool * bool))) (a : arguments)
    (cfg : algorithm_config) (ws : Z -> Z -> pair_world)
    (flush : Z -> outcome unit) (s : state) : outcome state :=
  let s := print (MsgRunAlgorithm (algorithm_name cfg)) s in
  let num_iterations_ := num_iterations cfg a in
  let s := print (MsgRunIterations num_iterations_) s in
  iteration_loop num_poses_sets num_pose_pairs pairs cfg ws flush
    (py_range 0 num_iterations_) s.

Fixpoint config_loop (num_poses_sets num_pose_pairs : Z)
    (pairs : list ((string * string) * (bool * bool))) (a : arguments)
    (w : world) (c : nat) (cfgs : list algorithm_config) (s : state)
    : outcome state :=
  match cfgs with
  | [] => Ok s
  | cfg :: cfgs' =>
      s <- run_config num_poses_sets num_pose_pairs pairs a cfg
             (pair_at w c) (flush_at w c) s ;;
      config_loop num_poses_sets num_pose_pairs pairs a w (S c) cfgs' s
  end.

(** The script, from [args = parser.parse_args()] on. The parser makes
    [--aligned_poses_B_H_csv_files] required, so the first assertion of the
    script holds; the preparation of the result file and folders is output
    only. *)
Definition main (a : arguments) (w : world) : outcome state :=
  let poses_B_H_csv_files := aligned_poses_B_H_csv_files a in
  let num_poses_sets := len poses_B_H_csv_files in
  assert (2 <=? num_poses_sets) ;;
  let is_absolute_pose_sensor_flags :=
    match is_absolute_pose_sensor a with
    | None => replicate (Z.to_nat num_poses_sets) false
    | Some flags => (fun flag => negb (flag =? 0)) <$> flags
    end in
  assert (len is_absolute_pose_sensor_flags =? num_poses_sets) ;;
  let set_of_pose_pairs := combinations2 poses_B_H_csv_files in
  let set_of_is_absolute_sensor_flags :=
    combinations2 is_absolute_pose_sensor_flags in
  let num_pose_pairs := len set_of_pose_pairs in
  assert (len set_of_pose_pairs =? len is_absolute_pose_sensor_flags) ;;
  config_loop num_poses_sets num_pose_pairs
    (zip set_of_pose_pairs set_of_is_absolute_sensor_flags) a w 0%nat
    (all_algorithm_configurations w) initial_state.

End Driver.

(** ** Directories: [create_path] *)

(** How a call of [os.makedirs] ends: it returns, it raises [OSError] with
    an error number, or it raises something else. *)
Inductive makedirs_result : Type :=
| MakedirsReturns
| MakedirsOSError (errno : Z)
| MakedirsOtherError.

(** What [create_path] uses of [os], [os.path] and [errno], over a type [D]
    of states of the directory tree. [os_makedirs] gives the tree after the
    call, which other processes may have changed too, and how the call
    ended. *)
Class DirectoryOps (D : Type) : Type := {
  os_path_dirname : string -> string;
  os_path_exists : D -> string -> bool;
  os_makedirs : D -> string -> D * makedirs_result;
  errno_EEXIST : Z
}.

Section CreatePath.

Context {D : Type} `{Dirs : DirectoryOps D}.

(** [create_path(path)]: the tree after the call and its outcome. An
    [OSError] other than [EEXIST], or another exception of [os.makedirs], is
    not caught. *)
Definition create_path (path : string) (d : D) : D * outcome unit :=
  if negb (os_path_exists d (os_path_dirname path)) then
    match os_makedirs d (os_path_dirname path) with
    | (d', MakedirsReturns) => (d', Ok tt)
    | (d', MakedirsOSError errno) =>
        if negb (errno =? errno_EEXIST) then (d', Raise LibraryError)
        else (d', Ok tt)
    | (d', MakedirsOtherError) => (d', Raise LibraryError)
    end
  else (d, Ok tt).

End CreatePath.

(** ** Result files: the end of an iteration *)

(** The regular files that the script writes: the text written to each path,
    piece by piece. A path is in the store when the file exists. Directories
    are taken to be there ([create_path] is called before each file is
    opened), and no other process writes these files. *)
Abbreviation file_store := (gmap string (list string)).

(** The modes ['w'] and ['a'] of [open]. *)
Inductive open_mode : Type := ModeWrite | ModeAppend.

(** [os.path.exists(path)] for a regular file. *)
Definition file_exists (fs : file_store) (path : string) : bool :=
  bool_decide (is_Some (fs !! path)).

(** [open(path, mode)]: ['w'] creates the file or empties it, ['a'] creates
    it or leaves it as it is. *)
Definition open_file (path : string) (mode : open_mode) (fs : file_store)
    : file_store :=
  match mode, fs !! path with
  | ModeAppend, Some _ => fs
  | _, _ => <[path := []]> fs
  end.

(** [f.write(text)] on a file opened at [path]: the text goes to the end. *)
Definition write_file (path : string) (text : string) (fs : file_store)
    : file_store :=
  match fs !! path with
  | Some content => <[path := content ++ [text]]> fs
  | None => fs
  end.

(** [args.result_directory + "/results.csv"]. *)
Definition result_file_path (result_directory : string) : string :=
  result_directory +:+ "/results.csv".

(** ["{}/dq_H_E/{}_pose_pair_{}_dq_H_E.txt".format(args.result_directory,
    algorithm_name, i)]. *)
Definition dq_H_E_file (result_directory algorithm_name : string) (i : Z) : string :=
  result_directory +:+ "/dq_H_E/" +:+ algorithm_name +:+ "_pose_pair_"
    +:+ pretty i +:+ "_dq_H_E.txt".

(** ["{}/poses_H_E/{}_pose_pair_{}_pose_H_E.txt".format(args.result_directory,
    algorithm_name, i)]. *)
Definition poses_H_E_file (result_directory algorithm_name : string) (i : Z) : string :=
  result_directory +:+ "/poses_H_E/" +:+ algorithm_name +:+ "_pose_pair_"
    +:+ pretty i +:+ "_pose_H_E.txt".

Section ResultFiles.

Context {DQ Pose Err O : Type}.

(** The texts that imported code produces: the line of an estimate
    ([np.array_str] of [results_dq_H_E[i].dq], formatted), the line of a pose
    ([np.array_str] of [results_poses_H_E[i]], formatted), and
    [result_entry.write_pose_pair_to_csv_line(i)]. *)
Variable format_dq : DQ -> string.
Variable format_pose : option Pose -> string.
Variable write_pose_pair_to_csv_line : ResultEntry (Err := Err) (O := O) -> Z -> string.

(** The body of [for i in range(0, num_pose_pairs)] of lines 366-392, over
    the indices that are left. *)
Fixpoint write_pair_files (result_directory algorithm_name : string)
    (results_dq_H_E : list (option DQ)) (results_poses_H_E : list (option Pose))
    (result_entry : ResultEntry) (indices : list Z) (fs : file_store)
    : outcome file_store :=
  match indices with
  | [] => Ok fs
  | i :: indices' =>
      let dq_H_E_file_ := dq_H_E_file result_directory algorithm_name i in
      let poses_H_E_file_ := poses_H_E_file result_directory algorithm_name i in
      append_write <-
        (if file_exists fs dq_H_E_file_ then
           assert (file_exists fs poses_H_E_file_) ;; Ok ModeAppend
         else
           assert (negb (file_exists fs poses_H_E_file_)) ;; Ok ModeWrite) ;;
      let fs := open_file dq_H_E_file_ append_write fs in
      let fs := open_file poses_H_E_file_ append_write fs in
      dq <- py_index results_dq_H_E i ;;
      fs <- match dq with
            | Some d =>
                let fs := write_file dq_H_E_file_ (format_dq d) fs in
                pose <- py_index results_poses_H_E i ;;
                Ok (write_file poses_H_E_file_ (format_pose pose) fs)
            | None => Ok fs
            end ;;
      let fs :=
        write_file (result_file_path result_directory)
          (write_pose_pair_to_csv_line result_entry i) fs in
      write_pair_files result_directory algorithm_name results_dq_H_E
        results_poses_H_E result_entry indices' fs
  end.

(** Lines 364-392: "Write to result files". *)
Definition write_result_files (result_directory algorithm_name : string)
    (num_pose_pairs : Z)
    (results_dq_H_E : list (option DQ)) (results_poses_H_E : list (option Pose))
    (result_entry : ResultEntry) (fs : file_store) : outcome file_store :=
  let fs := open_file (result_file_path result_directory) ModeAppend fs in
  write_pair_files result_directory algorithm_name results_dq_H_E
    results_poses_H_E result_entry (py_range 0 num_pose_pairs) fs.

End ResultFiles.

(** ** Sample runs *)

(** Concrete inputs on which the driver is evaluated: three pose files, the
    integer dual quaternions above, and environments in which the imported
    code completes. *)
Module Sample.

Definition files3 : list string := ["cam0.csv"; "cam1.csv"; "cam2.csv"]%string.

Definition args3 (n : Z) : arguments :=
  {| aligned_poses_B_H_csv_files := files3;
     is_absolute_pose_sensor := None;
     num_iterations_arg := n |}.

Definition ransac : algorithm_config :=
  {| algorithm_name := "RANSAC";
     hand_eye_config := {| use_baseline_approach := false;
                    enable_exhaustive_search := false |};
     optimization_config := {| enable_optimization := false;
                        optimization_only := false |} |}.

Definition baseline : algorithm_config :=
  {| algorithm_name := "baseline";
     hand_eye_config := {| use_baseline_approach := true;
                    enable_exhaustive_search := false |};
     optimization_config := {| enable_optimization := false;
                        optimization_only := false |} |}.

Definition ransac_optimized : algorithm_config :=
  {| algorithm_name := "RANSAC_optimized";
     hand_eye_config := {| use_baseline_approach := false;
                    enable_exhaustive_search := false |};
     optimization_config := {| enable_optimization := true;
                        optimization_only := false |} |}.

Definition optimization_only_config : algorithm_config :=
  {| algorithm_name := "optimization_only";
     hand_eye_config := {| use_baseline_approach := false;
                    enable_exhaustive_search := false |};
     optimization_config := {| enable_optimization := true;
                        optimization_only := true |} |}.

(** The transforms between three frames that agree with each other: the
    result of pair [k] in the order (0, 1), (0, 2), (1, 2). *)
Definition consistent (k : Z) : IntDQ.dq :=
  if k =? 0 then IntDQ.turn_z
  else if k =? 1 then IntDQ.mul IntDQ.turn_z IntDQ.turn_x
  else IntDQ.turn_x.

(** A solver call that succeeds with estimate [d] from [n] aligned poses. *)
Definition solved (d : IntDQ.dq) (n : nat) : initial_result (DQ := IntDQ.dq) (O := Z) :=
  {| r_dual_quat_B_H_vec := replicate n d;
     r_success := true;
     r_dq_H_E := Some d;
     r_rmse := PyPair (PyOpaque 1) (PyOpaque 2);
     r_num_inliers := PyInt (Z.of_nat n);
     r_num_poses_kept := PyInt (Z.of_nat n);
     r_runtime := PyOpaque 7;
     r_singular_values := PyOpaque 8;
     r_bad_singular_values := PyInt 0 |}.

(** A solver call that fails: no estimate and no diagnostics. *)
Definition failed (n : nat) : initial_result (DQ := IntDQ.dq) (O := Z) :=
  {| r_dual_quat_B_H_vec := replicate n IntDQ.identity;
     r_success := false;
     r_dq_H_E := None;
     r_rmse := PyPair PyNone PyNone;
     r_num_inliers := PyNone;
     r_num_poses_kept := PyNone;
     r_runtime := PyNone;
     r_singular_values := PyNone;
     r_bad_singular_values := PyNone |}.

Definition pair_ok (d : IntDQ.dq) (n : nat) : pair_world (DQ := IntDQ.dq) (O := Z) :=
  {| w_read := Ok tt;
     w_initial := Ok (solved d n);
     w_guess := Ok tt;
     w_run := None;
     w_optimized := Ok {| o_pose_dq := d;
                          o_rmse := PyPair (PyOpaque 3) (PyOpaque 4);
                          o_num_inliers := PyInt (Z.of_nat n) |} |}.

(** As [pair_ok], but the solver fails. *)
Definition pair_solver_fails (d : IntDQ.dq) (n : nat) : pair_world (DQ := IntDQ.dq) (O := Z) :=
  {| w_read := Ok tt;
     w_initial := Ok (failed n);
     w_guess := Ok tt;
     w_run := None;
     w_optimized := Ok {| o_pose_dq := d;
                          o_rmse := PyPair (PyOpaque 3) (PyOpaque 4);
                          o_num_inliers := PyInt (Z.of_nat n) |} |}.

(** As [pair_ok], but the optimizer process fails. *)
Definition pair_optimizer_fails (d : IntDQ.dq) (n : nat) : pair_world (DQ := IntDQ.dq) (O := Z) :=
  {| w_read := Ok tt;
     w_initial := Ok (solved d n);
     w_guess := Ok tt;
     w_run := Some "exit code 1"%string;
     w_optimized := Raise LibraryError |}.

(** The state of a run over these types, and the state it starts in. *)
Definition run_state : Type :=
  state (DQ := IntDQ.dq) (Pose := IntDQ.pose) (Err := Z) (O := Z).

Definition start : run_state := initial_state.

(** The same transforms, by the positions of the two files. *)
Definition result_of (i j : nat) : IntDQ.dq :=
  match i, j with
  | O, S O => consistent 0
  | O, _ => consistent 1
  | _, _ => consistent 2
  end.

(** Six results for four files; [x] and [y] are the results of the pairs
    (0, 2) and (1, 3), which are not on the loop. *)
Definition results4 (x y : IntDQ.dq) : list (option IntDQ.dq) :=
  Some <$> [IntDQ.turn_z; x; IntDQ.shift; IntDQ.turn_x; y; IntDQ.turn_z].

(** Every call completes and the results agree with each other. *)
Definition consistent_world (cfgs : list algorithm_config) : world (DQ := IntDQ.dq) (O := Z) :=
  {| all_algorithm_configurations := cfgs;
     pair_at := fun _ _ k => pair_ok (consistent k) (10 + Z.to_nat k);
     flush_at := fun _ _ => Ok tt |}.

(** The solver fails for the pair (cam0, cam2), in every iteration. *)
Definition solver_failure_world (cfgs : list algorithm_config) : world (DQ := IntDQ.dq) (O := Z) :=
  {| all_algorithm_configurations := cfgs;
     pair_at := fun _ _ k =>
       if k =? 1 then pair_solver_fails (consistent k) 10
       else pair_ok (consistent k) 10;
     flush_at := fun _ _ => Ok tt |}.

(** The optimizer process fails for the pair (cam0, cam2). *)
Definition optimizer_failure_world (cfgs : list algorithm_config) : world (DQ := IntDQ.dq) (O := Z) :=
  {| all_algorithm_configurations := cfgs;
     pair_at := fun _ _ k =>
       if k =? 1 then pair_optimizer_fails (consistent k) 10
       else pair_ok (consistent k) 10;
     flush_at := fun _ _ => Ok tt |}.

(** The pairs of the three files, each with the flags of its two files. *)
Definition pairs3 : list ((string * string) * (bool * bool)) :=
  zip (combinations2 files3) (combinations2 [false; false; false]).

(** Estimates and poses of an iteration in which the second pair has no
    estimate. *)
Definition estimates3 : list (option IntDQ.dq) :=
  [Some (consistent 0); None; Some (consistent 2)].

Definition poses3 : list (option IntDQ.pose) :=
  [Some (IntDQ.to_pose (consistent 0)); None; Some (IntDQ.to_pose (consistent 2))].

(** A directory tree for running [create_path]: the list of the directories
    that exist, with the [dirname] of [posixpath] (the part before the last
    slash, without trailing slashes unless it is made of slashes only).
    [os.makedirs] fails with ENOENT (2) on the empty path and with EEXIST
    (17) on a directory that exists. *)
Fixpoint drop_while {A : Type} (f : A -> bool) (l : list A) : list A :=
  match l with
  | [] => []
  | x :: l' => if f x then drop_while f l' else l
  end.

(** The slash has code 47. *)
Definition is_sep (c : Ascii.ascii) : bool := bool_decide (c = Ascii.ascii_of_nat 47).

Definition dirname (path : string) : string :=
  let head_rev :=
    drop_while (fun c => negb (is_sep c)) (rev (String.list_ascii_of_string path)) in
  if forallb is_sep head_rev then String.string_of_list_ascii (rev head_rev)
  else String.string_of_list_ascii (rev (drop_while is_sep head_rev)).

Definition makedirs (d : list string) (path : string) : list string * makedirs_result :=
  if bool_decide (path = "") then (d, MakedirsOSError 2)
  else if bool_decide (path ∈ d) then (d, MakedirsOSError 17)
  else (path :: d, MakedirsReturns).

#[global] Instance dirs : DirectoryOps (list string) := {|
  os_path_dirname := dirname;
  os_path_exists := fun d path => bool_decide (path ∈ d);
  os_makedirs := makedirs;
  errno_EEXIST := 17
|}.

(** The texts of the lines written to the result files. *)
Definition format_dq (d : IntDQ.dq) : string :=
  "dq " +:+ pretty (IntDQ.qw (IntDQ.q_rot d)).

Definition format_pose (p : option IntDQ.pose) : string :=
  match p with
  | Some q => "pose " +:+ pretty (IntDQ.qw (IntDQ.orientation q))
  | None => "None"
  end.

Definition csv_line (e : ResultEntry (Err := Z) (O := Z)) (i : Z) : string :=
  "row " +:+ pretty i.

End Sample.

(** ** Definitions used to state the properties *)

(** The position, in [combinations2 l] with [n = len l], of the first pair
    whose left element is at position [i]: the sum of [n - 1 - k] over
    [k < i]. After [i] rounds of the stride [idx += num_poses_sets - i - 1]
    the index is [row_start num_poses_sets i]. *)
Fixpoint row_start (n : Z) (i : nat) : Z :=
  match i with
  | O => 0
  | S i' => row_start n i' + (n - 1 - Z.of_nat i')
  end.

(** The indices visited by the stride loop, for [i = 0 .. N - 3]. *)
Definition stride_indices (N : Z) : list Z :=
  (fun i : nat => row_start N (S i)) <$> seq 0 (Z.to_nat (N - 2)).

(** All indices at which [compute_loop_error] reads [results_dq_H_E]. *)
Definition chain_indices (N : Z) : list Z :=
  0 :: stride_indices N ++ [N - 2].

(** The position of the pair of positions [(i, j)], [i < j < n], in
    [combinations2] of a list of length [n]. *)
Fixpoint pair_position (n i j : nat) : nat :=
  match i with
  | O => (j - 1)%nat
  | S i' => ((n - 1) + pair_position (n - 1) i' (j - 1))%nat
  end.

(** Running [f] over a list, left to right, stopping at the first exception. *)
Fixpoint mapM {A B : Type} (f : A -> outcome B) (l : list A) : outcome (list B) :=
  match l with
  | [] => Ok []
  | x :: l' => y <- f x ;; ys <- mapM f l' ;; Ok (y :: ys)
  end.

Section LoopErrorSpec.

Context {DQ Pose Err : Type} `{Ops : DualQuaternionOps DQ Pose Err}.

(** The poses of the running products [d * c1], [d * c1 * c2], ... *)
Fixpoint scan_poses (d : DQ) (cs : list DQ) : list Pose :=
  match cs with
  | [] => []
  | c :: cs' => dq_to_pose (dq_mul d c) :: scan_poses (dq_mul d c) cs'
  end.

(** The pairwise results of [n] pose files, in the order in which the driver
    produces them, when [f i j] is the result for the files at positions [i]
    and [j]. *)
Definition pairwise_results (f : nat -> nat -> DQ) (n : nat) : list (option DQ) :=
  (fun p : nat * nat => Some (f p.1 p.2)) <$> combinations2 (seq 0 n).

End LoopErrorSpec.

Section DriverSpec.

Context {DQ Pose Err O : Type} `{Ops : DualQuaternionOps DQ Pose Err}.

(** The configurations for which the driver runs a single iteration. *)
Definition deterministic (cfg : algorithm_config) : bool :=
  use_baseline_approach (hand_eye_config cfg) || enable_exhaustive_search (hand_eye_config cfg).

(** Every per-pair list of [e'] starts with the corresponding list of [e]:
    what was recorded in [e] is still there, unchanged, in [e']. *)
Definition entry_extends (e e' : ResultEntry (Err := Err) (O := O)) : Prop :=
  dataset_names e `prefix_of` dataset_names e' /\
  success e `prefix_of` success e' /\
  num_initial_poses e `prefix_of` num_initial_poses e' /\
  num_poses_kept e `prefix_of` num_poses_kept e' /\
  runtimes e `prefix_of` runtimes e' /\
  singular_values e `prefix_of` singular_values e' /\
  bad_singular_value e `prefix_of` bad_singular_value e' /\
  optimization_success e `prefix_of` optimization_success e' /\
  rmse e `prefix_of` rmse e' /\
  num_inliers e `prefix_of` num_inliers e'.

(** The state in which [run_iteration] enters the pair loop: a fresh
    [ResultEntry] and empty result lists; the variables, the printed lines
    and the results file are kept. *)
Definition begin_iteration (s : state (DQ := DQ) (Pose := Pose) (Err := Err) (O := O))
    : state (DQ := DQ) (Pose := Pose) (Err := Err) (O := O) :=
  {| vars := vars s; stdout := stdout s; result_entry := new_result_entry;
     results_dq_H_E := []; results_poses_H_E := [];
     pose_pair_num := 0; results_file := results_file s |}.

(** Each of the ten per-pair lists of a [ResultEntry] has [k] elements. *)
Definition entry_complete (k : nat) (e : ResultEntry (Err := Err) (O := O)) : Prop :=
  length (dataset_names e) = k /\
  length (success e) = k /\
  length (num_initial_poses e) = k /\
  length (num_poses_kept e) = k /\
  length (runtimes e) = k /\
  length (singular_values e) = k /\
  length (bad_singular_value e) = k /\
  length (optimization_success e) = k /\
  length (rmse e) = k /\
  length (num_inliers e) = k.

(** The poses that belong to a list of estimates: [to_pose()] of each
    estimate, [None] for [None]. *)
Definition poses_of (estimates : list (option DQ)) : list (option Pose) :=
  (fun dq : option DQ => dq_to_pose <$> dq) <$> estimates.

(** What the optimization branch stores for a pair: the optimized estimate,
    or [None] when [run] raised. *)
Definition optimized_estimate (w : pair_world (DQ := DQ) (O := O)) : option DQ :=
  match w_run w with
  | Some _ => None
  | None => match w_optimized w with
            | Ok o => Some (o_pose_dq o)
            | _ => None
            end
  end.

(** [dq is not None]. *)
Definition is_not_none (dq : option DQ) : bool :=
  match dq with
  | Some _ => true
  | None => false
  end.

(** Whether [run] returned for a pair. *)
Definition optimizer_returned (w : pair_world (DQ := DQ) (O := O)) : bool :=
  match w_run w with
  | Some _ => false
  | None => true
  end.

(** The iterations of a whole run: those of each configuration, added up. *)
Definition total_iterations (a : arguments) (cfgs : list algorithm_config) : nat :=
  foldr (fun cfg n => (Z.to_nat (num_iterations cfg a) + n)%nat) 0%nat cfgs.

End DriverSpec.

(** The text of a file, empty for a file that does not exist. *)
Definition content (fs : file_store) (path : string) : list string :=
  default [] (fs !! path).

(** For every algorithm and pair index, the file of estimates and the file
    of poses both exist or both do not. *)
Definition files_paired (result_directory : string) (fs : file_store) : Prop :=
  forall (algorithm_name : string) (i : Z),
    file_exists fs (dq_H_E_file result_directory algorithm_name i)
    = file_exists fs (poses_H_E_file result_directory algorithm_name i).

(** The line that a pair adds to its file of estimates and to its file of
    poses: none when the estimate is [None]. *)
Definition estimate_lines {DQ : Type} (format_dq : DQ -> string)
    (dq : option DQ) : list string :=
  match dq with
  | Some d => [format_dq d]
  | None => []
  end.

Definition pose_lines {DQ Pose : Type} (format_pose : option Pose -> string)
    (dq : option DQ) (pose : option Pose) : list string :=
  match dq with
  | Some _ => [format_pose pose]
  | None => []
  end.

(** ** Python lists: facts *)

Lemma py_index_nonneg {A : Type} (l : list A) (i : Z) :
  0 <= i ->
  py_index l i = match l !! Z.to_nat i with
                 | Some x => Ok x
                 | None => Raise IndexError
                 end.
Proof.
  intros Hi. unfold py_index.
  destruct (Z.ltb_spec i 0) as [?|_]; [lia|].
  destruct (Z.ltb_spec i 0) as [?|_]; [lia|]. reflexivity.
Qed.

Lemma py_index_lookup {A : Type} (l : list A) (k : nat) (x : A) :
  l !! k = Some x -> py_index l (Z.of_nat k) = Ok x.
Proof.
  intros H. rewrite py_index_nonneg by lia. rewrite Nat2Z.id, H. reflexivity.
Qed.

Lemma py_index_last {A : Type} (l : list A) (x : A) :
  py_index (l ++ [x]) (-1) = Ok x.
Proof.
  unfold py_index, len. rewrite length_app. simpl.
  destruct (Z.ltb_spec (-1 + Z.of_nat (length l + 1)) 0) as [?|_]; [lia|].
  replace (Z.to_nat (-1 + Z.of_nat (length l + 1))) with (length l + 0)%nat by lia.
  rewrite lookup_app_r by lia.
  replace (length l + 0 - length l)%nat with 0%nat by lia. reflexivity.
Qed.

Lemma py_range_0 (n : nat) : py_range 0 (Z.of_nat n) = Z.of_nat <$> seq 0 n.
Proof.
  unfold py_range. rewrite Z.sub_0_r, Nat2Z.id.
  apply list_fmap_ext. intros _ k _. lia.
Qed.

Lemma length_py_range (lo hi : Z) : length (py_range lo hi) = Z.to_nat (hi - lo).
Proof. unfold py_range. rewrite length_fmap, length_seq. reflexivity. Qed.

(** ** Combinations: facts *)

Lemma choose_0 (n : nat) : choose n 0 = 1%nat.
Proof. destruct n; reflexivity. Qed.

Lemma choose_1 (n : nat) : choose n 1 = n.
Proof.
  induction n as [|n IH]; [reflexivity|].
  change (choose (S n) 1) with (choose n 0 + choose n 1)%nat.
  rewrite choose_0, IH. reflexivity.
Qed.

Lemma choose_2_double (n : nat) : (2 * choose n 2 = n * (n - 1))%nat.
Proof.
  induction n as [|n IH]; [reflexivity|].
  change (choose (S n) 2) with (choose n 1 + choose n 2)%nat.
  rewrite choose_1. destruct n; simpl in *; lia.
Qed.

Lemma length_combinations2 {A : Type} (l : list A) :
  length (combinations2 l) = choose (length l) 2.
Proof.
  induction l as [|x l IH]; [reflexivity|].
  change (choose (length (x :: l)) 2)
    with (choose (length l) 1 + choose (length l) 2)%nat.
  simpl. rewrite length_app, length_fmap, IH, choose_1. reflexivity.
Qed.

(** The pairs of a list of files are the pairs of their positions, file by
    file: reasoning on positions loses nothing. *)
Lemma combinations2_fmap {A B : Type} (g : A -> B) (l : list A) :
  combinations2 (g <$> l) = (fun p : A * A => (g p.1, g p.2)) <$> combinations2 l.
Proof.
  induction l as [|x l IH]; [reflexivity|].
  cbn [fmap list_fmap combinations2] in *.
  fold (list_fmap A B g l). fold (fmap g l).
  rewrite IH, fmap_app, <- !list_fmap_compose. reflexivity.
Qed.

Lemma combinations2_lookup {A : Type} (l : list A) (i j : nat) (a b : A) :
  (i < j)%nat -> l !! i = Some a -> l !! j = Some b ->
  combinations2 l !! pair_position (length l) i j = Some (a, b).
Proof.
  revert i j. induction l as [|x l IH]; intros i j Hij Ha Hb; [discriminate|].
  destruct j as [|j]; [lia|].
  change ((x :: l) !! S j) with (l !! j) in Hb.
  change (combinations2 (x :: l)) with ((pair x <$> l) ++ combinations2 l).
  destruct i as [|i].
  - injection Ha as <-.
    change (pair_position (length (x :: l)) 0 (S j)) with (S j - 1)%nat.
    replace (S j - 1)%nat with j by lia.
    rewrite lookup_app_l by (rewrite length_fmap; eapply lookup_lt_Some; eauto).
    rewrite list_lookup_fmap, Hb. reflexivity.
  - change ((x :: l) !! S i) with (l !! i) in Ha.
    change (pair_position (length (x :: l)) (S i) (S j))
      with ((S (length l) - 1) + pair_position (S (length l) - 1) i (S j - 1))%nat.
    replace (S (length l) - 1)%nat with (length l) by lia.
    replace (S j - 1)%nat with j by lia.
    rewrite lookup_app_r by (rewrite length_fmap; lia).
    rewrite length_fmap.
    replace (length l + pair_position (length l) i j - length l)%nat
      with (pair_position (length l) i j) by lia.
    apply IH; [lia|assumption|assumption].
Qed.

Lemma row_start_succ (n : Z) (i : nat) :
  row_start n (S i) = (n - 1) + row_start (n - 1) i.
Proof.
  induction i as [|i IH]; [simpl; lia|].
  change (row_start n (S (S i))) with (row_start n (S i) + (n - 1 - Z.of_nat (S i))).
  rewrite IH. simpl row_start. lia.
Qed.

Lemma pair_position_row_start (n i j : nat) :
  (i < j < n)%nat ->
  Z.of_nat (pair_position n i j) = row_start (Z.of_nat n) i + Z.of_nat (j - i - 1).
Proof.
  revert n j. induction i as [|i IH]; intros n j H.
  - simpl. f_equal. lia.
  - rewrite row_start_succ. simpl pair_position.
    rewrite Nat2Z.inj_add, (IH (n - 1)%nat (j - 1)%nat) by lia.
    replace (Z.of_nat (n - 1)) with (Z.of_nat n - 1) by lia.
    replace (j - 1 - i - 1)%nat with (j - S i - 1)%nat by lia. lia.
Qed.

(** ** The chain of [compute_loop_error]: facts *)

Lemma mapM_ext {A B : Type} (f g : A -> outcome B) (l : list A) :
  (forall x, x ∈ l -> f x = g x) -> mapM f l = mapM g l.
Proof.
  induction l as [|x l IH]; intros H; [reflexivity|].
  simpl. rewrite (H x) by apply list_elem_of_here.
  rewrite IH; [reflexivity|].
  intros y Hy. apply H. apply list_elem_of_further, Hy.
Qed.

Lemma mapM_fmap_ok {A B C : Type} (f : B -> outcome C) (g : A -> B)
    (h : A -> C) (l : list A) :
  (forall x, x ∈ l -> f (g x) = Ok (h x)) -> mapM f (g <$> l) = Ok (h <$> l).
Proof.
  induction l as [|x l IH]; intros H; [reflexivity|].
  change (g <$> x :: l) with (g x :: (g <$> l)).
  simpl mapM. rewrite (H x) by apply list_elem_of_here.
  rewrite IH; [reflexivity|].
  intros y Hy. apply H. apply list_elem_of_further, Hy.
Qed.

Section LoopErrorFacts.

Context {DQ Pose Err : Type} `{Ops : DualQuaternionOps DQ Pose Err}.

(** The stride loop reads [results_dq_H_E] at the row starts, in order, and
    its budget suffices. *)
Lemma chain_loop_mapM (fuel : nat) (N : Z) (rs : list (option DQ)) (k : nat)
    (chain : list (option DQ)) :
  (Z.to_nat (N - 2) - k <= fuel)%nat ->
  chain_loop fuel N rs (Z.of_nat k) (row_start N k) chain =
    (xs <- mapM (py_index rs)
             ((fun i : nat => row_start N (S i)) <$> seq k (Z.to_nat (N - 2) - k)) ;;
     Ok (chain ++ xs)).
Proof.
  revert k chain. induction fuel as [|fuel IH]; intros k chain Hfuel.
  - unfold chain_loop.
    destruct (Z.ltb_spec (Z.of_nat k) (N - 2)) as [Hlt|Hge]; [lia|].
    replace (Z.to_nat (N - 2) - k)%nat with 0%nat by lia.
    simpl. rewrite app_nil_r. reflexivity.
  - cbn [chain_loop].
    destruct (Z.ltb_spec (Z.of_nat k) (N - 2)) as [Hlt|Hge].
    + replace (Z.to_nat (N - 2) - k)%nat with (S (Z.to_nat (N - 2) - S k)) by lia.
      cbn [seq fmap list_fmap mapM].
      replace (row_start N k + (N - Z.of_nat k - 1)) with (row_start N (S k))
        by (simpl row_start; lia).
      destruct (py_index rs (row_start N (S k))) as [x| |]; simpl; try reflexivity.
      replace (Z.of_nat k + 1) with (Z.of_nat (S k)) by lia.
      rewrite IH by lia.
      destruct (mapM _ _) as [xs| |]; simpl; try reflexivity.
      rewrite <- app_assoc. reflexivity.
    + replace (Z.to_nat (N - 2) - k)%nat with 0%nat by lia.
      simpl. rewrite app_nil_r. reflexivity.
Qed.

(** [build_chain] reads exactly [chain_indices], in that order. *)
Lemma build_chain_unfold (N : Z) (rs : list (option DQ)) :
  build_chain N rs =
    (x0 <- py_index rs 0 ;;
     xs <- mapM (py_index rs) (stride_indices N) ;;
     xl <- py_index rs (N - 2) ;;
     inv <- py_inverse xl ;;
     Ok ([Some dq_identity; x0] ++ xs ++ [Some inv])).
Proof.
  unfold build_chain, stride_indices.
  destruct (py_index rs 0) as [x0| |]; simpl; try reflexivity.
  rewrite (chain_loop_mapM _ N rs 0%nat) by lia.
  rewrite Nat.sub_0_r.
  destruct (mapM _ _) as [xs| |]; simpl; reflexivity.
Qed.

(** The composition loop over a chain without [None]. *)
Lemma compose_loop_scan (pre cs : list DQ) (d : DQ) (acc : list Pose) :
  compose_loop (Some <$> (pre ++ cs))
    (Z.of_nat <$> seq (length pre) (length cs)) d acc =
  Ok (acc ++ scan_poses d cs).
Proof.
  revert pre d acc. induction cs as [|c cs IH]; intros pre d acc.
  - simpl. rewrite app_nil_r. reflexivity.
  - cbn [length seq fmap list_fmap compose_loop scan_poses].
    rewrite (py_index_lookup _ _ (Some c)).
    2:{ rewrite list_lookup_fmap, lookup_app_r by lia.
        rewrite Nat.sub_diag. reflexivity. }
    simpl.
    specialize (IH (pre ++ [c]) (dq_mul d c) (acc ++ [dq_to_pose (dq_mul d c)])).
    rewrite <- app_assoc in IH. simpl in IH.
    rewrite length_app in IH. simpl in IH.
    replace (length pre + 1)%nat with (S (length pre)) in IH by lia.
    rewrite IH, <- app_assoc. reflexivity.
Qed.

Lemma length_scan_poses (d : DQ) (cs : list DQ) :
  length (scan_poses d cs) = length cs.
Proof. revert d. induction cs as [|c cs IH]; intros d; simpl; [|rewrite IH]; reflexivity. Qed.

Lemma scan_poses_lookup (d : DQ) (cs : list DQ) (k : nat) :
  (k < length cs)%nat ->
  scan_poses d cs !! k = Some (dq_to_pose (fold_left dq_mul (take (S k) cs) d)).
Proof.
  revert d k. induction cs as [|c cs IH]; intros d k Hk; simpl in Hk; [lia|].
  destruct k as [|k].
  - destruct cs; reflexivity.
  - change (scan_poses d (c :: cs) !! S k) with (scan_poses (dq_mul d c) cs !! k).
    rewrite IH by lia. reflexivity.
Qed.

Lemma scan_poses_last (d c : DQ) (cs : list DQ) :
  last (scan_poses d (c :: cs)) = Some (dq_to_pose (fold_left dq_mul (c :: cs) d)).
Proof.
  rewrite last_lookup, length_scan_poses.
  rewrite scan_poses_lookup by (simpl; lia).
  replace (S (Nat.pred (length (c :: cs)))) with (length (c :: cs)) by (simpl; lia).
  rewrite firstn_all. reflexivity.
Qed.

(** The value of [compute_loop_error] once the chain is known. *)
Lemma compute_loop_error_of_chain (N : Z) (rs : list (option DQ)) (v : bool)
    (c : DQ) (cs : list DQ) :
  build_chain N rs = Ok (Some <$> (c :: cs)) ->
  len (c :: cs) = N + 1 ->
  compute_loop_error N rs v =
    Ok (compute_pose_error
          (dq_to_pose (dq_mul dq_identity c))
          (dq_to_pose (fold_left dq_mul (c :: cs) dq_identity))).
Proof.
  intros Hchain Hlen. unfold compute_loop_error. rewrite Hchain. cbn [bind].
  assert (Hl : len (Some <$> c :: cs) = N + 1)
    by (unfold len in *; rewrite length_fmap; exact Hlen).
  rewrite Hl, Z.eqb_refl.
  replace (N + 1) with (Z.of_nat (length (c :: cs))) by exact Hlen.
  rewrite py_range_0.
  rewrite (compose_loop_scan [] (c :: cs) dq_identity []), app_nil_l. cbn [bind].
  destruct (exists_last (l := scan_poses dq_identity (c :: cs))) as (ps & p & Hps);
    [discriminate|].
  pose proof (scan_poses_last dq_identity c cs) as Hlast.
  rewrite Hps, last_snoc in Hlast. injection Hlast as ->.
  rewrite (py_index_lookup _ 0 (dq_to_pose (dq_mul dq_identity c))) by reflexivity.
  cbn [bind]. rewrite Hps, py_index_last. cbn [bind]. rewrite <- Hps.
  unfold len at 1. rewrite length_scan_poses.
  change (Z.of_nat (length (c :: cs))) with (len (c :: cs)).
  rewrite Hlen, <- Hl, Z.eqb_refl.
  destruct v; reflexivity.
Qed.

(** [compute_loop_error] always completes or raises: the budget given to the
    stride loop is never used up. *)
Lemma mapM_py_index_completes {A : Type} (l : list A) (indices : list Z) :
  mapM (py_index l) indices <> Diverge.
Proof.
  induction indices as [|i indices IH]; [discriminate|].
  simpl. unfold py_index at 1.
  destruct (_ <? 0); [discriminate|].
  destruct (l !! _); [|discriminate].
  cbn [bind]. destruct (mapM _ _); [discriminate|discriminate|congruence].
Qed.

Lemma py_index_completes {A : Type} (l : list A) (i : Z) : py_index l i <> Diverge.
Proof.
  unfold py_index. destruct (_ <? 0); [discriminate|].
  destruct (l !! _); discriminate.
Qed.

Lemma compose_loop_completes (chain : list (option DQ)) (indices : list Z)
    (d : DQ) (acc : list Pose) :
  compose_loop chain indices d acc <> Diverge.
Proof.
  revert d acc. induction indices as [|i indices IH]; intros d acc; [discriminate|].
  cbn [compose_loop].
  pose proof (py_index_completes chain i) as Hi.
  destruct (py_index chain i) as [[x|]| |]; cbn [bind py_imul];
    first [discriminate | congruence | apply IH].
Qed.

(** X8: [compute_loop_error] completes for every number of pose sets and
    every list: the loop over the strides ends after N - 2 rounds, or at once
    when N is less than 3, so the call returns a value or raises. *)
Lemma compute_loop_error_completes (N : Z) (rs : list (option DQ)) (v : bool) :
  compute_loop_error N rs v <> Diverge.
Proof.
  unfold compute_loop_error. rewrite build_chain_unfold.
  pose proof (py_index_completes rs 0) as H0.
  destruct (py_index rs 0) as [x0| |]; cbn [bind]; try discriminate; try congruence.
  pose proof (mapM_py_index_completes rs (stride_indices N)) as Hs.
  destruct (mapM _ _) as [xs| |]; cbn [bind]; try discriminate; try congruence.
  pose proof (py_index_completes rs (N - 2)) as Hl.
  destruct (py_index rs (N - 2)) as [[xl|]| |]; cbn [bind py_inverse];
    try discriminate; try congruence.
  destruct (len _ =? N + 1); [|discriminate].
  pose proof (compose_loop_completes
                ([Some dq_identity; x0] ++ xs ++ [Some (dq_inverse xl)])
                (py_range 0 (len ([Some dq_identity; x0] ++ xs ++ [Some (dq_inverse xl)])))
                dq_identity []) as Hc.
  destruct (compose_loop _ _ _ _) as [poses| |]; cbn [bind];
    try discriminate; try congruence.
  pose proof (py_index_completes poses 0) as Hp0.
  destruct (py_index poses 0) as [p0| |]; cbn [bind]; try discriminate; try congruence.
  pose proof (py_index_completes poses (-1)) as Hp1.
  destruct (py_index poses (-1)) as [p1| |]; cbn [bind]; try discriminate; try congruence.
  destruct v; [destruct (_ =? _)|]; discriminate.
Qed.

End LoopErrorFacts.

Lemma mapM_some_ok {A B : Type} (f : A -> outcome (option B)) (l : list A) :
  (forall x, x ∈ l -> exists d, f x = Ok (Some d)) ->
  exists ds, mapM f l = Ok (Some <$> ds) /\ length ds = length l.
Proof.
  induction l as [|x l IH]; intros H.
  - exists []. split; reflexivity.
  - destruct (H x) as [d Hd]; [apply list_elem_of_here|].
    destruct IH as (ds & Hds & Hlen).
    { intros y Hy. apply H, list_elem_of_further, Hy. }
    exists (d :: ds). simpl. rewrite Hd, Hds. simpl. rewrite Hlen.
    split; reflexivity.
Qed.

Lemma combinations2_seq_lookup (n i j : nat) :
  (i < j < n)%nat -> combinations2 (seq 0 n) !! pair_position n i j = Some (i, j).
Proof.
  intros H.
  pose proof (combinations2_lookup (seq 0 n) i j i j) as Hc.
  rewrite length_seq in Hc.
  apply Hc; [lia| |]; apply lookup_seq_lt; lia.
Qed.

(** In a full list of pairwise results every pair position is in range. *)
Lemma pair_position_lt (n i j : nat) :
  (i < j < n)%nat -> (pair_position n i j < choose n 2)%nat.
Proof.
  intros H.
  replace (choose n 2) with (length (combinations2 (seq 0 n)))
    by (rewrite length_combinations2, length_seq; reflexivity).
  apply (lookup_lt_Some _ _ (i, j)), combinations2_seq_lookup, H.
Qed.

Section LoopErrorClaims.

Context {DQ Pose Err : Type} `{Ops : DualQuaternionOps DQ Pose Err}.

Lemma pairwise_results_lookup (f : nat -> nat -> DQ) (n i j : nat) :
  (i < j < n)%nat ->
  py_index (pairwise_results f n) (Z.of_nat (pair_position n i j)) =
    Ok (Some (f i j)).
Proof.
  intros H. apply py_index_lookup. unfold pairwise_results.
  rewrite list_lookup_fmap, combinations2_seq_lookup by exact H. reflexivity.
Qed.

Lemma full_results_lookup (ds : list DQ) (n i j : nat) :
  length ds = choose n 2 -> (i < j < n)%nat ->
  exists d, py_index (Some <$> ds) (Z.of_nat (pair_position n i j)) = Ok (Some d).
Proof.
  intros Hlen H.
  destruct (lookup_lt_is_Some_2 ds (pair_position n i j)) as [d Hd].
  { rewrite Hlen. apply pair_position_lt, H. }
  exists d. apply py_index_lookup. rewrite list_lookup_fmap, Hd. reflexivity.
Qed.

(** The three kinds of index read by [build_chain], as pair positions. *)
Lemma index_first (n : nat) : 0 = Z.of_nat (pair_position n 0 1).
Proof. reflexivity. Qed.

Lemma index_stride (n i : nat) :
  (S (S i) < n)%nat ->
  row_start (Z.of_nat n) (S i) = Z.of_nat (pair_position n (S i) (S (S i))).
Proof.
  intros H. rewrite pair_position_row_start by lia.
  replace (S (S i) - S i - 1)%nat with 0%nat by lia. lia.
Qed.

Lemma index_closing (n : nat) :
  (2 <= n)%nat -> Z.of_nat n - 2 = Z.of_nat (pair_position n 0 (n - 1)).
Proof. intros H. simpl. lia. Qed.

Lemma build_chain_full (n : nat) (ds : list DQ) :
  (2 <= n)%nat -> length ds = choose n 2 ->
  exists cs, build_chain (Z.of_nat n) (Some <$> ds) = Ok (Some <$> (dq_identity :: cs))
             /\ length cs = n.
Proof.
  intros Hn Hlen. rewrite build_chain_unfold.
  destruct (full_results_lookup ds n 0 1 Hlen) as [d0 H0]; [lia|].
  rewrite (index_first n), H0. cbn [bind].
  destruct (mapM_some_ok (py_index (Some <$> ds)) (stride_indices (Z.of_nat n)))
    as (xs & Hxs & Hlenxs).
  { intros x Hx. unfold stride_indices in Hx.
    apply list_elem_of_fmap in Hx as (i & -> & Hi).
    apply elem_of_seq in Hi.
    rewrite index_stride by lia.
    apply full_results_lookup; [assumption|lia]. }
  rewrite Hxs. cbn [bind].
  destruct (full_results_lookup ds n 0 (n - 1) Hlen) as [dl Hl]; [lia|].
  rewrite index_closing, Hl by lia. cbn [bind py_inverse].
  exists (d0 :: xs ++ [dq_inverse dl]). split.
  - rewrite !fmap_cons, fmap_app. reflexivity.
  - simpl. rewrite length_app, Hlenxs. unfold stride_indices.
    rewrite length_fmap, length_seq. simpl. lia.
Qed.

(** C1: for [N >= 2] pose files and a full list of C(N,2) pairwise
    dual-quaternion results, the calibration transformation chain built by
    [compute_loop_error] has exactly [N + 1] elements, so the length
    assertion passes: the function returns a loop error. *)
Theorem chain_length (N : Z) (ds : list DQ) (visualize : bool) :
  2 <= N -> length ds = choose (Z.to_nat N) 2 ->
  exists chain,
    build_chain N (Some <$> ds) = Ok chain /\
    len chain = N + 1 /\
    exists err, compute_loop_error N (Some <$> ds) visualize = Ok err.
Proof.
  intros HN Hlen.
  destruct (build_chain_full (Z.to_nat N) ds) as (cs & Hcs & Hlencs);
    [lia|assumption|].
  rewrite Z2Nat.id in Hcs by lia.
  assert (Hl : len (dq_identity :: cs) = N + 1)
    by (unfold len; simpl length; lia).
  exists (Some <$> (dq_identity :: cs)). split; [exact Hcs|]. split.
  - unfold len in *. rewrite length_fmap. exact Hl.
  - eexists. apply (compute_loop_error_of_chain N _ visualize dq_identity cs Hcs Hl).
Qed.

(** C2: for [n >= 2] files, when the results are listed in the order of
    [itertools.combinations] over the files, the chain is the identity, then
    the results of the pairs (file i, file i+1) for i = 0 .. n-2 in that
    order, then the inverse of the result of the pair (file 0, file n-1). *)
Theorem chain_selects_consecutive_pairs (f : nat -> nat -> DQ) (n : nat) :
  (2 <= n)%nat ->
  build_chain (Z.of_nat n) (pairwise_results f n) =
    Ok (Some dq_identity
          :: ((fun i : nat => Some (f i (S i))) <$> seq 0 (n - 1))
          ++ [Some (dq_inverse (f 0%nat (n - 1)%nat))]).
Proof.
  intros Hn. rewrite build_chain_unfold.
  rewrite (index_first n), pairwise_results_lookup by lia. cbn [bind].
  unfold stride_indices.
  replace (Z.to_nat (Z.of_nat n - 2)) with (n - 2)%nat by lia.
  rewrite (mapM_fmap_ok _ _ (fun i : nat => Some (f (S i) (S (S i))))).
  2:{ intros i Hi. apply elem_of_seq in Hi.
      rewrite index_stride by lia. apply pairwise_results_lookup. lia. }
  cbn [bind].
  rewrite index_closing, pairwise_results_lookup by lia. cbn [bind py_inverse].
  replace (seq 0 (n - 1)) with (0%nat :: seq 1 (n - 2))
    by (replace (n - 1)%nat with (S (n - 2)) by lia; reflexivity).
  rewrite <- fmap_S_seq, fmap_cons, <- list_fmap_compose. reflexivity.
Qed.

(** C5: the chain elements are multiplied from left to right, starting from
    the identity; the running products give [N + 1] poses, and the value
    returned is the pose error between the first and the last of them. *)
Theorem loop_error_composition (N : Z) (ds : list DQ) (visualize : bool) :
  2 <= N -> length ds = choose (Z.to_nat N) 2 ->
  exists cs : list DQ,
    build_chain N (Some <$> ds) = Ok (Some <$> cs) /\
    let poses := scan_poses dq_identity cs in
    compose_loop (Some <$> cs) (py_range 0 (len cs)) dq_identity [] = Ok poses /\
    len poses = N + 1 /\
    (forall k : nat, (k < length cs)%nat ->
       poses !! k = Some (dq_to_pose (fold_left dq_mul (take (S k) cs) dq_identity))) /\
    exists p_first p_last,
      poses !! 0%nat = Some p_first /\ last poses = Some p_last /\
      compute_loop_error N (Some <$> ds) visualize =
        Ok (compute_pose_error p_first p_last).
Proof.
  intros HN Hlen.
  destruct (build_chain_full (Z.to_nat N) ds) as (cs & Hcs & Hlencs);
    [lia|assumption|].
  rewrite Z2Nat.id in Hcs by lia.
  assert (Hl : len (dq_identity :: cs) = N + 1)
    by (unfold len; simpl length; lia).
  exists (dq_identity :: cs). split; [exact Hcs|]. cbv zeta.
  split; [|split; [|split]].
  - unfold len. rewrite py_range_0.
    apply (compose_loop_scan [] (dq_identity :: cs) dq_identity []).
  - unfold len in *. rewrite length_scan_poses. exact Hl.
  - intros k Hk. apply scan_poses_lookup, Hk.
  - eexists _, _. split; [reflexivity|]. split; [apply scan_poses_last|].
    apply (compute_loop_error_of_chain N _ visualize dq_identity cs Hcs Hl).
Qed.

(** C6: with two files the chain is the identity, the single result [T] and
    the inverse of [T], for every [T]. The value returned is the pose error
    between the pose of identity * identity and the pose of
    ((identity * identity) * T) * T.inverse(), for every [T] and whatever the
    imported operations compute. When the identity is a left unit, [T]
    composed with its inverse is the identity and the pose error of a pose
    with itself is zero, that value is zero. *)
Theorem two_files_loop (T : DQ) (visualize : bool) :
  build_chain 2 [Some T] = Ok [Some dq_identity; Some T; Some (dq_inverse T)] /\
  compose_loop [Some dq_identity; Some T; Some (dq_inverse T)] [0; 1; 2]
      dq_identity []
    = Ok [dq_to_pose (dq_mul dq_identity dq_identity);
          dq_to_pose (dq_mul (dq_mul dq_identity dq_identity) T);
          dq_to_pose (dq_mul (dq_mul (dq_mul dq_identity dq_identity) T)
                        (dq_inverse T))] /\
  compute_loop_error 2 [Some T] visualize
    = Ok (compute_pose_error
            (dq_to_pose (dq_mul dq_identity dq_identity))
            (dq_to_pose (dq_mul (dq_mul (dq_mul dq_identity dq_identity) T)
                           (dq_inverse T)))) /\
  (forall zero : Err,
     (forall x, dq_mul dq_identity x = x) ->
     dq_mul T (dq_inverse T) = dq_identity ->
     (forall p, compute_pose_error p p = (zero, zero)) ->
     compute_loop_error 2 [Some T] visualize = Ok (zero, zero)).
Proof.
  assert (Hchain : build_chain 2 [Some T]
                   = Ok (Some <$> [dq_identity; T; dq_inverse T])) by reflexivity.
  assert (Hvalue : compute_loop_error 2 [Some T] visualize
                   = Ok (compute_pose_error
                           (dq_to_pose (dq_mul dq_identity dq_identity))
                           (dq_to_pose (dq_mul (dq_mul (dq_mul dq_identity dq_identity) T)
                                          (dq_inverse T))))).
  { rewrite (compute_loop_error_of_chain 2 _ visualize _ _ Hchain) by reflexivity.
    reflexivity. }
  split; [exact Hchain|]. split; [reflexivity|]. split; [exact Hvalue|].
  intros zero Hid Hinv Herr.
  rewrite Hvalue, !Hid, Hinv, Herr. reflexivity.
Qed.

(** C10: two result lists that agree at the indices read by
    [compute_loop_error] (index 0, the indices reached by the stride, and
    index [N - 2]) give the same outcome; the entries at all other indices do
    not influence it. *)
Theorem loop_error_depends_on_chain_indices (N : Z)
    (rs1 rs2 : list (option DQ)) (visualize : bool) :
  (forall i, i ∈ chain_indices N -> py_index rs1 i = py_index rs2 i) ->
  compute_loop_error N rs1 visualize = compute_loop_error N rs2 visualize.
Proof.
  intros H. unfold compute_loop_error.
  assert (Hchain : build_chain N rs1 = build_chain N rs2).
  { rewrite !build_chain_unfold.
    rewrite (H 0) by apply list_elem_of_here.
    rewrite (mapM_ext (py_index rs1) (py_index rs2)).
    2:{ intros i Hi. apply H. unfold chain_indices.
        apply list_elem_of_further, elem_of_app. left. exact Hi. }
    rewrite (H (N - 2)); [reflexivity|].
    unfold chain_indices.
    apply list_elem_of_further, elem_of_app. right. apply list_elem_of_here. }
  rewrite Hchain. reflexivity.
Qed.

End LoopErrorClaims.

(** ** The driver: facts *)

(** Splitting a conjunction into its parts. *)
Ltac split_all := repeat match goal with |- _ /\ _ => split end.

(** Closing the goals left by the frame lemmas. *)
Ltac frame_goal :=
  first [reflexivity | lia | apply prefix_app_r; reflexivity].

(** Case analysis on the outcomes that a definition binds, in order. *)
Ltac destruct_binds :=
  repeat match goal with
         | |- context [bind ?m _] =>
             match m with
             | context [bind _ _] => fail
             | _ => let E := fresh "E" in
                    destruct m eqn:E; cbn [bind] in *
             end
         end.

Section DriverFacts.

Context {DQ Pose Err O : Type} `{Ops : DualQuaternionOps DQ Pose Err}.

#[local] Abbreviation state_ := (state (DQ := DQ) (Pose := Pose) (Err := Err) (O := O)).
#[local] Abbreviation pair_world_ := (pair_world (DQ := DQ) (O := O)).

(** The first stage of a pair leaves the result lists, the pair counter and
    the three lists of the second stage alone. *)
Lemma initial_stage_frame (cfg : algorithm_config) (w : pair_world_)
    (pf : string * string) (ab : bool * bool) (s s' : state_) :
  initial_stage cfg w pf ab s = Ok s' ->
  results_dq_H_E s' = results_dq_H_E s /\
  results_poses_H_E s' = results_poses_H_E s /\
  pose_pair_num s' = pose_pair_num s /\
  results_file s' = results_file s /\
  stdout s' = stdout s ++ [MsgHandCalibrationBetween pf ab] /\
  optimization_success (result_entry s') = optimization_success (result_entry s) /\
  rmse (result_entry s') = rmse (result_entry s) /\
  num_inliers (result_entry s') = num_inliers (result_entry s) /\
  entry_extends (result_entry s) (result_entry s').
Proof.
  unfold initial_stage.
  destruct (optimization_only (optimization_config cfg)); cbn [negb];
    destruct_binds; intros H; try discriminate;
    injection H as <-; cbn;
    unfold entry_extends; cbn; split_all; frame_goal.
Qed.

(** The second stage appends one element to each result list and to each of
    its three lists. *)
Lemma optimization_stage_frame (cfg : algorithm_config) (w : pair_world_)
    (s s' : state_) :
  optimization_stage cfg w s = Ok s' ->
  vars s' = vars s /\
  results_file s' = results_file s /\
  pose_pair_num s' = pose_pair_num s + 1 /\
  length (results_dq_H_E s') = S (length (results_dq_H_E s)) /\
  length (results_poses_H_E s') = S (length (results_poses_H_E s)) /\
  length (optimization_success (result_entry s')) = S (length (optimization_success (result_entry s))) /\
  dataset_names (result_entry s') = dataset_names (result_entry s) /\
  entry_extends (result_entry s) (result_entry s').
Proof.
  unfold optimization_stage.
  destruct (enable_optimization (optimization_config cfg)); [destruct (w_run w) as [ex|]|];
    destruct_binds; intros H; try discriminate;
    injection H as <-; cbn; rewrite !length_app; cbn;
    unfold entry_extends; cbn; split_all; frame_goal.
Qed.

(** Each pair that completes adds one entry to both result lists, one data
    set name and one optimization flag. *)
Lemma process_pair_counts (cfg : algorithm_config) (w : pair_world_)
    (pf : string * string) (ab : bool * bool) (s s' : state_) :
  process_pair cfg w pf ab s = Ok s' ->
  results_file s' = results_file s /\
  length (results_dq_H_E s') = S (length (results_dq_H_E s)) /\
  length (results_poses_H_E s') = S (length (results_poses_H_E s)) /\
  length (optimization_success (result_entry s')) = S (length (optimization_success (result_entry s))).
Proof.
  unfold process_pair. intros H.
  destruct (initial_stage cfg w pf ab s) as [s1| |] eqn:E1; try discriminate.
  cbn [bind] in H.
  apply initial_stage_frame in E1 as (H1 & H2 & _ & H4 & _ & H6 & _).
  apply optimization_stage_frame in H as (_ & G2 & _ & G4 & G5 & G6 & _).
  rewrite G2, G4, G5, G6, H1, H2, H4, H6. repeat split.
Qed.

Lemma pair_loop_counts (cfg : algorithm_config) (ws : Z -> pair_world_)
    (pairs : list ((string * string) * (bool * bool))) (s s' : state_) :
  pair_loop cfg ws pairs s = Ok s' ->
  results_file s' = results_file s /\
  length (results_dq_H_E s') = (length (results_dq_H_E s) + length pairs)%nat /\
  length (results_poses_H_E s') = (length (results_poses_H_E s) + length pairs)%nat /\
  length (optimization_success (result_entry s')) =
    (length (optimization_success (result_entry s)) + length pairs)%nat.
Proof.
  revert s. induction pairs as [|[pf ab] pairs IH]; intros s H.
  - injection H as <-. cbn. rewrite !Nat.add_0_r. repeat split.
  - cbn [pair_loop] in H.
    destruct (process_pair cfg (ws (pose_pair_num s)) pf ab s) as [s1| |] eqn:E;
      try discriminate.
    cbn [bind] in H.
    apply process_pair_counts in E as (E1 & E2 & E3 & E4).
    apply IH in H as (H1 & H2 & H3 & H4).
    rewrite H1, H2, H3, H4, E1, E2, E3, E4. cbn [length]. repeat split; lia.
Qed.

(** An iteration that completes appends one entry to the results file. *)
Lemma run_iteration_results_file (N P : Z)
    (pairs : list ((string * string) * (bool * bool)))
    (cfg : algorithm_config) (ws : Z -> pair_world_) (flush : outcome unit)
    (s s' : state_) :
  run_iteration N P pairs cfg ws flush s = Ok s' ->
  length (results_file s') = S (length (results_file s)).
Proof.
  unfold run_iteration. intros H.
  destruct (pair_loop cfg ws pairs _) as [s1| |] eqn:E1; try discriminate.
  cbn [bind] in H.
  apply pair_loop_counts in E1 as (E1 & _). cbn in E1.
  destruct (len (results_dq_H_E s1) =? P); try discriminate.
  destruct (len (results_poses_H_E s1) =? P); try discriminate.
  destruct (sum_bools (optimization_success (result_entry s1)) =? P).
  - destruct (compute_loop_error N (results_dq_H_E s1) true) as [err| |];
      try discriminate.
    cbn [bind] in H. destruct flush; try discriminate.
    injection H as <-. cbn. rewrite length_app, E1. cbn. lia.
  - cbn [bind] in H. destruct flush; try discriminate.
    injection H as <-. cbn. rewrite length_app, E1. cbn. lia.
Qed.

Lemma iteration_loop_results_file (N P : Z)
    (pairs : list ((string * string) * (bool * bool)))
    (cfg : algorithm_config) (ws : Z -> Z -> pair_world_)
    (flush : Z -> outcome unit) (iterations : list Z) (s s' : state_) :
  iteration_loop N P pairs cfg ws flush iterations s = Ok s' ->
  length (results_file s') = (length (results_file s) + length iterations)%nat.
Proof.
  revert s. induction iterations as [|it its IH]; intros s H.
  - injection H as <-. cbn. lia.
  - cbn [iteration_loop] in H.
    destruct (run_iteration N P pairs cfg (ws it) (flush it) s) as [s1| |] eqn:E;
      try discriminate.
    cbn [bind] in H. apply run_iteration_results_file in E.
    apply IH in H. rewrite H, E. cbn. lia.
Qed.

End DriverFacts.

(** ** The driver: properties *)

Section DriverClaims.

Context {DQ Pose Err O : Type} `{Ops : DualQuaternionOps DQ Pose Err}.

#[local] Abbreviation state' := (state (DQ := DQ) (Pose := Pose) (Err := Err) (O := O)).
#[local] Abbreviation pair_world' := (pair_world (DQ := DQ) (O := O)).
#[local] Abbreviation world' := (world (DQ := DQ) (O := O)).

(** X18: the assertion of line 132 compares the number of pairs with the
    number of flags, which is the number of files: the script gets past it
    with three files only. *)
Lemma main_needs_three_files (a : arguments) (w : world') (s : state') :
  main a w = Ok s -> length (aligned_poses_B_H_csv_files a) = 3%nat.
Proof.
  unfold main. intros H.
  destruct (Z.leb_spec 2 (len (aligned_poses_B_H_csv_files a))) as [H2|]; [|discriminate].
  set (flags := match is_absolute_pose_sensor a with
                | Some flags => _
                | None => _
                end) in H.
  destruct (Z.eqb_spec (len flags) (len (aligned_poses_B_H_csv_files a)))
    as [Hflags|]; [|discriminate].
  destruct (Z.eqb_spec (len (combinations2 (aligned_poses_B_H_csv_files a))) (len flags))
    as [Hpairs|]; [|discriminate].
  rewrite Hflags in Hpairs. unfold len in *. rewrite length_combinations2 in Hpairs.
  pose proof (choose_2_double (length (aligned_poses_B_H_csv_files a))) as Hc.
  nia.
Qed.

(** C3: with two pose files the script does not process the single pair:
    the assertion of line 132 fails, whatever the flags, the number of
    iterations and the environment are. *)
Theorem main_two_files_aborts (file1 file2 : string) (flags : option (list Z))
    (n : Z) (w : world') :
  main {| aligned_poses_B_H_csv_files := [file1; file2];
          is_absolute_pose_sensor := flags;
          num_iterations_arg := n |} w = Raise AssertionError.
Proof.
  unfold main. cbn [aligned_poses_B_H_csv_files is_absolute_pose_sensor].
  change (len [file1; file2]) with 2.
  change (len (combinations2 [file1; file2])) with 1.
  change (2 <=? 2) with true. cbv iota.
  set (fl := match flags with Some _ => _ | None => _ end).
  destruct (Z.eqb_spec (len fl) 2) as [E|]; [|reflexivity].
  rewrite E. reflexivity.
Qed.

(** Without optimization the flag that gates the loop error is [True] for
    every pair, whatever the solver reported. *)
Lemma optimization_success_without_optimization (cfg : algorithm_config)
    (w : pair_world') (s s' : state') :
  enable_optimization (optimization_config cfg) = false ->
  optimization_stage cfg w s = Ok s' ->
  optimization_success (result_entry s') = optimization_success (result_entry s) ++ [true].
Proof.
  unfold optimization_stage. intros ->.
  destruct_binds; intros H; try discriminate.
  injection H as <-. reflexivity.
Qed.

(** C7: when the optimizer process fails for a pair, the exception is caught
    and reported, the flag of the pair is [False], the pair completes and the
    loop goes on with the next pairs; the result lists get a [None] for the
    pair and keep everything that was in them. *)
Theorem optimizer_failure_is_contained (cfg : algorithm_config)
    (ws : Z -> pair_world') (pf : string * string) (ab : bool * bool)
    (rest : list ((string * string) * (bool * bool)))
    (s0 s1 : state') (ex : string) :
  enable_optimization (optimization_config cfg) = true ->
  initial_stage cfg (ws (pose_pair_num s0)) pf ab s0 = Ok s1 ->
  w_run (ws (pose_pair_num s0)) = Some ex ->
  exists s2,
    process_pair cfg (ws (pose_pair_num s0)) pf ab s0 = Ok s2 /\
    pair_loop cfg ws ((pf, ab) :: rest) s0 = pair_loop cfg ws rest s2 /\
    stdout s2 = stdout s1 ++ [MsgOptimizationFailed ex] /\
    optimization_success (result_entry s2) = optimization_success (result_entry s0) ++ [false] /\
    results_dq_H_E s2 = results_dq_H_E s0 ++ [None] /\
    results_poses_H_E s2 = results_poses_H_E s0 ++ [None] /\
    entry_extends (result_entry s0) (result_entry s2) /\
    results_file s2 = results_file s0.
Proof.
  intros Hopt Hinit Hrun.
  pose proof (initial_stage_frame _ _ _ _ _ _ Hinit)
    as (H1 & H2 & _ & H4 & _ & H6 & _ & _ & H9).
  set (s2 := store_results None false (PyPair (PyInt (-1)) (PyInt (-1))) (PyInt 0)
               (print (MsgOptimizationFailed ex) s1)).
  assert (Hstage : optimization_stage cfg (ws (pose_pair_num s0)) s1 = Ok s2).
  { unfold optimization_stage. rewrite Hopt, Hrun. reflexivity. }
  assert (Hpair : process_pair cfg (ws (pose_pair_num s0)) pf ab s0 = Ok s2).
  { unfold process_pair. rewrite Hinit. exact Hstage. }
  exists s2. split; [exact Hpair|]. split.
  { cbn [pair_loop]. rewrite Hpair. reflexivity. }
  apply optimization_stage_frame in Hstage as (_ & _ & _ & _ & _ & _ & _ & G).
  subst s2. cbn. rewrite H1, H2, H4, H6. split_all; try reflexivity.
  destruct H9 as (P1 & P2 & P3 & P4 & P5 & P6 & P7 & P8 & P9 & P10).
  destruct G as (G1 & G2 & G3 & G4 & G5 & G6 & G7 & G8 & G9 & G10).
  unfold entry_extends. split_all; etransitivity; eassumption.
Qed.

(** C8: a configuration with the baseline approach or the exhaustive search
    runs one iteration, whatever [--num_iterations] says; any other
    configuration runs the requested number of iterations. The iterations
    are those of the range the loop goes over, and one entry is written to
    the results file for each iteration of a run that completes. *)
Theorem iterations_per_config (N P : Z)
    (pairs : list ((string * string) * (bool * bool))) (a : arguments)
    (cfg : algorithm_config) (ws : Z -> Z -> pair_world')
    (flush : Z -> outcome unit) (s : state') :
  (deterministic cfg = false -> 0 <= num_iterations_arg a) ->
  let executed := if deterministic cfg then 1 else num_iterations_arg a in
  num_iterations cfg a = executed /\
  len (py_range 0 (num_iterations cfg a)) = executed /\
  run_config N P pairs a cfg ws flush s =
    iteration_loop N P pairs cfg ws flush (py_range 0 executed)
      (print (MsgRunIterations executed)
         (print (MsgRunAlgorithm (algorithm_name cfg)) s)) /\
  (forall s', run_config N P pairs a cfg ws flush s = Ok s' ->
     len (results_file s') = len (results_file s) + executed).
Proof.
  intros Hn executed.
  assert (Hnum : num_iterations cfg a = executed).
  { unfold num_iterations, executed, deterministic.
    destruct (enable_exhaustive_search _), (use_baseline_approach _); reflexivity. }
  assert (Hlen : len (py_range 0 executed) = executed).
  { unfold len. rewrite length_py_range.
    unfold executed. destruct (deterministic cfg); [lia|].
    specialize (Hn eq_refl). lia. }
  split; [exact Hnum|]. split; [rewrite Hnum; exact Hlen|].
  split; [unfold run_config; rewrite Hnum; reflexivity|].
  intros s' H. unfold run_config in H. rewrite Hnum in H.
  apply iteration_loop_results_file in H. cbn in H.
  unfold len in *. rewrite H, length_py_range.
  unfold executed. destruct (deterministic cfg); [lia|].
  specialize (Hn eq_refl). lia.
Qed.

(** C9: in optimization-only mode the first stage of a pair assigns none of
    the variables it then records. With unbound variables, as at the start of
    a run, it raises [NameError] at [success]. With bound variables it
    completes, leaves the bindings as they are and appends to the lists
    [success], [num_initial_poses], [num_poses_kept], [runtimes],
    [singular_values] and [bad_singular_value] of the result entry the values
    the variables held before the pair, and the current pair of files to
    [dataset_names]. After a pair of a configuration that runs the initial
    algorithm these are the values the solver returned for that earlier pair.
    What the solver would return for the current pair plays no part. *)
Theorem optimization_only_reuses_variables (cfg : algorithm_config)
    (w : pair_world') (pf : string * string) (ab : bool * bool) :
  optimization_only (optimization_config cfg) = true ->
  w_read w = Ok tt ->
  w_guess w = Ok tt ->
  (forall s : state',
     vars s = unbound_vars ->
     initial_stage cfg w pf ab s = Raise (NameError "success")) /\
  (forall (s : state') success_ dual_quat_B_H_vec kept runtime sv bad_sv,
     v_success (vars s) = Some success_ ->
     v_dual_quat_B_H_vec (vars s) = Some dual_quat_B_H_vec ->
     v_num_poses_kept (vars s) = Some kept ->
     v_runtime (vars s) = Some runtime ->
     v_singular_values (vars s) = Some sv ->
     v_bad_singular_values (vars s) = Some bad_sv ->
     exists s',
       initial_stage cfg w pf ab s = Ok s' /\
       vars s' = vars s /\
       dataset_names (result_entry s') = dataset_names (result_entry s) ++ [pf] /\
       success (result_entry s') = success (result_entry s) ++ [success_] /\
       num_initial_poses (result_entry s')
         = num_initial_poses (result_entry s) ++ [len dual_quat_B_H_vec] /\
       num_poses_kept (result_entry s') = num_poses_kept (result_entry s) ++ [kept] /\
       runtimes (result_entry s') = runtimes (result_entry s) ++ [runtime] /\
       singular_values (result_entry s') = singular_values (result_entry s) ++ [sv] /\
       bad_singular_value (result_entry s')
         = bad_singular_value (result_entry s) ++ [bad_sv]) /\
  (forall (cfg0 : algorithm_config) (w0 : pair_world') (pf0 : string * string)
          (ab0 : bool * bool) (s0 s1 : state') (r0 : initial_result),
     optimization_only (optimization_config cfg0) = false ->
     w_initial w0 = Ok r0 ->
     process_pair cfg0 w0 pf0 ab0 s0 = Ok s1 ->
     exists s',
       initial_stage cfg w pf ab s1 = Ok s' /\
       vars s' = assign_initial r0 /\
       dataset_names (result_entry s') = dataset_names (result_entry s1) ++ [pf] /\
       success (result_entry s') = success (result_entry s1) ++ [r_success r0] /\
       num_initial_poses (result_entry s')
         = num_initial_poses (result_entry s1) ++ [len (r_dual_quat_B_H_vec r0)] /\
       num_poses_kept (result_entry s')
         = num_poses_kept (result_entry s1) ++ [r_num_poses_kept r0] /\
       runtimes (result_entry s') = runtimes (result_entry s1) ++ [r_runtime r0] /\
       singular_values (result_entry s')
         = singular_values (result_entry s1) ++ [r_singular_values r0] /\
       bad_singular_value (result_entry s')
         = bad_singular_value (result_entry s1) ++ [r_bad_singular_values r0]) /\
  (forall (s : state') (w' : pair_world'),
     w_read w' = w_read w -> w_guess w' = w_guess w ->
     initial_stage cfg w' pf ab s = initial_stage cfg w pf ab s).
Proof.
  intros Honly Hread Hguess.
  assert (Hbound : forall (s : state') su dqs kept rt sv bsv,
            v_success (vars s) = Some su ->
            v_dual_quat_B_H_vec (vars s) = Some dqs ->
            v_num_poses_kept (vars s) = Some kept ->
            v_runtime (vars s) = Some rt ->
            v_singular_values (vars s) = Some sv ->
            v_bad_singular_values (vars s) = Some bsv ->
            exists s',
              initial_stage cfg w pf ab s = Ok s' /\
              vars s' = vars s /\
              dataset_names (result_entry s') = dataset_names (result_entry s) ++ [pf] /\
              success (result_entry s') = success (result_entry s) ++ [su] /\
              num_initial_poses (result_entry s')
                = num_initial_poses (result_entry s) ++ [len dqs] /\
              num_poses_kept (result_entry s') = num_poses_kept (result_entry s) ++ [kept] /\
              runtimes (result_entry s') = runtimes (result_entry s) ++ [rt] /\
              singular_values (result_entry s') = singular_values (result_entry s) ++ [sv] /\
              bad_singular_value (result_entry s')
                = bad_singular_value (result_entry s) ++ [bsv]).
  { intros s su dqs kept rt sv bsv H1 H2 H3 H4 H5 H6.
    unfold initial_stage. rewrite Honly, Hread, Hguess. cbn.
    rewrite H1, H2, H3, H4, H5, H6. cbn. eexists. split; [reflexivity|].
    cbn. split_all; reflexivity. }
  split; [|split; [exact Hbound|split]].
  - intros s Hvars. unfold initial_stage.
    rewrite Honly, Hread, Hguess. cbn. rewrite Hvars. reflexivity.
  - intros cfg0 w0 pf0 ab0 s0 s1 r0 Hno Hinit Hpair.
    unfold process_pair in Hpair.
    destruct (initial_stage cfg0 w0 pf0 ab0 s0) as [sm| |] eqn:Em; try discriminate.
    cbn [bind] in Hpair.
    apply optimization_stage_frame in Hpair as (Hvars & _).
    assert (Hsm : vars sm = assign_initial r0).
    { unfold initial_stage in Em. rewrite Hno, Hinit in Em.
      destruct (w_read w0) as [[]| |]; try discriminate.
      cbn in Em. injection Em as <-. reflexivity. }
    rewrite Hsm in Hvars.
    destruct (Hbound s1 (r_success r0) (r_dual_quat_B_H_vec r0) (r_num_poses_kept r0)
                (r_runtime r0) (r_singular_values r0) (r_bad_singular_values r0))
      as (s' & Hs' & Hv & Hrest); try (rewrite Hvars; reflexivity).
    exists s'. split; [exact Hs'|]. split; [rewrite Hv; exact Hvars|exact Hrest].
  - intros s w' Hr Hg. unfold initial_stage. rewrite Honly, Hr, Hg. reflexivity.
Qed.

(** In the other mode the first stage binds the variables to what the
    imported code returned for the pair: these are the values that a later
    optimization-only pair records. *)
Lemma initial_stage_assigns (cfg : algorithm_config) (w : pair_world')
    (pf : string * string) (ab : bool * bool) (s : state') (r : initial_result) :
  optimization_only (optimization_config cfg) = false ->
  w_read w = Ok tt ->
  w_initial w = Ok r ->
  exists s', initial_stage cfg w pf ab s = Ok s' /\ vars s' = assign_initial r.
Proof.
  intros Honly Hread Hinit. unfold initial_stage.
  rewrite Honly, Hread, Hinit. cbn. eexists. split; reflexivity.
Qed.

End DriverClaims.

(** ** The integer instance: laws *)

Lemma IntDQ_mul_identity_l (x : IntDQ.dq) : IntDQ.mul IntDQ.identity x = x.
Proof.
  destruct x as [[a b c d] [e f g h]].
  unfold IntDQ.mul, IntDQ.qmul, IntDQ.qadd, IntDQ.identity; cbn.
  f_equal; f_equal; lia.
Qed.

Lemma IntDQ_mul_inverse_r (x : IntDQ.dq) :
  IntDQ.valid x -> IntDQ.mul x (IntDQ.inverse x) = IntDQ.identity.
Proof.
  destruct x as [[a b c d] [e f g h]].
  unfold IntDQ.valid, IntDQ.qnorm2, IntDQ.mul, IntDQ.inverse, IntDQ.qmul,
    IntDQ.qadd, IntDQ.qneg, IntDQ.qconj, IntDQ.identity; cbn.
  intros H. f_equal; f_equal;
    first
      [ ring
      | rewrite <- H; ring
      | match goal with
        | |- ?A + ?Y = 0 =>
            replace (A + Y) with ((1 - (a * a + b * b + c * c + d * d)) * Y) by ring;
            rewrite H; ring
        end ].
Qed.

Lemma IntDQ_pose_error_refl (p : IntDQ.pose) : IntDQ.pose_error p p = (0, 0).
Proof.
  destruct p as [[[x y] z] [a b c d]].
  unfold IntDQ.pose_error, IntDQ.qnorm2, IntDQ.qadd, IntDQ.qneg; cbn.
  f_equal; lia.
Qed.

(** ** The properties on the sample runs *)

Lemma chain_length_witness :
  exists chain,
    build_chain 3 (Some <$> [Sample.consistent 0; Sample.consistent 1; Sample.consistent 2])
      = Ok chain /\
    len chain = 3 + 1 /\
    exists err,
      compute_loop_error 3
        (Some <$> [Sample.consistent 0; Sample.consistent 1; Sample.consistent 2]) true
      = Ok err.
Proof.
  apply (chain_length (Ops := IntDQ.ops) 3
           [Sample.consistent 0; Sample.consistent 1; Sample.consistent 2] true);
    [lia|reflexivity].
Defined.

Lemma chain_selects_consecutive_pairs_witness :
  build_chain 3 (pairwise_results Sample.result_of 3) =
    Ok [Some IntDQ.identity;
        Some (Sample.result_of 0 1);
        Some (Sample.result_of 1 2);
        Some (IntDQ.inverse (Sample.result_of 0 2))].
Proof.
  assert (H : (2 <= 3)%nat) by lia.
  exact (chain_selects_consecutive_pairs Sample.result_of 3 H).
Defined.

Lemma loop_error_composition_witness :
  exists cs : list IntDQ.dq,
    build_chain 3 (Some <$> [Sample.consistent 0; Sample.consistent 1; Sample.consistent 2])
      = Ok (Some <$> cs) /\
    let poses := scan_poses IntDQ.identity cs in
    compose_loop (Some <$> cs) (py_range 0 (len cs)) IntDQ.identity [] = Ok poses /\
    len poses = 3 + 1 /\
    (forall k : nat, (k < length cs)%nat ->
       poses !! k = Some (IntDQ.to_pose (fold_left IntDQ.mul (take (S k) cs) IntDQ.identity))) /\
    exists p_first p_last,
      poses !! 0%nat = Some p_first /\ last poses = Some p_last /\
      compute_loop_error 3
        (Some <$> [Sample.consistent 0; Sample.consistent 1; Sample.consistent 2]) false
      = Ok (IntDQ.pose_error p_first p_last).
Proof.
  apply (loop_error_composition (Ops := IntDQ.ops) 3
           [Sample.consistent 0; Sample.consistent 1; Sample.consistent 2] false);
    [lia|reflexivity].
Defined.

Lemma two_files_loop_witness :
  build_chain 2 [Some IntDQ.turn_z] =
    Ok [Some IntDQ.identity; Some IntDQ.turn_z; Some (IntDQ.inverse IntDQ.turn_z)] /\
  compute_loop_error 2 [Some IntDQ.turn_z] true
    = Ok (IntDQ.pose_error
            (IntDQ.to_pose (IntDQ.mul IntDQ.identity IntDQ.identity))
            (IntDQ.to_pose
               (IntDQ.mul (IntDQ.mul (IntDQ.mul IntDQ.identity IntDQ.identity)
                             IntDQ.turn_z)
                  (IntDQ.inverse IntDQ.turn_z)))) /\
  compute_loop_error 2 [Some IntDQ.turn_z] true = Ok (0, 0).
Proof.
  destruct (two_files_loop (Ops := IntDQ.ops) IntDQ.turn_z true)
    as (Hchain & _ & Hvalue & Hzero).
  split; [exact Hchain|]. split; [exact Hvalue|].
  apply (Hzero 0).
  - exact IntDQ_mul_identity_l.
  - reflexivity.
  - exact IntDQ_pose_error_refl.
Defined.

Lemma loop_error_depends_on_chain_indices_witness :
  compute_loop_error 4 (Sample.results4 IntDQ.shift IntDQ.turn_x) true =
  compute_loop_error 4 (Sample.results4 IntDQ.identity IntDQ.turn_z) true.
Proof.
  apply (loop_error_depends_on_chain_indices (Ops := IntDQ.ops) 4).
  intros i Hi. change (chain_indices 4) with [0; 3; 5; 2] in Hi.
  repeat (apply elem_of_cons in Hi as [Hi|Hi]; [rewrite Hi; reflexivity|]).
  apply elem_of_nil in Hi. destruct Hi.
Defined.

(** C4: the solver fails for the pair (cam0, cam2). Without optimization the
    flag of that pair is still [True], [compute_loop_error] is called on a
    list that holds [None] and the run ends in an [AttributeError]; with
    optimization the loop error is computed from the optimized estimates and
    nothing is reported about the failed solve. *)
Theorem solver_failure_reaches_loop_error :
  main (Sample.args3 1) (Sample.solver_failure_world [Sample.ransac])
    = Raise AttributeError /\
  exists s,
    main (Sample.args3 1) (Sample.solver_failure_world [Sample.ransac_optimized])
      = Ok s /\
    success (result_entry s) = [true; false; true] /\
    optimization_success (result_entry s) = [true; true; true] /\
    loop_error_position (result_entry s) = Some 0 /\
    MsgNoLoopError ∉ stdout s.
Proof.
  split; [vm_compute; reflexivity|].
  eexists. split; [vm_compute; reflexivity|].
  cbn. split_all; try reflexivity.
  intros H. repeat (apply elem_of_cons in H as [H|H]; [discriminate|]).
  apply elem_of_nil in H. exact H.
Qed.

Lemma optimizer_failure_is_contained_witness :
  exists s1 : Sample.run_state,
    initial_stage Sample.ransac_optimized
      (Sample.pair_optimizer_fails IntDQ.turn_z 10)
      ("cam0.csv", "cam1.csv")%string (false, false) Sample.start = Ok s1 /\
  exists s2 : Sample.run_state,
    process_pair Sample.ransac_optimized
      (Sample.pair_optimizer_fails IntDQ.turn_z 10)
      ("cam0.csv", "cam1.csv")%string (false, false) Sample.start = Ok s2 /\
    pair_loop Sample.ransac_optimized
      (fun _ => Sample.pair_optimizer_fails IntDQ.turn_z 10)
      [(("cam0.csv", "cam1.csv")%string, (false, false))] Sample.start
      = pair_loop Sample.ransac_optimized
          (fun _ => Sample.pair_optimizer_fails IntDQ.turn_z 10) [] s2 /\
    stdout s2 = stdout s1 ++ [MsgOptimizationFailed "exit code 1"] /\
    optimization_success (result_entry s2) = [] ++ [false] /\
    results_dq_H_E s2 = [] ++ [None] /\
    results_poses_H_E s2 = [] ++ [None] /\
    entry_extends new_result_entry (result_entry s2) /\
    results_file s2 = [].
Proof.
  eexists. split; [reflexivity|].
  apply (optimizer_failure_is_contained (Ops := IntDQ.ops) Sample.ransac_optimized
           (fun _ => Sample.pair_optimizer_fails IntDQ.turn_z 10)
           ("cam0.csv", "cam1.csv")%string (false, false) [] Sample.start);
    reflexivity.
Defined.

Lemma iterations_per_config_witness :
  let executed := 1 in
  num_iterations Sample.baseline (Sample.args3 (-5)) = executed /\
  len (py_range 0 (num_iterations Sample.baseline (Sample.args3 (-5)))) = executed /\
  run_config 3 3 [] (Sample.args3 (-5)) Sample.baseline
      (pair_at (Sample.consistent_world [])  0%nat)
      (flush_at (Sample.consistent_world []) 0%nat) Sample.start =
    iteration_loop 3 3 [] Sample.baseline
      (pair_at (Sample.consistent_world [])  0%nat)
      (flush_at (Sample.consistent_world []) 0%nat) (py_range 0 executed)
      (print (MsgRunIterations executed)
         (print (MsgRunAlgorithm (algorithm_name Sample.baseline)) Sample.start)) /\
  (forall s',
     run_config 3 3 [] (Sample.args3 (-5)) Sample.baseline
       (pair_at (Sample.consistent_world [])  0%nat)
       (flush_at (Sample.consistent_world []) 0%nat) Sample.start = Ok s' ->
     len (results_file s') = len (results_file Sample.start) + executed).
Proof.
  apply (iterations_per_config (Ops := IntDQ.ops) 3 3 [] (Sample.args3 (-5)) Sample.baseline
           (pair_at (Sample.consistent_world []) 0%nat)
           (flush_at (Sample.consistent_world []) 0%nat) Sample.start).
  intros H. discriminate H.
Defined.

Lemma optimization_only_reuses_variables_witness :
  initial_stage Sample.optimization_only_config
    (Sample.pair_ok (Sample.consistent 1) 11)
    ("cam0.csv", "cam2.csv")%string (false, false) Sample.start
    = Raise (NameError "success") /\
  exists s1 s2 : Sample.run_state,
    process_pair Sample.baseline (Sample.pair_ok (Sample.consistent 0) 10)
      ("cam0.csv", "cam1.csv")%string (false, false) Sample.start = Ok s1 /\
    initial_stage Sample.optimization_only_config
      (Sample.pair_ok (Sample.consistent 1) 11)
      ("cam0.csv", "cam2.csv")%string (false, false) s1 = Ok s2 /\
    vars s2 = vars s1 /\
    dataset_names (result_entry s2)
      = [("cam0.csv", "cam1.csv"); ("cam0.csv", "cam2.csv")]%string /\
    success (result_entry s2) = [true; true] /\
    num_initial_poses (result_entry s2) = [10; 10] /\
    num_poses_kept (result_entry s2) = [PyInt 10; PyInt 10] /\
    runtimes (result_entry s2) = [PyOpaque 7; PyOpaque 7] /\
    singular_values (result_entry s2) = [PyOpaque 8; PyOpaque 8] /\
    bad_singular_value (result_entry s2) = [PyInt 0; PyInt 0].
Proof.
  pose proof (optimization_only_reuses_variables (Ops := IntDQ.ops)
                Sample.optimization_only_config
                (Sample.pair_ok (Sample.consistent 1) 11)
                ("cam0.csv", "cam2.csv")%string (false, false)
                eq_refl eq_refl eq_refl) as (Hfirst & _ & Hlater & _).
  split; [apply Hfirst; reflexivity|].
  eexists.
  destruct (Hlater Sample.baseline (Sample.pair_ok (Sample.consistent 0) 10)
              ("cam0.csv", "cam1.csv")%string (false, false) Sample.start _
              (Sample.solved (Sample.consistent 0) 10) eq_refl eq_refl eq_refl)
    as (s2 & Hs2 & Hvars & Hnames & Hsuccess & Hinitial & Hkept & Hruntimes
        & Hsingular & Hbad).
  exists s2. split; [reflexivity|]. split; [exact Hs2|].
  rewrite Hvars, Hnames, Hsuccess, Hinitial, Hkept, Hruntimes, Hsingular, Hbad.
  split_all; reflexivity.
Defined.

(** Three files whose pairwise results agree: every solve succeeds and the
    loop closes with zero error, in each of the two iterations. *)
Example consistent_run :
  exists s,
    main (Sample.args3 2) (Sample.consistent_world [Sample.ransac]) = Ok s /\
    success (result_entry s) = [true; true; true] /\
    loop_error_position (result_entry s) = Some 0 /\
    loop_error_orientation (result_entry s) = Some 0 /\
    length (results_file s) = 2%nat.
Proof. eexists. split; [vm_compute; reflexivity|]. cbn. split_all; reflexivity. Qed.

(** A run that starts with an optimization-only configuration stops at the
    first pair. *)
Example optimization_only_first :
  main (Sample.args3 1) (Sample.consistent_world [Sample.optimization_only_config])
    = Raise (NameError "success").
Proof. vm_compute. reflexivity. Qed.

(** After the baseline configuration, the optimization-only configuration
    records for each of its pairs the diagnostics of the last baseline pair:
    12 initial poses, where the three pairs have 10, 11 and 12. *)
Example optimization_only_later :
  exists s,
    main (Sample.args3 1)
      (Sample.consistent_world [Sample.baseline; Sample.optimization_only_config])
      = Ok s /\
    num_initial_poses (result_entry s) = [12; 12; 12] /\
    num_poses_kept (result_entry s) = [PyInt 12; PyInt 12; PyInt 12].
Proof. eexists. split; [vm_compute; reflexivity|]. cbn. split; reflexivity. Qed.

(** The optimizer fails for one pair: the run completes, the failure and the
    missing loop error are reported. *)
Example optimizer_failure_run :
  exists s,
    main (Sample.args3 1) (Sample.optimizer_failure_world [Sample.ransac_optimized])
      = Ok s /\
    optimization_success (result_entry s) = [true; false; true] /\
    results_dq_H_E s = [Some (Sample.consistent 0); None; Some (Sample.consistent 2)] /\
    MsgOptimizationFailed "exit code 1" ∈ stdout s /\
    MsgNoLoopError ∈ stdout s /\
    loop_error_position (result_entry s) = None.
Proof.
  eexists. split; [vm_compute; reflexivity|]. cbn.
  split_all; try reflexivity;
    repeat first [apply list_elem_of_here | apply list_elem_of_further].
Qed.

(** ** [compute_loop_error]: errors and edge cases *)

Lemma py_index_raises {A : Type} (l : list A) (i : Z) (e : exn) :
  py_index l i = Raise e -> e = IndexError.
Proof.
  unfold py_index. destruct (_ <? 0); [congruence|].
  destruct (l !! _); congruence.
Qed.

Lemma py_index_in_range {A : Type} (l : list A) (i : Z) :
  0 <= i < len l -> exists x, l !! Z.to_nat i = Some x /\ py_index l i = Ok x.
Proof.
  intros H. unfold len in H.
  destruct (lookup_lt_is_Some_2 l (Z.to_nat i)) as [x Hx]; [lia|].
  exists x. split; [exact Hx|].
  rewrite py_index_nonneg, Hx by lia. reflexivity.
Qed.

Lemma py_index_out_of_range {A : Type} (l : list A) (i : Z) :
  len l <= i -> py_index l i = Raise IndexError.
Proof.
  intros H. unfold len in H. rewrite py_index_nonneg by lia.
  rewrite lookup_ge_None_2 by lia. reflexivity.
Qed.

Lemma mapM_length {A B : Type} (f : A -> outcome B) (l : list A) (ys : list B) :
  mapM f l = Ok ys -> length ys = length l.
Proof.
  revert ys. induction l as [|x l IH]; intros ys H.
  - injection H as <-. reflexivity.
  - simpl in H. destruct (f x); try discriminate. cbn [bind] in H.
    destruct (mapM f l) as [zs| |]; try discriminate.
    injection H as <-. simpl. rewrite (IH zs); reflexivity.
Qed.

Lemma mapM_lookup {A B : Type} (f : A -> outcome B) (l : list A) (ys : list B)
    (k : nat) (x : A) :
  mapM f l = Ok ys -> l !! k = Some x ->
  exists y, ys !! k = Some y /\ f x = Ok y.
Proof.
  revert ys k. induction l as [|a l IH]; intros ys k H Hk; [discriminate|].
  simpl in H. destruct (f a) as [b| |] eqn:Ea; try discriminate. cbn [bind] in H.
  destruct (mapM f l) as [zs| |]; try discriminate.
  injection H as <-. destruct k as [|k].
  - injection Hk as <-. exists b. split; [reflexivity|exact Ea].
  - apply (IH zs k eq_refl Hk).
Qed.

Lemma mapM_ok_all {A B : Type} (f : A -> outcome B) (l : list A) :
  (forall x, x ∈ l -> exists y, f x = Ok y) -> exists ys, mapM f l = Ok ys.
Proof.
  induction l as [|x l IH]; intros H; [exists []; reflexivity|].
  destruct (H x) as [y Hy]; [apply list_elem_of_here|].
  destruct IH as [ys Hys].
  { intros z Hz. apply H, list_elem_of_further, Hz. }
  exists (y :: ys). simpl. rewrite Hy, Hys. reflexivity.
Qed.

Lemma mapM_py_index_raises {A : Type} (l : list A) (indices : list Z) (e : exn) :
  mapM (py_index l) indices = Raise e -> e = IndexError.
Proof.
  induction indices as [|i indices IH]; [discriminate|].
  simpl. destruct (py_index l i) eqn:Ei; cbn [bind].
  - destruct (mapM (py_index l) indices); cbn [bind]; try discriminate.
    intros H. injection H as <-. apply IH. reflexivity.
  - intros H. injection H as <-. eapply py_index_raises, Ei.
  - discriminate.
Qed.

(** A list of indices that holds one past the end cannot be read. *)
Lemma mapM_py_index_short {A : Type} (l : list A) (indices : list Z) (i : Z) :
  i ∈ indices -> len l <= i -> mapM (py_index l) indices = Raise IndexError.
Proof.
  intros Hin Hi.
  destruct (mapM (py_index l) indices) as [ys|e|] eqn:E.
  - apply list_elem_of_lookup in Hin as [k Hk].
    destruct (mapM_lookup _ _ _ _ _ E Hk) as (y & _ & Hy).
    rewrite py_index_out_of_range in Hy by exact Hi. discriminate.
  - apply mapM_py_index_raises in E. rewrite E. reflexivity.
  - exfalso. eapply mapM_py_index_completes, E.
Qed.

(** Twice the row start, without the recursion. *)
Lemma row_start_closed (N : Z) (i : nat) :
  2 * row_start N i = Z.of_nat i * (2 * N - 1 - Z.of_nat i).
Proof.
  induction i as [|i IH]; [reflexivity|].
  change (row_start N (S i)) with (row_start N i + (N - 1 - Z.of_nat i)). nia.
Qed.

Lemma row_start_nonneg (N : Z) (i : nat) :
  Z.of_nat i <= N -> 0 <= row_start N i.
Proof. intros H. pose proof (row_start_closed N i). nia. Qed.

(** The last pair, (N-2, N-1), sits at the last position. *)
Lemma row_start_last (n : nat) :
  (2 <= n)%nat -> row_start (Z.of_nat n) (n - 2) = Z.of_nat (choose n 2) - 1.
Proof.
  intros H. pose proof (row_start_closed (Z.of_nat n) (n - 2)) as Hc.
  pose proof (choose_2_double n) as Hd.
  replace (Z.of_nat (n - 2)) with (Z.of_nat n - 2) in Hc by lia.
  assert (Hz : 2 * Z.of_nat (choose n 2) = Z.of_nat n * (Z.of_nat n - 1)) by nia.
  nia.
Qed.

Lemma stride_indices_small (N : Z) : N <= 2 -> stride_indices N = [].
Proof.
  intros H. unfold stride_indices.
  replace (Z.to_nat (N - 2)) with 0%nat by lia. reflexivity.
Qed.

Lemma stride_indices_lookup (N : Z) (k : nat) :
  (k < Z.to_nat (N - 2))%nat -> stride_indices N !! k = Some (row_start N (S k)).
Proof.
  intros H. unfold stride_indices.
  rewrite list_lookup_fmap, lookup_seq_lt by exact H. reflexivity.
Qed.

Lemma length_stride_indices (N : Z) : length (stride_indices N) = Z.to_nat (N - 2).
Proof. unfold stride_indices. rewrite length_fmap, length_seq. reflexivity. Qed.

Section LoopErrorEdges.

Context {DQ Pose Err : Type} `{Ops : DualQuaternionOps DQ Pose Err}.

Lemma compose_loop_length (chain : list (option DQ)) (indices : list Z)
    (d : DQ) (acc poses : list Pose) :
  compose_loop chain indices d acc = Ok poses ->
  length poses = (length acc + length indices)%nat.
Proof.
  revert d acc. induction indices as [|i indices IH]; intros d acc H.
  - injection H as <-. simpl. lia.
  - cbn [compose_loop] in H.
    destruct (py_index chain i) as [[x|]| |]; try discriminate.
    cbn [bind py_imul] in H. apply IH in H.
    rewrite H, length_app. simpl. lia.
Qed.

Lemma compose_loop_raises (chain : list (option DQ)) (indices : list Z)
    (d : DQ) (acc : list Pose) (e : exn) :
  compose_loop chain indices d acc = Raise e -> e = IndexError \/ e = LibraryError.
Proof.
  revert d acc. induction indices as [|i indices IH]; intros d acc H; [discriminate|].
  cbn [compose_loop] in H.
  destruct (py_index chain i) as [[x|]| |] eqn:Ei; cbn [bind py_imul] in H.
  - eapply IH, H.
  - right. congruence.
  - left. injection H as <-. eapply py_index_raises, Ei.
  - discriminate.
Qed.

Lemma build_chain_raises (N : Z) (rs : list (option DQ)) (e : exn) :
  build_chain N rs = Raise e -> e = IndexError \/ e = AttributeError.
Proof.
  rewrite build_chain_unfold.
  destruct (py_index rs 0) as [x0|e0|] eqn:E0; cbn [bind];
    [|intros H; injection H as <-; left; eapply py_index_raises, E0|discriminate].
  destruct (mapM (py_index rs) (stride_indices N)) as [xs|e1|] eqn:E1; cbn [bind];
    [|intros H; injection H as <-; left; eapply mapM_py_index_raises, E1|discriminate].
  destruct (py_index rs (N - 2)) as [[xl|]|e2|] eqn:E2; cbn [bind py_inverse];
    [discriminate|intros H; right; congruence
    |intros H; injection H as <-; left; eapply py_index_raises, E2|discriminate].
Qed.

(** Whatever the list is, a chain that gets built has [N + 1] elements. *)
Lemma build_chain_length (N : Z) (rs chain : list (option DQ)) :
  2 <= N -> build_chain N rs = Ok chain -> len chain = N + 1.
Proof.
  intros HN. rewrite build_chain_unfold.
  destruct (py_index rs 0) as [x0| |]; cbn [bind]; try discriminate.
  destruct (mapM (py_index rs) (stride_indices N)) as [xs| |] eqn:E1; cbn [bind];
    try discriminate.
  destruct (py_index rs (N - 2)) as [[xl|]| |]; cbn [bind py_inverse];
    try discriminate.
  intros H. injection H as <-.
  apply mapM_length in E1. rewrite length_stride_indices in E1.
  unfold len. simpl. rewrite length_app, E1. simpl. lia.
Qed.

(** The two reads of [poses_to_plot] succeed when there is a pose. *)
Lemma first_and_last_pose (poses : list Pose) :
  (0 < length poses)%nat ->
  exists p q, py_index poses 0 = Ok p /\ py_index poses (-1) = Ok q.
Proof.
  intros H. destruct poses as [|p poses]; [simpl in H; lia|].
  destruct (exists_last (l := p :: poses)) as (ps & q & Hq); [discriminate|].
  exists p, q. split; [reflexivity|]. rewrite Hq. apply py_index_last.
Qed.

(** X1: with at least two pose sets neither assertion of
    [compute_loop_error] can fail, whatever the list of results is: a chain
    that gets built has [N + 1] elements, and the function raises nothing but
    [IndexError], [AttributeError] or the exception of the imported
    multiplication. *)
Theorem loop_error_assertions_hold (N : Z) (rs : list (option DQ))
    (visualize : bool) (e : exn) :
  2 <= N ->
  compute_loop_error N rs visualize = Raise e ->
  e = IndexError \/ e = AttributeError \/ e = LibraryError.
Proof.
  intros HN. unfold compute_loop_error.
  destruct (build_chain N rs) as [chain|e0|] eqn:Ec; cbn [bind];
    [|intros H; injection H as <-; apply build_chain_raises in Ec; tauto
     |discriminate].
  rewrite (build_chain_length N rs chain HN Ec), Z.eqb_refl.
  destruct (compose_loop chain _ dq_identity []) as [poses|e1|] eqn:Ep; cbn [bind];
    [|intros H; injection H as <-; apply compose_loop_raises in Ep; tauto
     |discriminate].
  apply compose_loop_length in Ep. rewrite length_py_range in Ep. simpl in Ep.
  pose proof (build_chain_length N rs chain HN Ec) as Hl.
  destruct (first_and_last_pose poses) as (p & q & Hp & Hq);
    [unfold len in Hl; lia|].
  rewrite Hp, Hq. cbn [bind].
  replace (len poses =? N + 1) with true
    by (symmetry; apply Z.eqb_eq; unfold len in *; lia).
  destruct visualize; discriminate.
Qed.

(** X2: the [visualize] flag does not change the outcome: the assertion it
    guards, that there are as many poses as chain elements, always holds. *)
Theorem visualize_is_output_only (N : Z) (rs : list (option DQ)) :
  compute_loop_error N rs true = compute_loop_error N rs false.
Proof.
  unfold compute_loop_error.
  destruct (build_chain N rs) as [chain| |]; cbn [bind]; try reflexivity.
  destruct (len chain =? N + 1); [|reflexivity].
  destruct (compose_loop chain _ dq_identity []) as [poses| |] eqn:Ep; cbn [bind];
    try reflexivity.
  apply compose_loop_length in Ep. rewrite length_py_range in Ep. simpl in Ep.
  destruct (py_index poses 0); cbn [bind]; try reflexivity.
  destruct (py_index poses (-1)); cbn [bind]; try reflexivity.
  replace (len poses =? len chain) with true; [reflexivity|].
  symmetry. apply Z.eqb_eq. unfold len in *. lia.
Qed.

(** X3: a list with fewer than C(N,2) results makes [compute_loop_error]
    raise [IndexError], whatever the list holds: every read comes before the
    inversion and the composition, and one of the reads is at the last
    position, C(N,2) - 1. *)
Theorem too_few_results_raise_index_error (N : Z) (rs : list (option DQ))
    (visualize : bool) :
  2 <= N ->
  (length rs < choose (Z.to_nat N) 2)%nat ->
  compute_loop_error N rs visualize = Raise IndexError.
Proof.
  intros HN Hlen. unfold compute_loop_error. rewrite build_chain_unfold.
  pose proof (row_start_last (Z.to_nat N)) as Hlast.
  rewrite Z2Nat.id in Hlast by lia. specialize (Hlast ltac:(lia)).
  destruct (py_index rs 0) as [x0|e0|] eqn:E0; cbn [bind].
  - destruct (Z.eq_dec N 2) as [->|Hne].
    + simpl in Hlen. destruct rs; [cbv in E0; discriminate E0|simpl in Hlen; lia].
    + rewrite (mapM_py_index_short rs (stride_indices N)
                 (row_start N (S (Z.to_nat N - 3)))); [reflexivity| |].
      * apply list_elem_of_lookup. exists (Z.to_nat N - 3)%nat.
        apply stride_indices_lookup. lia.
      * replace (S (Z.to_nat N - 3)) with (Z.to_nat N - 2)%nat by lia.
        rewrite Hlast. unfold len. lia.
  - apply py_index_raises in E0. rewrite E0. reflexivity.
  - exfalso. eapply py_index_completes, E0.
Qed.

(** X4: with a full list of C(N,2) results of which the one for the pair
    (file 0, file N-1) is [None], [compute_loop_error] raises
    [AttributeError]: all reads succeed and the inversion fails. *)
Theorem missing_closing_result_raises_attribute_error (N : Z)
    (rs : list (option DQ)) (visualize : bool) :
  2 <= N ->
  length rs = choose (Z.to_nat N) 2 ->
  rs !! Z.to_nat (N - 2) = Some None ->
  compute_loop_error N rs visualize = Raise AttributeError.
Proof.
  intros HN Hlen Hnone. unfold compute_loop_error. rewrite build_chain_unfold.
  assert (Hpos : (0 < choose (Z.to_nat N) 2)%nat).
  { pose proof (pair_position_lt (Z.to_nat N) 0 1). lia. }
  destruct (py_index_in_range rs 0) as (x0 & _ & ->); [unfold len; lia|].
  cbn [bind].
  destruct (mapM_ok_all (py_index rs) (stride_indices N)) as [xs ->].
  { intros i Hi. unfold stride_indices in Hi.
    apply list_elem_of_fmap in Hi as (k & -> & Hk). apply elem_of_seq in Hk.
    pose proof (index_stride (Z.to_nat N) k ltac:(lia)) as Hs.
    rewrite Z2Nat.id in Hs by lia.
    pose proof (pair_position_lt (Z.to_nat N) (S k) (S (S k)) ltac:(lia)).
    destruct (py_index_in_range rs (row_start N (S k))) as (x & _ & Hx);
      [unfold len; lia|].
    exists x. exact Hx. }
  cbn [bind]. rewrite py_index_nonneg, Hnone by lia. reflexivity.
Qed.

(** X5: with fewer than two pose sets [compute_loop_error] never returns a
    value: the chain it builds has three elements, not [N + 1], so the length
    assertion fails unless a read or the inversion has failed before. *)
Theorem fewer_than_two_sets_never_return (N : Z) (rs : list (option DQ))
    (visualize : bool) :
  N < 2 ->
  exists e, compute_loop_error N rs visualize = Raise e /\
            (e = IndexError \/ e = AttributeError \/ e = AssertionError).
Proof.
  intros HN. unfold compute_loop_error. rewrite build_chain_unfold.
  rewrite stride_indices_small by lia.
  destruct (py_index rs 0) as [x0|e0|] eqn:E0; cbn [bind mapM].
  - destruct (py_index rs (N - 2)) as [[xl|]|e2|] eqn:E2; cbn [bind py_inverse].
    + exists AssertionError. split; [|tauto].
      cbn [app].
      change (len [Some dq_identity; x0; Some (dq_inverse xl)]) with 3.
      destruct (Z.eqb_spec 3 (N + 1)); [lia|reflexivity].
    + exists AttributeError. split; [reflexivity|tauto].
    + exists e2. split; [reflexivity|]. left. eapply py_index_raises, E2.
    + exfalso. eapply py_index_completes, E2.
  - exists e0. split; [reflexivity|]. left. eapply py_index_raises, E0.
  - exfalso. eapply py_index_completes, E0.
Qed.

End LoopErrorEdges.

(** ** [compute_loop_error]: the chain, position by position *)

Lemma py_index_inv {A : Type} (l : list A) (i : Z) (x : A) :
  0 <= i -> py_index l i = Ok x -> l !! Z.to_nat i = Some x.
Proof.
  intros Hi. rewrite py_index_nonneg by exact Hi.
  destruct (l !! Z.to_nat i); congruence.
Qed.

Section LoopErrorPositions.

Context {DQ Pose Err : Type} `{Ops : DualQuaternionOps DQ Pose Err}.

(** X6: the chain in terms of the list of results, for any list: the
    identity first; then, for i = 0 .. N-2, the result at index
    i (2N - 1 - i) / 2, which is the position of the pair (i, i+1) in the
    order of [itertools.combinations]; last the inverse of the result at
    index N - 2. *)
Theorem chain_element_positions (N : Z) (rs chain : list (option DQ)) :
  2 <= N ->
  build_chain N rs = Ok chain ->
  chain !! 0%nat = Some (Some dq_identity) /\
  (forall i : nat, Z.of_nat i <= N - 2 ->
     chain !! S i = rs !! Z.to_nat (Z.of_nat i * (2 * N - 1 - Z.of_nat i) / 2)) /\
  exists d, rs !! Z.to_nat (N - 2) = Some (Some d) /\
            chain !! Z.to_nat N = Some (Some (dq_inverse d)).
Proof.
  intros HN. rewrite build_chain_unfold.
  destruct (py_index rs 0) as [x0| |] eqn:E0; cbn [bind]; try discriminate.
  destruct (mapM (py_index rs) (stride_indices N)) as [xs| |] eqn:E1; cbn [bind];
    try discriminate.
  destruct (py_index rs (N - 2)) as [[xl|]| |] eqn:E2; cbn [bind py_inverse];
    try discriminate.
  intros H. injection H as <-.
  pose proof (mapM_length _ _ _ E1) as Hlen. rewrite length_stride_indices in Hlen.
  split; [reflexivity|]. split.
  - intros i Hi. destruct i as [|k].
    + simpl. symmetry. apply py_index_inv in E0; [exact E0|lia].
    + assert (Hk : (k < Z.to_nat (N - 2))%nat) by lia.
      destruct (mapM_lookup _ _ _ k _ E1 (stride_indices_lookup N k Hk))
        as (y & Hy & Hread).
      pose proof (row_start_closed N (S k)) as Hc.
      pose proof (row_start_nonneg N (S k) ltac:(lia)) as Hpos.
      replace (Z.of_nat (S k) * (2 * N - 1 - Z.of_nat (S k)) / 2)
        with (row_start N (S k))
        by (rewrite <- Hc, Z.mul_comm, Z.div_mul by lia; reflexivity).
      rewrite (py_index_inv _ _ _ Hpos Hread).
      change ((xs ++ [Some (dq_inverse xl)]) !! k = Some y).
      rewrite lookup_app_l by lia. exact Hy.
  - exists xl. split; [apply py_index_inv in E2; [exact E2|lia]|].
    replace (Z.to_nat N) with (S (S (length xs + 0))) by lia.
    change ((xs ++ [Some (dq_inverse xl)]) !! (length xs + 0)%nat
            = Some (Some (dq_inverse xl))).
    rewrite lookup_app_r by lia.
    replace (length xs + 0 - length xs)%nat with 0%nat by lia. reflexivity.
Qed.

(** The chain for results listed by pair, without [None]. *)
Lemma pairwise_chain (f : nat -> nat -> DQ) (n : nat) :
  (2 <= n)%nat ->
  build_chain (Z.of_nat n) (pairwise_results f n) =
    Ok (Some <$> (dq_identity
                    :: ((fun i : nat => f i (S i)) <$> seq 0 (n - 1))
                    ++ [dq_inverse (f 0%nat (n - 1)%nat)])).
Proof.
  intros Hn. rewrite build_chain_unfold.
  rewrite (index_first n), pairwise_results_lookup by lia. cbn [bind].
  unfold stride_indices.
  replace (Z.to_nat (Z.of_nat n - 2)) with (n - 2)%nat by lia.
  rewrite (mapM_fmap_ok _ _ (fun i : nat => Some (f (S i) (S (S i))))).
  2:{ intros i Hi. apply elem_of_seq in Hi.
      rewrite index_stride by lia. apply pairwise_results_lookup. lia. }
  cbn [bind].
  rewrite index_closing, pairwise_results_lookup by lia. cbn [bind py_inverse].
  replace (seq 0 (n - 1)) with (0%nat :: seq 1 (n - 2))
    by (replace (n - 1)%nat with (S (n - 2)) by lia; reflexivity).
  rewrite <- fmap_S_seq.
  rewrite !fmap_cons, fmap_app, !fmap_cons, <- !list_fmap_compose. reflexivity.
Qed.

(** Composing the results of the consecutive pairs, from the identity. *)
Lemma fold_consecutive (f : nat -> nat -> DQ) (m : nat) :
  (forall x, dq_mul dq_identity x = x) ->
  (forall k : nat, (1 <= k < m)%nat -> dq_mul (f 0%nat k) (f k (S k)) = f 0%nat (S k)) ->
  (1 <= m)%nat ->
  fold_left dq_mul ((fun i : nat => f i (S i)) <$> seq 0 m) dq_identity = f 0%nat m.
Proof.
  intros Hid Hstep. induction m as [|m IH]; intros Hm; [lia|].
  rewrite seq_S, fmap_app, fold_left_app. simpl.
  destruct m as [|m]; [apply Hid|].
  rewrite IH by (try lia; intros k Hk; apply Hstep; lia).
  apply Hstep. lia.
Qed.

(** X7: results that agree with each other close the loop. When the result
    for (0, k) composed with the result for (k, k+1) is the result for
    (0, k+1), and the result for (0, n-1) composed with its inverse is the
    identity, the last pose is the first one and the loop error is the pose
    error of a pose with itself. *)
Theorem consistent_results_close_the_loop (f : nat -> nat -> DQ) (n : nat)
    (visualize : bool) (zero : Err) :
  (2 <= n)%nat ->
  (forall x, dq_mul dq_identity x = x) ->
  (forall k : nat, (1 <= k)%nat -> (S k < n)%nat ->
     dq_mul (f 0%nat k) (f k (S k)) = f 0%nat (S k)) ->
  dq_mul (f 0%nat (n - 1)%nat) (dq_inverse (f 0%nat (n - 1)%nat)) = dq_identity ->
  (forall p, compute_pose_error p p = (zero, zero)) ->
  compute_loop_error (Z.of_nat n) (pairwise_results f n) visualize = Ok (zero, zero).
Proof.
  intros Hn Hid Hstep Hinv Herr.
  rewrite (compute_loop_error_of_chain _ _ visualize _ _ (pairwise_chain f n Hn)).
  2:{ unfold len. simpl. rewrite length_app, length_fmap, length_seq. simpl. lia. }
  cbn [fold_left]. rewrite Hid, fold_left_app.
  rewrite fold_consecutive; [|exact Hid|intros k Hk; apply Hstep; lia|lia].
  simpl. rewrite Hinv, Herr. reflexivity.
Qed.

End LoopErrorPositions.

(** ** The pair loop: what it records, pair by pair *)

(** [sum] of a list of booleans counts the [True]s: it reaches the length
    exactly when all are [True]. *)
Lemma sum_bools_from (l : list bool) (acc : Z) :
  fold_left (fun a (b : bool) => a + (if b then 1 else 0)) l acc = acc + sum_bools l.
Proof.
  unfold sum_bools. revert acc. induction l as [|b l IH]; intros acc; [simpl; lia|].
  cbn [fold_left].
  rewrite (IH (acc + (if b then 1 else 0))), (IH (0 + (if b then 1 else 0))). lia.
Qed.

Lemma sum_bools_cons (b : bool) (l : list bool) :
  sum_bools (b :: l) = (if b then 1 else 0) + sum_bools l.
Proof. unfold sum_bools at 1. simpl. apply sum_bools_from. Qed.

Lemma sum_bools_bounds (l : list bool) : 0 <= sum_bools l <= len l.
Proof.
  induction l as [|b l IH]; [unfold sum_bools, len; simpl; lia|].
  rewrite sum_bools_cons. unfold len in *. simpl length. destruct b; lia.
Qed.

Lemma sum_bools_all (l : list bool) :
  sum_bools l = len l <-> Forall (eq true) l.
Proof.
  induction l as [|b l IH]; [split; [constructor|reflexivity]|].
  rewrite sum_bools_cons, Forall_cons.
  pose proof (sum_bools_bounds l) as Hb.
  unfold len in *. simpl length.
  destruct b; split.
  - intros H. split; [reflexivity|]. apply IH. lia.
  - intros [_ H]. apply IH in H. lia.
  - intros H. lia.
  - intros [H _]. discriminate H.
Qed.

(** Case analysis on the outcomes that a definition binds, innermost first. *)
Ltac destruct_inner_binds :=
  repeat match goal with
         | |- context [bind ?m _] =>
             lazymatch m with
             | context [bind _ _] => fail
             | _ => let E := fresh "E" in
                    destruct m eqn:E; cbn [bind] in *
             end
         end.

Section PairLoop.

Context {DQ Pose Err O : Type} `{Ops : DualQuaternionOps DQ Pose Err}.

#[local] Abbreviation state'' := (state (DQ := DQ) (Pose := Pose) (Err := Err) (O := O)).
#[local] Abbreviation pair_world'' := (pair_world (DQ := DQ) (O := O)).

(** What one pair adds to the state, when it completes. *)
Lemma process_pair_effect (cfg : algorithm_config) (w : pair_world'')
    (pf : string * string) (ab : bool * bool) (s s' : state'') (k : nat) :
  process_pair cfg w pf ab s = Ok s' ->
  entry_complete k (result_entry s) ->
  exists (dq : option DQ) (ok : bool),
    results_dq_H_E s' = results_dq_H_E s ++ [dq] /\
    results_poses_H_E s' = results_poses_H_E s ++ [dq_to_pose <$> dq] /\
    dataset_names (result_entry s') = dataset_names (result_entry s) ++ [pf] /\
    optimization_success (result_entry s')
      = optimization_success (result_entry s) ++ [ok] /\
    entry_complete (S k) (result_entry s') /\
    pose_pair_num s' = pose_pair_num s + 1 /\
    results_file s' = results_file s /\
    (enable_optimization (optimization_config cfg) = true ->
     dq = optimized_estimate w /\ ok = optimizer_returned w) /\
    (enable_optimization (optimization_config cfg) = false -> ok = true).
Proof.
  unfold process_pair, initial_stage, optimization_stage,
    optimized_estimate, optimizer_returned.
  intros H (C1 & C2 & C3 & C4 & C5 & C6 & C7 & C8 & C9 & C10).
  revert H.
  destruct (optimization_only (optimization_config cfg)); cbn [negb];
    destruct (enable_optimization (optimization_config cfg));
    try destruct (w_run w) as [ex|];
    destruct_inner_binds; intros H; try discriminate;
    injection H as <-; cbn;
    eexists _, _; unfold entry_complete; cbn; rewrite ?length_app; cbn;
    split_all; try reflexivity; try lia; try (intros; discriminate);
    try (intros _; split; reflexivity).
Qed.

(** What the pair loop adds to the state, when it completes. *)
Lemma pair_loop_effect (cfg : algorithm_config) (ws : Z -> pair_world'')
    (pairs : list ((string * string) * (bool * bool))) (s s' : state'') (k : nat) :
  pair_loop cfg ws pairs s = Ok s' ->
  entry_complete k (result_entry s) ->
  exists (dqs : list (option DQ)) (oks : list bool),
    length dqs = length pairs /\
    length oks = length pairs /\
    results_dq_H_E s' = results_dq_H_E s ++ dqs /\
    results_poses_H_E s' = results_poses_H_E s ++ poses_of dqs /\
    dataset_names (result_entry s') = dataset_names (result_entry s) ++ pairs.*1 /\
    optimization_success (result_entry s')
      = optimization_success (result_entry s) ++ oks /\
    entry_complete (k + length pairs) (result_entry s') /\
    pose_pair_num s' = pose_pair_num s + len pairs /\
    results_file s' = results_file s /\
    (enable_optimization (optimization_config cfg) = true ->
     dqs = (fun i : nat => optimized_estimate (ws (pose_pair_num s + Z.of_nat i)))
             <$> seq 0 (length pairs) /\
     oks = (fun i : nat => optimizer_returned (ws (pose_pair_num s + Z.of_nat i)))
             <$> seq 0 (length pairs)) /\
    (enable_optimization (optimization_config cfg) = false ->
     oks = replicate (length pairs) true).
Proof.
  revert s k. induction pairs as [|[pf ab] pairs IH]; intros s k H Hc.
  - injection H as <-. exists [], []. cbn. rewrite !app_nil_r, Nat.add_0_r.
    unfold len. cbn. rewrite Z.add_0_r.
    split_all; try reflexivity; try exact Hc; intros _; split; reflexivity.
  - cbn [pair_loop] in H.
    destruct (process_pair cfg (ws (pose_pair_num s)) pf ab s) as [s1| |] eqn:E;
      try discriminate.
    cbn [bind] in H.
    destruct (process_pair_effect _ _ _ _ _ _ k E Hc)
      as (dq & ok & P1 & P2 & P3 & P4 & P5 & P6 & P7 & P8 & P9).
    destruct (IH s1 (S k) H P5)
      as (dqs & oks & L1 & L2 & Q1 & Q2 & Q3 & Q4 & Q5 & Q6 & Q7 & Q8 & Q9).
    exists (dq :: dqs), (ok :: oks). cbn [length].
    rewrite Q1, Q2, Q3, Q4, Q6, Q7, P1, P2, P3, P4, P6, P7, <- !app_assoc.
    unfold len. cbn [length fmap list_fmap app poses_of].
    split_all; try reflexivity; try lia.
    + replace (k + S (length pairs))%nat with (S k + length pairs)%nat by lia.
      exact Q5.
    + intros Hopt. destruct (P8 Hopt) as [-> ->]. destruct (Q8 Hopt) as [-> ->].
      rewrite P6. cbn [seq]. rewrite <- fmap_S_seq, !fmap_cons, <- !list_fmap_compose.
      change (Z.of_nat 0) with 0. rewrite Z.add_0_r.
      split; f_equal; apply list_fmap_ext; intros _ i _; cbn; do 2 f_equal; lia.
    + intros Hopt. rewrite (P9 Hopt), (Q9 Hopt). reflexivity.
Qed.

Lemma new_result_entry_complete :
  entry_complete 0 (new_result_entry (Err := Err) (O := O)).
Proof. unfold entry_complete. cbn. split_all; reflexivity. Qed.

(** X9: when the pair loop of an iteration completes, each of the ten
    per-pair lists of the result entry and both result lists have one element
    per pair, the data set names are the pairs in the order of the loop, and
    the pair counter is the number of pairs: the assertions of lines 352-353
    hold when [num_pose_pairs] is that number. *)
Theorem pair_loop_fills_every_list (cfg : algorithm_config)
    (ws : Z -> pair_world'')
    (pairs : list ((string * string) * (bool * bool))) (s s1 : state'') :
  pair_loop cfg ws pairs (begin_iteration s) = Ok s1 ->
  entry_complete (length pairs) (result_entry s1) /\
  len (results_dq_H_E s1) = len pairs /\
  len (results_poses_H_E s1) = len pairs /\
  dataset_names (result_entry s1) = pairs.*1 /\
  pose_pair_num s1 = len pairs.
Proof.
  intros H.
  destruct (pair_loop_effect _ _ _ _ _ 0 H new_result_entry_complete)
    as (dqs & oks & L1 & L2 & Q1 & Q2 & Q3 & Q4 & Q5 & Q6 & _).
  cbn in Q1, Q2, Q3, Q6. rewrite Q1, Q2, Q3, Q6.
  unfold len, poses_of. rewrite length_fmap, L1.
  split_all; try reflexivity. exact Q5.
Qed.

(** X10: the list of poses goes with the list of estimates: entry [i] of
    [results_poses_H_E] is [to_pose()] of entry [i] of [results_dq_H_E], and
    [None] where that is [None]. So the pose written to the pose file of a
    pair, under the test that the estimate is not [None], is never [None]. *)
Theorem poses_match_estimates (cfg : algorithm_config) (ws : Z -> pair_world'')
    (pairs : list ((string * string) * (bool * bool))) (s s1 : state'') :
  pair_loop cfg ws pairs (begin_iteration s) = Ok s1 ->
  results_poses_H_E s1 = poses_of (results_dq_H_E s1).
Proof.
  intros H.
  destruct (pair_loop_effect _ _ _ _ _ 0 H new_result_entry_complete)
    as (dqs & oks & _ & _ & Q1 & Q2 & _).
  cbn in Q1, Q2. rewrite Q1, Q2. reflexivity.
Qed.

(** X11: with optimization enabled, the estimates of an iteration are those
    of the optimizer, pair by pair in the order of the loop: entry [k] is the
    optimized estimate of pair [k], or [None] when the optimizer process
    failed for pair [k], and flag [k] says which. What the initial algorithm
    returned for the pair does not enter the list. *)
Theorem optimized_results_in_pair_order (cfg : algorithm_config)
    (ws : Z -> pair_world'')
    (pairs : list ((string * string) * (bool * bool))) (s s1 : state'') :
  enable_optimization (optimization_config cfg) = true ->
  pair_loop cfg ws pairs (begin_iteration s) = Ok s1 ->
  results_dq_H_E s1 = (fun k => optimized_estimate (ws k)) <$> py_range 0 (len pairs) /\
  optimization_success (result_entry s1)
    = (fun k => optimizer_returned (ws k)) <$> py_range 0 (len pairs).
Proof.
  intros Hopt H.
  destruct (pair_loop_effect _ _ _ _ _ 0 H new_result_entry_complete)
    as (dqs & oks & _ & _ & Q1 & _ & _ & Q4 & _ & _ & _ & Q8 & _).
  destruct (Q8 Hopt) as [-> ->]. cbn in Q1, Q4. rewrite Q1, Q4.
  unfold len. rewrite py_range_0, <- !list_fmap_compose.
  split; apply list_fmap_ext; intros _ i _; cbn; f_equal; lia.
Qed.

End PairLoop.

(** ** Iterations: the loop error and the results file *)

Section Iterations.

Context {DQ Pose Err O : Type} `{Ops : DualQuaternionOps DQ Pose Err}.

#[local] Abbreviation state3 := (state (DQ := DQ) (Pose := Pose) (Err := Err) (O := O)).
#[local] Abbreviation pair_world3 := (pair_world (DQ := DQ) (O := O)).
#[local] Abbreviation world3 := (world (DQ := DQ) (O := O)).

(** A pair does not touch the loop-error fields, and with optimization its
    flag says whether its estimate is there. *)
Lemma process_pair_flags (cfg : algorithm_config) (w : pair_world3)
    (pf : string * string) (ab : bool * bool) (s s' : state3) :
  process_pair cfg w pf ab s = Ok s' ->
  loop_error_position (result_entry s') = loop_error_position (result_entry s) /\
  loop_error_orientation (result_entry s') = loop_error_orientation (result_entry s) /\
  (enable_optimization (optimization_config cfg) = true ->
   optimization_success (result_entry s) = is_not_none <$> results_dq_H_E s ->
   optimization_success (result_entry s') = is_not_none <$> results_dq_H_E s').
Proof.
  unfold process_pair, initial_stage, optimization_stage.
  destruct (optimization_only (optimization_config cfg)); cbn [negb];
    destruct (enable_optimization (optimization_config cfg));
    try destruct (w_run w) as [ex|];
    destruct_inner_binds; intros H; try discriminate;
    injection H as <-; cbn;
    split_all; try reflexivity; try (intros; discriminate);
    intros _ ->; rewrite fmap_app; reflexivity.
Qed.

Lemma pair_loop_flags (cfg : algorithm_config) (ws : Z -> pair_world3)
    (pairs : list ((string * string) * (bool * bool))) (s s' : state3) :
  pair_loop cfg ws pairs s = Ok s' ->
  loop_error_position (result_entry s') = loop_error_position (result_entry s) /\
  loop_error_orientation (result_entry s') = loop_error_orientation (result_entry s) /\
  (enable_optimization (optimization_config cfg) = true ->
   optimization_success (result_entry s) = is_not_none <$> results_dq_H_E s ->
   optimization_success (result_entry s') = is_not_none <$> results_dq_H_E s').
Proof.
  revert s. induction pairs as [|[pf ab] pairs IH]; intros s H.
  - injection H as <-. split_all; try reflexivity. intros _ H. exact H.
  - cbn [pair_loop] in H.
    destruct (process_pair cfg (ws (pose_pair_num s)) pf ab s) as [s1| |] eqn:E;
      try discriminate.
    cbn [bind] in H.
    apply process_pair_flags in E as (E1 & E2 & E3).
    apply IH in H as (H1 & H2 & H3).
    rewrite H1, H2, E1, E2. split_all; try reflexivity.
    intros Hopt Hs. apply (H3 Hopt), (E3 Hopt), Hs.
Qed.

(** Estimates that are all there form a list of dual quaternions. *)
Lemma all_present (dqs : list (option DQ)) :
  Forall (eq true) (is_not_none <$> dqs) -> exists ds, dqs = Some <$> ds.
Proof.
  induction dqs as [|[d|] dqs IH]; intros H.
  - exists []. reflexivity.
  - rewrite fmap_cons in H. apply Forall_cons in H as [_ H].
    destruct (IH H) as [ds ->]. exists (d :: ds). reflexivity.
  - rewrite fmap_cons in H. apply Forall_cons in H as [H _]. discriminate H.
Qed.

(** The steps of an iteration after the pair loop. *)
Lemma run_iteration_effect (N : Z)
    (pairs : list ((string * string) * (bool * bool)))
    (cfg : algorithm_config) (ws : Z -> pair_world3) (flush : outcome unit)
    (s s' : state3) :
  run_iteration N (len pairs) pairs cfg ws flush s = Ok s' ->
  exists s1,
    pair_loop cfg ws pairs (begin_iteration s) = Ok s1 /\
    flush = Ok tt /\
    results_dq_H_E s' = results_dq_H_E s1 /\
    results_poses_H_E s' = results_poses_H_E s1 /\
    results_file s' = results_file s ++ [result_entry s'] /\
    ((sum_bools (optimization_success (result_entry s1)) = len pairs /\
      exists err, compute_loop_error N (results_dq_H_E s1) true = Ok err /\
                  result_entry s' = set_loop_error err (result_entry s1) /\
                  stdout s' = stdout s1 ++ [MsgLoopError err.1 err.2]) \/
     (sum_bools (optimization_success (result_entry s1)) <> len pairs /\
      result_entry s' = result_entry s1 /\
      stdout s' = stdout s1 ++ [MsgNoLoopError])).
Proof.
  unfold run_iteration. fold (begin_iteration s).
  destruct (pair_loop cfg ws pairs (begin_iteration s)) as [s1| |] eqn:E1;
    cbn [bind]; try discriminate.
  destruct (pair_loop_effect _ _ _ _ _ 0 E1 new_result_entry_complete)
    as (dqs & oks & L1 & L2 & Q1 & Q2 & _ & _ & _ & _ & Q7 & _).
  cbn in Q1, Q2, Q7.
  destruct (len (results_dq_H_E s1) =? len pairs); [|discriminate].
  destruct (len (results_poses_H_E s1) =? len pairs); [|discriminate].
  destruct (Z.eqb_spec (sum_bools (optimization_success (result_entry s1))) (len pairs))
    as [Hgate|Hgate].
  - destruct (compute_loop_error N (results_dq_H_E s1) true) as [err| |] eqn:Eerr;
      cbn [bind]; try discriminate.
    destruct flush as [[]| |]; cbn [bind]; try discriminate.
    intros H. injection H as <-. cbn. exists s1. rewrite Q7.
    split_all; try reflexivity.
    left. split; [exact Hgate|]. exists err.
    split_all; first [exact Eerr | reflexivity].
  - cbn [bind]. destruct flush as [[]| |]; cbn [bind]; try discriminate.
    intros H. injection H as <-. cbn. exists s1. rewrite Q7.
    split_all; try reflexivity.
    right. split_all; [exact Hgate|reflexivity|reflexivity].
Qed.

(** X12: the loop error of a completed iteration is there exactly when the
    optimization flag of every pair is [True]: this is what the comparison of
    [sum(result_entry.optimization_success)] with the number of pairs
    decides. *)
Theorem loop_error_iff_all_flags (N : Z)
    (pairs : list ((string * string) * (bool * bool)))
    (cfg : algorithm_config) (ws : Z -> pair_world3) (flush : outcome unit)
    (s s' : state3) :
  run_iteration N (len pairs) pairs cfg ws flush s = Ok s' ->
  (is_Some (loop_error_position (result_entry s')) <->
   Forall (eq true) (optimization_success (result_entry s'))) /\
  (is_Some (loop_error_orientation (result_entry s')) <->
   Forall (eq true) (optimization_success (result_entry s'))).
Proof.
  intros H.
  destruct (run_iteration_effect _ _ _ _ _ _ _ H)
    as (s1 & E1 & _ & _ & _ & _ & Hcase).
  destruct (pair_loop_effect _ _ _ _ _ 0 E1 new_result_entry_complete)
    as (dqs & oks & _ & L2 & _ & _ & _ & Q4 & _).
  destruct (pair_loop_flags _ _ _ _ _ E1) as (F1 & F2 & _).
  cbn in Q4, F1, F2.
  assert (Hall : sum_bools (optimization_success (result_entry s1)) = len pairs
                 <-> Forall (eq true) (optimization_success (result_entry s1))).
  { rewrite <- sum_bools_all, Q4. unfold len. rewrite L2. reflexivity. }
  destruct Hcase as [(Hgate & err & _ & -> & _)|(Hgate & -> & _)].
  - cbn. split; (split; [intros _; apply Hall, Hgate|intros _; eexists; reflexivity]).
  - rewrite F1, F2. split; (split; [intros [x Hx]; discriminate Hx|]);
      intros Hf; apply Hall in Hf; contradiction.
Qed.

(** X13: with optimization enabled the loop error cannot fail: when all flags
    are [True] every estimate of the iteration is a dual quaternion, so for
    C(N,2) pairs a completed pair loop is followed by a completed iteration,
    provided that writing the results completes. *)
Theorem optimized_iteration_completes (N : Z)
    (pairs : list ((string * string) * (bool * bool)))
    (cfg : algorithm_config) (ws : Z -> pair_world3) (s s1 : state3) :
  enable_optimization (optimization_config cfg) = true ->
  2 <= N ->
  length pairs = choose (Z.to_nat N) 2 ->
  pair_loop cfg ws pairs (begin_iteration s) = Ok s1 ->
  exists s', run_iteration N (len pairs) pairs cfg ws (Ok tt) s = Ok s'.
Proof.
  intros Hopt HN Hlen E1.
  unfold run_iteration. fold (begin_iteration s). rewrite E1. cbn [bind].
  destruct (pair_loop_effect _ _ _ _ _ 0 E1 new_result_entry_complete)
    as (dqs & oks & L1 & L2 & Q1 & Q2 & _ & Q4 & _).
  destruct (pair_loop_flags _ _ _ _ _ E1) as (_ & _ & F3).
  specialize (F3 Hopt eq_refl). cbn in Q1, Q2, Q4.
  replace (len (results_dq_H_E s1) =? len pairs) with true
    by (symmetry; apply Z.eqb_eq; rewrite Q1; unfold len; lia).
  replace (len (results_poses_H_E s1) =? len pairs) with true
    by (symmetry; apply Z.eqb_eq; rewrite Q2; unfold len, poses_of;
        rewrite length_fmap; lia).
  destruct (Z.eqb_spec (sum_bools (optimization_success (result_entry s1))) (len pairs))
    as [Hgate|Hgate]; [|eexists; reflexivity].
  assert (Hall : Forall (eq true) (optimization_success (result_entry s1))).
  { apply sum_bools_all. rewrite Hgate, Q4. unfold len. lia. }
  rewrite F3 in Hall. apply all_present in Hall as [ds Hds].
  destruct (build_chain_full (Z.to_nat N) ds) as (cs & Hcs & Hlencs);
    [lia|rewrite <- Hlen, <- L1, <- Q1, Hds, length_fmap; reflexivity|].
  rewrite Z2Nat.id in Hcs by lia.
  rewrite Hds, (compute_loop_error_of_chain N _ true dq_identity cs Hcs)
    by (unfold len; simpl length; lia).
  eexists. reflexivity.
Qed.

(** X14: without optimization the flag of every pair is [True], so every
    iteration calls [compute_loop_error]: an iteration that completes has
    computed the loop error, also when the solver failed for some pair. *)
Theorem unoptimized_iteration_has_loop_error (N : Z)
    (pairs : list ((string * string) * (bool * bool)))
    (cfg : algorithm_config) (ws : Z -> pair_world3) (flush : outcome unit)
    (s s' : state3) :
  enable_optimization (optimization_config cfg) = false ->
  run_iteration N (len pairs) pairs cfg ws flush s = Ok s' ->
  exists err,
    compute_loop_error N (results_dq_H_E s') true = Ok err /\
    loop_error_position (result_entry s') = Some err.1 /\
    loop_error_orientation (result_entry s') = Some err.2.
Proof.
  intros Hopt H.
  destruct (run_iteration_effect _ _ _ _ _ _ _ H)
    as (s1 & E1 & _ & -> & _ & _ & Hcase).
  destruct (pair_loop_effect _ _ _ _ _ 0 E1 new_result_entry_complete)
    as (dqs & oks & _ & L2 & _ & _ & _ & Q4 & _ & _ & _ & _ & Q9).
  cbn in Q4. specialize (Q9 Hopt).
  destruct Hcase as [(_ & err & Herr & -> & _)|(Hgate & _)].
  - exists err. split_all; [exact Herr|reflexivity|reflexivity].
  - exfalso. apply Hgate. rewrite Q4, Q9.
    replace (len pairs) with (len (replicate (length pairs) true))
      by (unfold len; rewrite length_replicate; reflexivity).
    apply sum_bools_all. apply Forall_replicate. reflexivity.
Qed.

End Iterations.

(** ** The whole run: pairs, flags and written entries *)

Lemma zip_with_pairs {A B C : Type} (g : A * B -> C) (l1 : list A) (l2 : list B) :
  zip_with (fun a b => g (a, b)) l1 l2 = g <$> zip l1 l2.
Proof.
  revert l2. induction l1 as [|a l1 IH]; intros [|b l2]; try reflexivity.
  cbn. rewrite IH. reflexivity.
Qed.

(** X15: the pairs of flags go with the pairs of files. For as many flags as
    files, zipping the pairs of files with the pairs of flags gives, for
    each pair of files, the flags of these two files: the pairs of the list
    of (file, flag), rearranged. *)
Theorem zip_combinations2 {A B : Type} (l1 : list A) (l2 : list B) :
  length l1 = length l2 ->
  zip (combinations2 l1) (combinations2 l2) =
    (fun p : (A * B) * (A * B) => ((p.1.1, p.2.1), (p.1.2, p.2.2)))
      <$> combinations2 (zip l1 l2).
Proof.
  revert l2. induction l1 as [|x l1 IH]; intros [|y l2] Hlen;
    try reflexivity; try discriminate.
  injection Hlen as Hlen.
  change (combinations2 (x :: l1)) with ((pair x <$> l1) ++ combinations2 l1).
  change (combinations2 (y :: l2)) with ((pair y <$> l2) ++ combinations2 l2).
  change (combinations2 (zip (x :: l1) (y :: l2)))
    with ((pair (x, y) <$> zip l1 l2) ++ combinations2 (zip l1 l2)).
  rewrite zip_with_app by (rewrite !length_fmap; exact Hlen).
  rewrite fmap_app, <- list_fmap_compose, (IH l2 Hlen).
  f_equal.
  rewrite zip_with_fmap_l, zip_with_fmap_r.
  apply (zip_with_pairs (fun q : A * B => ((x, q.1), (y, q.2)))).
Qed.

Section WholeRun.

Context {DQ Pose Err O : Type} `{Ops : DualQuaternionOps DQ Pose Err}.

#[local] Abbreviation state4 := (state (DQ := DQ) (Pose := Pose) (Err := Err) (O := O)).
#[local] Abbreviation pair_world4 := (pair_world (DQ := DQ) (O := O)).
#[local] Abbreviation world4 := (world (DQ := DQ) (O := O)).

Lemma set_loop_error_complete (k : nat) (err : Err * Err)
    (e : ResultEntry (Err := Err) (O := O)) :
  entry_complete k e -> entry_complete k (set_loop_error err e).
Proof. intros H. exact H. Qed.

(** An iteration that completes writes one entry, with one element per pair
    in each list. *)
Lemma run_iteration_entry (N P : Z)
    (pairs : list ((string * string) * (bool * bool)))
    (cfg : algorithm_config) (ws : Z -> pair_world4) (flush : outcome unit)
    (s s' : state4) :
  run_iteration N P pairs cfg ws flush s = Ok s' ->
  exists e, results_file s' = results_file s ++ [e] /\
            entry_complete (length pairs) e.
Proof.
  unfold run_iteration. fold (begin_iteration s).
  destruct (pair_loop cfg ws pairs (begin_iteration s)) as [s1| |] eqn:E1;
    cbn [bind]; try discriminate.
  destruct (pair_loop_effect _ _ _ _ _ 0 E1 new_result_entry_complete)
    as (dqs & oks & _ & _ & _ & _ & _ & _ & Q5 & _ & Q7 & _).
  cbn in Q5, Q7.
  destruct (len (results_dq_H_E s1) =? P); [|discriminate].
  destruct (len (results_poses_H_E s1) =? P); [|discriminate].
  destruct (sum_bools (optimization_success (result_entry s1)) =? P).
  - destruct (compute_loop_error N (results_dq_H_E s1) true) as [err| |];
      cbn [bind]; try discriminate.
    destruct flush as [[]| |]; cbn [bind]; try discriminate.
    intros H. injection H as <-. cbn. rewrite Q7.
    eexists. split; [reflexivity|]. apply set_loop_error_complete, Q5.
  - cbn [bind]. destruct flush as [[]| |]; cbn [bind]; try discriminate.
    intros H. injection H as <-. cbn. rewrite Q7.
    eexists. split; [reflexivity|]. exact Q5.
Qed.

Lemma iteration_loop_entries (N P : Z)
    (pairs : list ((string * string) * (bool * bool)))
    (cfg : algorithm_config) (ws : Z -> Z -> pair_world4)
    (flush : Z -> outcome unit) (iterations : list Z) (s s' : state4) :
  iteration_loop N P pairs cfg ws flush iterations s = Ok s' ->
  exists es, results_file s' = results_file s ++ es /\
             length es = length iterations /\
             Forall (entry_complete (length pairs)) es.
Proof.
  revert s. induction iterations as [|it its IH]; intros s H.
  - injection H as <-. exists []. rewrite app_nil_r. split_all; [reflexivity..|constructor].
  - cbn [iteration_loop] in H.
    destruct (run_iteration N P pairs cfg (ws it) (flush it) s) as [s1| |] eqn:E;
      try discriminate.
    cbn [bind] in H.
    apply run_iteration_entry in E as (e & E1 & E2).
    apply IH in H as (es & H1 & H2 & H3).
    exists (e :: es). rewrite H1, E1, <- app_assoc. cbn.
    split_all; [reflexivity|lia|constructor; assumption].
Qed.

Lemma config_loop_entries (N P : Z)
    (pairs : list ((string * string) * (bool * bool))) (a : arguments)
    (w : world4) (c : nat) (cfgs : list algorithm_config) (s s' : state4) :
  config_loop N P pairs a w c cfgs s = Ok s' ->
  exists es, results_file s' = results_file s ++ es /\
             length es = total_iterations a cfgs /\
             Forall (entry_complete (length pairs)) es.
Proof.
  revert c s. induction cfgs as [|cfg cfgs IH]; intros c s H.
  - injection H as <-. exists []. rewrite app_nil_r. split_all; [reflexivity..|constructor].
  - cbn [config_loop] in H.
    destruct (run_config N P pairs a cfg (pair_at w c) (flush_at w c) s)
      as [s1| |] eqn:E; try discriminate.
    cbn [bind] in H. unfold run_config in E.
    apply iteration_loop_entries in E as (es1 & E1 & E2 & E3). cbn in E1.
    apply IH in H as (es2 & H1 & H2 & H3).
    exists (es1 ++ es2). rewrite H1, E1, <- app_assoc.
    split_all; [reflexivity| |apply Forall_app; split; assumption].
    rewrite length_app, E2, H2, length_py_range, Z.sub_0_r. reflexivity.
Qed.

(** What the assertions of the script give, when it gets to the loops. *)
Lemma main_unfold (a : arguments) (w : world4) (s : state4) :
  main a w = Ok s ->
  exists flags : list bool,
    length flags = length (aligned_poses_B_H_csv_files a) /\
    config_loop (len (aligned_poses_B_H_csv_files a))
      (len (combinations2 (aligned_poses_B_H_csv_files a)))
      (zip (combinations2 (aligned_poses_B_H_csv_files a)) (combinations2 flags))
      a w 0%nat (all_algorithm_configurations w) initial_state = Ok s.
Proof.
  unfold main. intros H.
  destruct (2 <=? len (aligned_poses_B_H_csv_files a)); [|discriminate].
  set (flags := match is_absolute_pose_sensor a with
                | Some flags => _
                | None => _
                end) in H.
  destruct (Z.eqb_spec (len flags) (len (aligned_poses_B_H_csv_files a)))
    as [Hflags|]; [|discriminate].
  destruct (len (combinations2 (aligned_poses_B_H_csv_files a)) =? len flags);
    [|discriminate].
  exists flags. split; [unfold len in Hflags; lia|exact H].
Qed.

(** X16: a run that completes has written one entry to the results file for
    each iteration of each configuration: [num_iterations] of them per
    configuration, none for a negative number. *)
Theorem main_writes_one_entry_per_iteration (a : arguments) (w : world4)
    (s : state4) :
  main a w = Ok s ->
  length (results_file s) = total_iterations a (all_algorithm_configurations w).
Proof.
  intros H. apply main_unfold in H as (flags & _ & H).
  apply config_loop_entries in H as (es & H1 & H2 & _).
  rewrite H1. cbn. exact H2.
Qed.

(** X17: every entry written by a run that completes is complete: each of
    its ten per-pair lists has one element for each of the [num_pose_pairs]
    pairs of files, so that the row of every pair can be written. *)
Theorem main_writes_complete_entries (a : arguments) (w : world4) (s : state4) :
  main a w = Ok s ->
  Forall (entry_complete (length (combinations2 (aligned_poses_B_H_csv_files a))))
    (results_file s).
Proof.
  intros H. apply main_unfold in H as (flags & Hflags & H).
  apply config_loop_entries in H as (es & H1 & _ & H3).
  rewrite H1. cbn.
  rewrite length_zip_with, !length_combinations2, Hflags, Nat.min_id in H3.
  rewrite length_combinations2. exact H3.
Qed.

End WholeRun.

(** ** [create_path]: properties *)

Section CreatePathFacts.

Context {D : Type} `{Dirs : DirectoryOps D}.

(** X19: [create_path] raises exactly when the directory of the path does not
    exist and [os.makedirs] fails with something other than [OSError]
    [EEXIST]. When the directory exists, [create_path] returns without
    calling [os.makedirs], and the tree is as before. *)
Theorem create_path_raises_iff (path : string) (d : D) :
  ((create_path path d).2 = Raise LibraryError <->
   os_path_exists d (os_path_dirname path) = false /\
   (os_makedirs d (os_path_dirname path)).2 <> MakedirsReturns /\
   (os_makedirs d (os_path_dirname path)).2 <> MakedirsOSError errno_EEXIST) /\
  ((create_path path d).2 = Ok tt \/ (create_path path d).2 = Raise LibraryError) /\
  (os_path_exists d (os_path_dirname path) = true ->
   create_path path d = (d, Ok tt)).
Proof.
  unfold create_path.
  destruct (os_path_exists d (os_path_dirname path)); cbn [negb].
  - split_all; [split; [discriminate|intros [H _]; discriminate H]
               |left; reflexivity|reflexivity].
  - destruct (os_makedirs d (os_path_dirname path)) as [d' [|errno|]]; cbn.
    + split_all; [split; [discriminate|intros (_ & H & _); congruence]
                 |left; reflexivity|discriminate].
    + destruct (Z.eqb_spec errno errno_EEXIST) as [->|Hne]; cbn.
      * split_all; [split; [discriminate|intros (_ & _ & H); congruence]
                   |left; reflexivity|discriminate].
      * split_all; [split; [intros _; split_all; congruence|reflexivity]
                   |right; reflexivity|discriminate].
    + split_all; [split; [intros _; split_all; congruence|reflexivity]
                 |right; reflexivity|discriminate].
Qed.

(** X20: in a tree where a directory exists once [os.makedirs] has returned
    for it or has found it ([EEXIST]), the directory of the path exists after
    [create_path] has returned, and a second call returns at once and leaves
    the tree as it is. *)
Theorem create_path_ensures_directory (path : string) (d d' : D) :
  (forall d0 p d1, os_makedirs d0 p = (d1, MakedirsReturns) ->
                   os_path_exists d1 p = true) ->
  (forall d0 p d1, os_makedirs d0 p = (d1, MakedirsOSError errno_EEXIST) ->
                   os_path_exists d1 p = true) ->
  create_path path d = (d', Ok tt) ->
  os_path_exists d' (os_path_dirname path) = true /\
  create_path path d' = (d', Ok tt).
Proof.
  intros Hret Hfound H.
  assert (Hex : os_path_exists d' (os_path_dirname path) = true).
  { unfold create_path in H.
    destruct (os_path_exists d (os_path_dirname path)) eqn:E; cbn [negb] in H.
    - injection H as <-. exact E.
    - destruct (os_makedirs d (os_path_dirname path)) as [d1 [|errno|]] eqn:Em.
      + injection H as <-. eapply Hret, Em.
      + destruct (Z.eqb_spec errno errno_EEXIST) as [->|Hne]; cbn [negb] in H;
          [|discriminate].
        injection H as <-. eapply Hfound, Em.
      + discriminate. }
  split; [exact Hex|]. unfold create_path. rewrite Hex. reflexivity.
Qed.

End CreatePathFacts.

(** ** Result files: names *)

Lemma string_app_assoc (s1 s2 s3 : string) :
  (s1 +:+ s2) +:+ s3 = s1 +:+ (s2 +:+ s3).
Proof.
  induction s1 as [|c s1 IH]; [reflexivity|].
  change (String c ((s1 +:+ s2) +:+ s3) = String c (s1 +:+ (s2 +:+ s3))).
  f_equal. exact IH.
Qed.

Lemma list_ascii_app (s1 s2 : string) :
  String.list_ascii_of_string (s1 +:+ s2)
  = String.list_ascii_of_string s1 ++ String.list_ascii_of_string s2.
Proof.
  induction s1 as [|c s1 IH]; [reflexivity|].
  change (c :: String.list_ascii_of_string (s1 +:+ s2)
          = c :: (String.list_ascii_of_string s1 ++ String.list_ascii_of_string s2)).
  f_equal. exact IH.
Qed.

Lemma length_list_ascii (s : string) :
  length (String.list_ascii_of_string s) = String.length s.
Proof.
  induction s as [|c s IH]; [reflexivity|].
  change (S (length (String.list_ascii_of_string s)) = S (String.length s)).
  f_equal. exact IH.
Qed.

Lemma list_ascii_inj (s1 s2 : string) :
  String.list_ascii_of_string s1 = String.list_ascii_of_string s2 -> s1 = s2.
Proof.
  intros H. rewrite <- (String.string_of_list_ascii_of_string s1), H.
  apply String.string_of_list_ascii_of_string.
Qed.

(** Two texts that end in parts of the same length agree part by part. *)
Lemma string_app_inj_suffix (s1 s2 t1 t2 : string) :
  String.length t1 = String.length t2 ->
  s1 +:+ t1 = s2 +:+ t2 -> s1 = s2 /\ t1 = t2.
Proof.
  intros Hlen H. apply (f_equal String.list_ascii_of_string) in H.
  rewrite !list_ascii_app in H.
  apply app_inj_2 in H as [H1 H2]; [|rewrite !length_list_ascii; exact Hlen].
  split; apply list_ascii_inj; assumption.
Qed.

(** The two files of a pair are named after the same algorithm and index. *)
Lemma dq_H_E_file_split (dir alg : string) (i : Z) :
  dq_H_E_file dir alg i
  = (dir +:+ "/dq_H_E/") +:+ (((alg +:+ "_pose_pair_") +:+ pretty i) +:+ "_dq_H_E.txt").
Proof. unfold dq_H_E_file. rewrite !string_app_assoc. reflexivity. Qed.

Lemma poses_H_E_file_split (dir alg : string) (i : Z) :
  poses_H_E_file dir alg i
  = (dir +:+ "/poses_H_E/") +:+ (((alg +:+ "_pose_pair_") +:+ pretty i) +:+ "_pose_H_E.txt").
Proof. unfold poses_H_E_file. rewrite !string_app_assoc. reflexivity. Qed.

Lemma dq_H_E_file_eq (dir alg alg' : string) (i j : Z) :
  dq_H_E_file dir alg i = dq_H_E_file dir alg' j <->
  (alg +:+ "_pose_pair_") +:+ pretty i = (alg' +:+ "_pose_pair_") +:+ pretty j.
Proof.
  rewrite !dq_H_E_file_split. split.
  - intros H. apply String.app_inj in H.
    apply string_app_inj_suffix in H as [H _]; [exact H|reflexivity].
  - intros ->. reflexivity.
Qed.

Lemma poses_H_E_file_eq (dir alg alg' : string) (i j : Z) :
  poses_H_E_file dir alg i = poses_H_E_file dir alg' j <->
  (alg +:+ "_pose_pair_") +:+ pretty i = (alg' +:+ "_pose_pair_") +:+ pretty j.
Proof.
  rewrite !poses_H_E_file_split. split.
  - intros H. apply String.app_inj in H.
    apply string_app_inj_suffix in H as [H _]; [exact H|reflexivity].
  - intros ->. reflexivity.
Qed.

Lemma same_pair_files (dir alg alg' : string) (i j : Z) :
  dq_H_E_file dir alg i = dq_H_E_file dir alg' j <->
  poses_H_E_file dir alg i = poses_H_E_file dir alg' j.
Proof. rewrite dq_H_E_file_eq, poses_H_E_file_eq. reflexivity. Qed.

Lemma dq_H_E_file_inj (dir alg : string) (i j : Z) :
  dq_H_E_file dir alg i = dq_H_E_file dir alg j -> i = j.
Proof.
  intros H. apply dq_H_E_file_eq in H. apply String.app_inj in H.
  apply (inj pretty) in H. exact H.
Qed.

Lemma dq_H_E_file_ne_poses (dir alg alg' : string) (i j : Z) :
  dq_H_E_file dir alg i <> poses_H_E_file dir alg' j.
Proof.
  unfold dq_H_E_file, poses_H_E_file. intros H.
  change "_dq_H_E.txt" with ("_" +:+ "dq_H_E.txt") in H.
  change "_pose_H_E.txt" with ("_po" +:+ "se_H_E.txt") in H.
  rewrite <- !string_app_assoc in H.
  apply string_app_inj_suffix in H as [_ H]; [discriminate H|reflexivity].
Qed.

Lemma result_file_path_ne_dq (dir alg : string) (i : Z) :
  result_file_path dir <> dq_H_E_file dir alg i.
Proof.
  unfold dq_H_E_file, result_file_path. intros H.
  change "/results.csv" with ("/result" +:+ "s.csv") in H.
  change "_dq_H_E.txt" with ("_dq_H_" +:+ "E.txt") in H.
  rewrite <- !string_app_assoc in H.
  apply string_app_inj_suffix in H as [_ H]; [discriminate H|reflexivity].
Qed.

Lemma result_file_path_ne_poses (dir alg : string) (i : Z) :
  result_file_path dir <> poses_H_E_file dir alg i.
Proof.
  unfold poses_H_E_file, result_file_path. intros H.
  change "/results.csv" with ("/result" +:+ "s.csv") in H.
  change "_pose_H_E.txt" with ("_pose_H_" +:+ "E.txt") in H.
  rewrite <- !string_app_assoc in H.
  apply string_app_inj_suffix in H as [_ H]; [discriminate H|reflexivity].
Qed.

(** ** Result files: opening and writing *)

Lemma file_exists_true (fs : file_store) (p : string) :
  file_exists fs p = true <-> is_Some (fs !! p).
Proof. unfold file_exists. apply bool_decide_eq_true. Qed.

Lemma file_exists_false (fs : file_store) (p : string) :
  file_exists fs p = false <-> fs !! p = None.
Proof.
  unfold file_exists. rewrite bool_decide_eq_false, <- eq_None_not_Some. reflexivity.
Qed.

Lemma file_exists_ext (fs fs' : file_store) (p : string) :
  fs' !! p = fs !! p -> file_exists fs' p = file_exists fs p.
Proof. unfold file_exists. intros ->. reflexivity. Qed.

(** Opening in the mode that the test for existence selects keeps the text
    of a file that is there. *)
Lemma lookup_open_file_eq (fs : file_store) (p : string) (b : bool) :
  file_exists fs p = b ->
  open_file p (if b then ModeAppend else ModeWrite) fs !! p = Some (content fs p).
Proof.
  intros H. unfold open_file, content. destruct b.
  - apply file_exists_true in H as [c Hc]. rewrite Hc. exact Hc.
  - apply file_exists_false in H. rewrite H. apply lookup_insert_eq.
Qed.

Lemma lookup_open_file_ne (fs : file_store) (p q : string) (m : open_mode) :
  p <> q -> open_file p m fs !! q = fs !! q.
Proof.
  intros H. unfold open_file.
  destruct m, (fs !! p); try reflexivity; apply lookup_insert_ne, H.
Qed.

Lemma lookup_write_file_eq (fs : file_store) (p text : string) :
  write_file p text fs !! p = (fun c => c ++ [text]) <$> fs !! p.
Proof.
  unfold write_file. destruct (fs !! p) as [c|] eqn:E.
  - rewrite lookup_insert_eq. reflexivity.
  - rewrite E. reflexivity.
Qed.

Lemma lookup_write_file_ne (fs : file_store) (p q text : string) :
  p <> q -> write_file p text fs !! q = fs !! q.
Proof.
  intros H. unfold write_file.
  destruct (fs !! p); [apply lookup_insert_ne, H|reflexivity].
Qed.

(** ** Result files: what an iteration writes *)

Section ResultFilesFacts.

Context {DQ Pose Err O : Type}.
Variable format_dq : DQ -> string.
Variable format_pose : option Pose -> string.
Variable csv_line : ResultEntry (Err := Err) (O := O) -> Z -> string.

#[local] Abbreviation loop := (write_pair_files format_dq format_pose csv_line).

(** One round of the loop over the pairs: the two files of the pair get the
    line of the pair, if it has an estimate, after what they held; the
    results file gets the row of the pair; no other file changes. *)
Lemma write_pair_files_step (dir alg : string) (rdq : list (option DQ))
    (rposes : list (option Pose)) (entry : ResultEntry) (i : Z)
    (indices : list Z) (fs : file_store) (dq : option DQ) (pose : option Pose) :
  file_exists fs (dq_H_E_file dir alg i) = file_exists fs (poses_H_E_file dir alg i) ->
  py_index rdq i = Ok dq ->
  py_index rposes i = Ok pose ->
  exists fs1,
    loop dir alg rdq rposes entry (i :: indices) fs
      = loop dir alg rdq rposes entry indices fs1 /\
    fs1 !! dq_H_E_file dir alg i
      = Some (content fs (dq_H_E_file dir alg i) ++ estimate_lines format_dq dq) /\
    fs1 !! poses_H_E_file dir alg i
      = Some (content fs (poses_H_E_file dir alg i) ++ pose_lines format_pose dq pose) /\
    fs1 !! result_file_path dir
      = (fun c => c ++ [csv_line entry i]) <$> fs !! result_file_path dir /\
    (forall q, q <> dq_H_E_file dir alg i -> q <> poses_H_E_file dir alg i ->
               q <> result_file_path dir -> fs1 !! q = fs !! q).
Proof.
  intros Hpair Hdq Hpose.
  pose proof (dq_H_E_file_ne_poses dir alg alg i i) as Hne.
  pose proof (result_file_path_ne_dq dir alg i) as Hcd.
  pose proof (result_file_path_ne_poses dir alg i) as Hcp.
  cbn [write_pair_files]. cbv zeta. rewrite <- Hpair, Hdq.
  set (b := file_exists fs (dq_H_E_file dir alg i)) in *.
  assert (Hmode : (if b then assert b;; Ok ModeAppend
                   else assert negb b;; Ok ModeWrite)
                  = Ok (if b then ModeAppend else ModeWrite))
    by (destruct b; reflexivity).
  rewrite Hmode. cbn [bind].
  set (m := if b then ModeAppend else ModeWrite).
  set (fs0 := open_file (poses_H_E_file dir alg i) m
                (open_file (dq_H_E_file dir alg i) m fs)).
  assert (H0d : fs0 !! dq_H_E_file dir alg i = Some (content fs (dq_H_E_file dir alg i))).
  { unfold fs0. rewrite lookup_open_file_ne by congruence.
    apply lookup_open_file_eq. reflexivity. }
  assert (H0p : fs0 !! poses_H_E_file dir alg i
                = Some (content fs (poses_H_E_file dir alg i))).
  { unfold fs0, m.
    rewrite (lookup_open_file_eq _ _ b)
      by (etransitivity;
          [apply file_exists_ext, lookup_open_file_ne; congruence
          |symmetry; exact Hpair]).
    unfold content. rewrite lookup_open_file_ne by congruence. reflexivity. }
  assert (H0q : forall q, q <> dq_H_E_file dir alg i -> q <> poses_H_E_file dir alg i ->
                          fs0 !! q = fs !! q).
  { intros q Hq1 Hq2. unfold fs0. rewrite !lookup_open_file_ne by congruence.
    reflexivity. }
  destruct dq as [d|]; cbn [bind].
  - rewrite Hpose. cbn [bind]. eexists. split; [reflexivity|]. split_all.
    + rewrite !lookup_write_file_ne by congruence.
      rewrite lookup_write_file_eq, H0d. reflexivity.
    + rewrite lookup_write_file_ne by congruence.
      rewrite lookup_write_file_eq, lookup_write_file_ne, H0p by congruence.
      reflexivity.
    + rewrite lookup_write_file_eq, !lookup_write_file_ne, H0q by congruence.
      reflexivity.
    + intros q Hq1 Hq2 Hq3. rewrite !lookup_write_file_ne by congruence.
      apply H0q; assumption.
  - eexists. split; [reflexivity|]. split_all.
    + rewrite lookup_write_file_ne, H0d, app_nil_r by congruence. reflexivity.
    + rewrite lookup_write_file_ne, H0p, app_nil_r by congruence. reflexivity.
    + rewrite lookup_write_file_eq, H0q by congruence. reflexivity.
    + intros q Hq1 Hq2 Hq3. rewrite lookup_write_file_ne by congruence.
      apply H0q; assumption.
Qed.

(** A round keeps the files paired. *)
Lemma step_keeps_files_paired (dir alg : string) (i : Z) (fs fs1 : file_store) :
  files_paired dir fs ->
  is_Some (fs1 !! dq_H_E_file dir alg i) ->
  is_Some (fs1 !! poses_H_E_file dir alg i) ->
  (forall q, q <> dq_H_E_file dir alg i -> q <> poses_H_E_file dir alg i ->
             q <> result_file_path dir -> fs1 !! q = fs !! q) ->
  files_paired dir fs1.
Proof.
  intros Hp Hd Hq Hframe alg' j.
  destruct (decide (dq_H_E_file dir alg' j = dq_H_E_file dir alg i)) as [E|E].
  - assert (E' : poses_H_E_file dir alg' j = poses_H_E_file dir alg i)
      by (apply same_pair_files, E).
    rewrite E, E'.
    apply file_exists_true in Hd, Hq. rewrite Hd, Hq. reflexivity.
  - assert (E' : poses_H_E_file dir alg' j <> poses_H_E_file dir alg i)
      by (intros H; apply E, same_pair_files, H).
    rewrite (file_exists_ext fs fs1 (dq_H_E_file dir alg' j)),
            (file_exists_ext fs fs1 (poses_H_E_file dir alg' j)); [apply Hp| |].
    + apply Hframe; [|exact E'|].
      * intros H. symmetry in H. eapply dq_H_E_file_ne_poses, H.
      * intros H. symmetry in H. eapply result_file_path_ne_poses, H.
    + apply Hframe; [exact E| |].
      * apply dq_H_E_file_ne_poses.
      * intros H. symmetry in H. eapply result_file_path_ne_dq, H.
Qed.

(** A round does not change whether the files of another pair exist. *)
Lemma step_keeps_other_pairs (dir alg : string) (i j : Z) (fs fs1 : file_store) :
  i <> j ->
  (forall q, q <> dq_H_E_file dir alg i -> q <> poses_H_E_file dir alg i ->
             q <> result_file_path dir -> fs1 !! q = fs !! q) ->
  fs1 !! dq_H_E_file dir alg j = fs !! dq_H_E_file dir alg j /\
  fs1 !! poses_H_E_file dir alg j = fs !! poses_H_E_file dir alg j.
Proof.
  intros Hij Hframe.
  assert (H1 : dq_H_E_file dir alg j <> dq_H_E_file dir alg i)
    by (intros H; apply dq_H_E_file_inj in H; congruence).
  assert (H2 : poses_H_E_file dir alg j <> poses_H_E_file dir alg i)
    by (intros H; apply same_pair_files, dq_H_E_file_inj in H; congruence).
  split; apply Hframe; try assumption.
  - apply dq_H_E_file_ne_poses.
  - intros H. symmetry in H. eapply result_file_path_ne_dq, H.
  - intros H. symmetry in H. eapply dq_H_E_file_ne_poses, H.
  - intros H. symmetry in H. eapply result_file_path_ne_poses, H.
Qed.

(** The whole loop, over indices that are in range and all different, when
    the two files of each of these pairs both exist or both do not. *)
Lemma write_pair_files_effect (dir alg : string) (rdq : list (option DQ))
    (rposes : list (option Pose)) (entry : ResultEntry)
    (indices : list Z) (fs : file_store) :
  (forall i, i ∈ indices ->
     file_exists fs (dq_H_E_file dir alg i) = file_exists fs (poses_H_E_file dir alg i)) ->
  NoDup indices ->
  (forall i, i ∈ indices -> 0 <= i < len rdq /\ i < len rposes) ->
  exists fs',
    loop dir alg rdq rposes entry indices fs = Ok fs' /\
    (files_paired dir fs -> files_paired dir fs') /\
    fs' !! result_file_path dir
      = (fun c => c ++ (csv_line entry <$> indices)) <$> fs !! result_file_path dir /\
    (forall i dq pose, i ∈ indices ->
       rdq !! Z.to_nat i = Some dq -> rposes !! Z.to_nat i = Some pose ->
       fs' !! dq_H_E_file dir alg i
         = Some (content fs (dq_H_E_file dir alg i) ++ estimate_lines format_dq dq) /\
       fs' !! poses_H_E_file dir alg i
         = Some (content fs (poses_H_E_file dir alg i)
                 ++ pose_lines format_pose dq pose)) /\
    (forall q, q <> result_file_path dir ->
       (forall i, i ∈ indices -> q <> dq_H_E_file dir alg i /\
                                 q <> poses_H_E_file dir alg i) ->
       fs' !! q = fs !! q).
Proof.
  revert fs. induction indices as [|i indices IH]; intros fs Hp Hnd Hrange.
  - exists fs. split; [reflexivity|]. split; [tauto|]. split_all.
    + destruct (fs !! result_file_path dir); cbn; [rewrite app_nil_r|]; reflexivity.
    + intros i dq pose Hi. apply elem_of_nil in Hi. destruct Hi.
    + reflexivity.
  - apply NoDup_cons in Hnd as [Hni Hnd].
    destruct (Hrange i (list_elem_of_here _ _)) as [Hi1 Hi2].
    destruct (py_index_in_range rdq i Hi1) as (dq & Hdq & Edq).
    destruct (py_index_in_range rposes i ltac:(lia)) as (pose & Hpose & Epose).
    destruct (write_pair_files_step dir alg rdq rposes entry i indices fs dq pose
                (Hp i (list_elem_of_here _ _)) Edq Epose)
      as (fs1 & -> & S1 & S2 & S3 & S4).
    assert (Hne : forall j, j ∈ indices -> i <> j) by (intros j Hj ->; contradiction).
    destruct (IH fs1) as (fs' & -> & Hp' & R1 & R2 & R3); [|exact Hnd| |].
    { intros j Hj.
      destruct (step_keeps_other_pairs dir alg i j fs fs1 (Hne j Hj) S4) as [E1 E2].
      rewrite (file_exists_ext _ _ _ E1), (file_exists_ext _ _ _ E2).
      apply Hp, list_elem_of_further, Hj. }
    { intros j Hj. apply Hrange, list_elem_of_further, Hj. }
    exists fs'. split; [reflexivity|]. split_all.
    + intros Hg. apply Hp'.
      eapply (step_keeps_files_paired dir alg i fs fs1 Hg); [| |exact S4].
      * rewrite S1. eexists. reflexivity.
      * rewrite S2. eexists. reflexivity.
    + rewrite R1, S3. destruct (fs !! result_file_path dir); cbn; [|reflexivity].
      rewrite <- app_assoc. reflexivity.
    + intros j dq' pose' Hj Hdq' Hpose'. apply elem_of_cons in Hj as [->|Hj].
      * rewrite Hdq in Hdq'. rewrite Hpose in Hpose'.
        injection Hdq' as <-. injection Hpose' as <-.
        assert (Hfar : forall k, k ∈ indices ->
                  dq_H_E_file dir alg i <> dq_H_E_file dir alg k /\
                  poses_H_E_file dir alg i <> poses_H_E_file dir alg k).
        { intros k Hk. split; intros H'; [|apply same_pair_files in H'];
            apply dq_H_E_file_inj in H'; apply (Hne k Hk), H'. }
        rewrite !R3, S1, S2; [split; reflexivity| | | |].
        -- intros H'. symmetry in H'. eapply result_file_path_ne_poses, H'.
        -- intros k Hk. destruct (Hfar k Hk) as [_ H2]. split; [|exact H2].
           intros H'. symmetry in H'. eapply dq_H_E_file_ne_poses, H'.
        -- intros H'. symmetry in H'. eapply result_file_path_ne_dq, H'.
        -- intros k Hk. destruct (Hfar k Hk) as [H1 _]. split; [exact H1|].
           apply dq_H_E_file_ne_poses.
      * destruct (R2 j dq' pose' Hj Hdq' Hpose') as [-> ->].
        destruct (step_keeps_other_pairs dir alg i j fs fs1 (Hne j Hj) S4) as [E1 E2].
        unfold content. rewrite E1, E2. split; reflexivity.
    + intros q Hq Hall. rewrite R3, S4; [reflexivity| | | | |].
      * apply (Hall i), list_elem_of_here.
      * apply (Hall i), list_elem_of_here.
      * exact Hq.
      * exact Hq.
      * intros j Hj. apply Hall, list_elem_of_further, Hj.
Qed.

(** The loop stops at the first pair of which one file exists without the
    other. *)
Lemma write_pair_files_orphan (dir alg : string) (rdq : list (option DQ))
    (rposes : list (option Pose)) (entry : ResultEntry)
    (indices : list Z) (fs : file_store) (k : Z) :
  k ∈ indices ->
  file_exists fs (dq_H_E_file dir alg k) <> file_exists fs (poses_H_E_file dir alg k) ->
  NoDup indices ->
  (forall i, i ∈ indices -> 0 <= i < len rdq /\ i < len rposes) ->
  loop dir alg rdq rposes entry indices fs = Raise AssertionError.
Proof.
  revert fs. induction indices as [|i indices IH]; intros fs Hk Horphan Hnd Hrange.
  - apply elem_of_nil in Hk. destruct Hk.
  - apply NoDup_cons in Hnd as [Hni Hnd].
    destruct (decide (file_exists fs (dq_H_E_file dir alg i)
                      = file_exists fs (poses_H_E_file dir alg i))) as [Hp|Hp].
    + apply elem_of_cons in Hk as [->|Hk]; [contradiction|].
      destruct (Hrange i (list_elem_of_here _ _)) as [Hi1 Hi2].
      destruct (py_index_in_range rdq i Hi1) as (dq & Hdq & Edq).
      destruct (py_index_in_range rposes i ltac:(lia)) as (pose & Hpose & Epose).
      destruct (write_pair_files_step dir alg rdq rposes entry i indices fs dq pose
                  Hp Edq Epose) as (fs1 & -> & _ & _ & _ & S4).
      assert (Hik : i <> k) by (intros ->; contradiction).
      destruct (step_keeps_other_pairs dir alg i k fs fs1 Hik S4) as [E1 E2].
      apply IH; [exact Hk| |exact Hnd|].
      * rewrite (file_exists_ext _ _ _ E1), (file_exists_ext _ _ _ E2). exact Horphan.
      * intros j Hj. apply Hrange, list_elem_of_further, Hj.
    + cbn [write_pair_files]. cbv zeta.
      destruct (file_exists fs (dq_H_E_file dir alg i)),
               (file_exists fs (poses_H_E_file dir alg i));
        try reflexivity; contradiction.
Qed.

Lemma NoDup_py_range (lo hi : Z) : NoDup (py_range lo hi).
Proof.
  unfold py_range. apply NoDup_fmap_2; [|apply NoDup_seq].
  intros x y H. lia.
Qed.

Lemma elem_of_py_range (lo hi i : Z) : i ∈ py_range lo hi <-> lo <= i < hi.
Proof.
  unfold py_range. rewrite list_elem_of_fmap. split.
  - intros (k & -> & Hk). apply elem_of_seq in Hk. lia.
  - intros H. exists (Z.to_nat (i - lo)). split; [lia|]. apply elem_of_seq. lia.
Qed.

(** Opening the results file changes no file of a pair. *)
Lemma open_results_file_frame (dir : string) (fs : file_store) :
  (forall alg i,
     open_file (result_file_path dir) ModeAppend fs !! dq_H_E_file dir alg i
       = fs !! dq_H_E_file dir alg i /\
     open_file (result_file_path dir) ModeAppend fs !! poses_H_E_file dir alg i
       = fs !! poses_H_E_file dir alg i) /\
  open_file (result_file_path dir) ModeAppend fs !! result_file_path dir
    = Some (content fs (result_file_path dir)).
Proof.
  split.
  - intros alg i. split; apply lookup_open_file_ne;
      [apply result_file_path_ne_dq|apply result_file_path_ne_poses].
  - unfold open_file, content. destruct (fs !! result_file_path dir) as [c|] eqn:E.
    + exact E.
    + apply lookup_insert_eq.
Qed.

(** X21: writing the result files of an iteration completes exactly when,
    for each pair, the file of estimates and the file of poses both exist or
    both do not; otherwise it stops with an [AssertionError]. Completing
    keeps the files of all algorithms and pairs paired in this way, so that
    a run which starts without any of them never fails these assertions. *)
Theorem write_result_files_completes_iff (dir alg : string) (n : Z)
    (rdq : list (option DQ)) (rposes : list (option Pose)) (entry : ResultEntry)
    (fs : file_store) :
  len rdq = n -> len rposes = n ->
  ((forall i, 0 <= i < n ->
      file_exists fs (dq_H_E_file dir alg i) = file_exists fs (poses_H_E_file dir alg i)) ->
   exists fs',
     write_result_files format_dq format_pose csv_line dir alg n rdq rposes entry fs
       = Ok fs' /\
     (files_paired dir fs -> files_paired dir fs')) /\
  (forall k, 0 <= k < n ->
     file_exists fs (dq_H_E_file dir alg k) <> file_exists fs (poses_H_E_file dir alg k) ->
     write_result_files format_dq format_pose csv_line dir alg n rdq rposes entry fs
       = Raise AssertionError).
Proof.
  intros Hdq Hposes. unfold write_result_files.
  destruct (open_results_file_frame dir fs) as [Hframe _].
  assert (Hrange : forall i, i ∈ py_range 0 n -> 0 <= i < len rdq /\ i < len rposes)
    by (intros i Hi; apply elem_of_py_range in Hi; lia).
  split.
  - intros Hp.
    destruct (write_pair_files_effect dir alg rdq rposes entry (py_range 0 n)
                (open_file (result_file_path dir) ModeAppend fs))
      as (fs' & E & G & _); [|apply NoDup_py_range|exact Hrange|].
    { intros i Hi. apply elem_of_py_range in Hi.
      destruct (Hframe alg i) as [E1 E2].
      rewrite (file_exists_ext _ _ _ E1), (file_exists_ext _ _ _ E2). apply Hp, Hi. }
    exists fs'. split; [exact E|]. intros Hg. apply G. intros alg' j.
    destruct (Hframe alg' j) as [E1 E2].
    rewrite (file_exists_ext _ _ _ E1), (file_exists_ext _ _ _ E2). apply Hg.
  - intros k Hk Horphan.
    apply (write_pair_files_orphan dir alg rdq rposes entry _ _ k);
      [apply elem_of_py_range, Hk| |apply NoDup_py_range|exact Hrange].
    destruct (Hframe alg k) as [E1 E2].
    rewrite (file_exists_ext _ _ _ E1), (file_exists_ext _ _ _ E2). exact Horphan.
Qed.

(** X22: an iteration adds to the results file one row for each pair, in the
    order of the pairs, after what the file held; the file is created when it
    is not there. *)
Theorem write_result_files_rows (dir alg : string) (n : Z)
    (rdq : list (option DQ)) (rposes : list (option Pose)) (entry : ResultEntry)
    (fs fs' : file_store) :
  len rdq = n -> len rposes = n ->
  write_result_files format_dq format_pose csv_line dir alg n rdq rposes entry fs
    = Ok fs' ->
  fs' !! result_file_path dir
    = Some (content fs (result_file_path dir) ++ (csv_line entry <$> py_range 0 n)).
Proof.
  intros Hdq Hposes H. unfold write_result_files in H.
  destruct (open_results_file_frame dir fs) as [Hframe Hcsv].
  assert (Hrange : forall i, i ∈ py_range 0 n -> 0 <= i < len rdq /\ i < len rposes)
    by (intros i Hi; apply elem_of_py_range in Hi; lia).
  destruct (decide (Forall (fun i =>
              file_exists fs (dq_H_E_file dir alg i)
              = file_exists fs (poses_H_E_file dir alg i)) (py_range 0 n))) as [Hp|Hp].
  - rewrite Forall_forall in Hp.
    destruct (write_pair_files_effect dir alg rdq rposes entry (py_range 0 n)
                (open_file (result_file_path dir) ModeAppend fs))
      as (fs'' & E & _ & R1 & _); [|apply NoDup_py_range|exact Hrange|].
    { intros i Hi. destruct (Hframe alg i) as [E1 E2].
      rewrite (file_exists_ext _ _ _ E1), (file_exists_ext _ _ _ E2). apply Hp, Hi. }
    rewrite E in H. injection H as <-. rewrite R1, Hcsv. reflexivity.
  - apply not_Forall_Exists in Hp; [|intros i; apply _].
    apply Exists_exists in Hp as (k & Hk & Horphan).
    rewrite (write_pair_files_orphan dir alg rdq rposes entry _ _ k) in H;
      [discriminate| exact Hk| |apply NoDup_py_range|exact Hrange].
    destruct (Hframe alg k) as [E1 E2].
    rewrite (file_exists_ext _ _ _ E1), (file_exists_ext _ _ _ E2). exact Horphan.
Qed.

(** X23: an iteration adds to the two files of a pair the line of the pair,
    after what the files held, and nothing when the estimate of the pair is
    [None]; a file that is there is never emptied. Files other than those of
    the pairs and the results file are left as they are. *)
Theorem write_result_files_pair_files (dir alg : string) (n : Z)
    (rdq : list (option DQ)) (rposes : list (option Pose)) (entry : ResultEntry)
    (fs fs' : file_store) :
  len rdq = n -> len rposes = n ->
  write_result_files format_dq format_pose csv_line dir alg n rdq rposes entry fs
    = Ok fs' ->
  (forall i dq pose, 0 <= i < n ->
     rdq !! Z.to_nat i = Some dq -> rposes !! Z.to_nat i = Some pose ->
     fs' !! dq_H_E_file dir alg i
       = Some (content fs (dq_H_E_file dir alg i) ++ estimate_lines format_dq dq) /\
     fs' !! poses_H_E_file dir alg i
       = Some (content fs (poses_H_E_file dir alg i) ++ pose_lines format_pose dq pose)) /\
  (forall q, q <> result_file_path dir ->
     (forall i, 0 <= i < n -> q <> dq_H_E_file dir alg i /\
                              q <> poses_H_E_file dir alg i) ->
     fs' !! q = fs !! q).
Proof.
  intros Hdq Hposes H. unfold write_result_files in H.
  destruct (open_results_file_frame dir fs) as [Hframe Hcsv].
  assert (Hrange : forall i, i ∈ py_range 0 n -> 0 <= i < len rdq /\ i < len rposes)
    by (intros i Hi; apply elem_of_py_range in Hi; lia).
  destruct (decide (Forall (fun i =>
              file_exists fs (dq_H_E_file dir alg i)
              = file_exists fs (poses_H_E_file dir alg i)) (py_range 0 n))) as [Hp|Hp].
  - rewrite Forall_forall in Hp.
    destruct (write_pair_files_effect dir alg rdq rposes entry (py_range 0 n)
                (open_file (result_file_path dir) ModeAppend fs))
      as (fs'' & E & _ & _ & R2 & R3); [|apply NoDup_py_range|exact Hrange|].
    { intros i Hi. destruct (Hframe alg i) as [E1 E2].
      rewrite (file_exists_ext _ _ _ E1), (file_exists_ext _ _ _ E2). apply Hp, Hi. }
    rewrite E in H. injection H as <-. split.
    + intros i dq pose Hi Hd Hq.
      destruct (R2 i dq pose (proj2 (elem_of_py_range 0 n i) Hi) Hd Hq) as [-> ->].
      destruct (Hframe alg i) as [E1 E2].
      unfold content. rewrite E1, E2. split; reflexivity.
    + intros q Hq Hall. rewrite R3; [apply lookup_open_file_ne; congruence|exact Hq|].
      intros i Hi. apply Hall, elem_of_py_range, Hi.
  - apply not_Forall_Exists in Hp; [|intros i; apply _].
    apply Exists_exists in Hp as (k & Hk & Horphan).
    rewrite (write_pair_files_orphan dir alg rdq rposes entry _ _ k) in H;
      [discriminate| exact Hk| |apply NoDup_py_range|exact Hrange].
    destruct (Hframe alg k) as [E1 E2].
    rewrite (file_exists_ext _ _ _ E1), (file_exists_ext _ _ _ E2). exact Horphan.
Qed.

End ResultFilesFacts.

(** ** The further properties on the sample runs *)

Lemma Sample_makedirs_returns (d0 : list string) (p : string) (d1 : list string) :
  Sample.makedirs d0 p = (d1, MakedirsReturns) -> bool_decide (p ∈ d1) = true.
Proof.
  unfold Sample.makedirs. intros Heq. apply bool_decide_eq_true.
  repeat case_bool_decide; try discriminate.
  injection Heq as <-. apply list_elem_of_here.
Qed.

Lemma Sample_makedirs_found (d0 : list string) (p : string) (d1 : list string) :
  Sample.makedirs d0 p = (d1, MakedirsOSError 17) -> bool_decide (p ∈ d1) = true.
Proof.
  unfold Sample.makedirs. intros Heq. apply bool_decide_eq_true.
  repeat case_bool_decide; try discriminate.
  injection Heq as <-. assumption.
Qed.

Lemma loop_error_assertions_hold_witness :
  AttributeError = IndexError \/ AttributeError = AttributeError
  \/ AttributeError = LibraryError.
Proof.
  apply (loop_error_assertions_hold (Ops := IntDQ.ops) 3 Sample.estimates3 true);
    [lia|vm_compute; reflexivity].
Defined.

Lemma too_few_results_raise_index_error_witness :
  compute_loop_error 3 [Some IntDQ.turn_z; Some IntDQ.turn_x] true = Raise IndexError.
Proof.
  apply (too_few_results_raise_index_error (Ops := IntDQ.ops) 3);
    [lia|vm_compute; lia].
Defined.

Lemma missing_closing_result_raises_attribute_error_witness :
  compute_loop_error 3 Sample.estimates3 true = Raise AttributeError.
Proof.
  apply (missing_closing_result_raises_attribute_error (Ops := IntDQ.ops) 3);
    [lia|reflexivity|reflexivity].
Defined.

Lemma fewer_than_two_sets_never_return_witness :
  exists e, compute_loop_error 1 Sample.estimates3 true = Raise e /\
            (e = IndexError \/ e = AttributeError \/ e = AssertionError).
Proof.
  apply (fewer_than_two_sets_never_return (Ops := IntDQ.ops) 1). lia.
Defined.

Lemma chain_element_positions_witness :
  exists chain,
    build_chain 4 (Sample.results4 IntDQ.shift IntDQ.turn_x) = Ok chain /\
    chain !! 0%nat = Some (Some IntDQ.identity) /\
    (forall i : nat, Z.of_nat i <= 4 - 2 ->
       chain !! S i = Sample.results4 IntDQ.shift IntDQ.turn_x
                        !! Z.to_nat (Z.of_nat i * (2 * 4 - 1 - Z.of_nat i) / 2)) /\
    exists d, Sample.results4 IntDQ.shift IntDQ.turn_x !! Z.to_nat (4 - 2)
                = Some (Some d) /\
              chain !! Z.to_nat 4 = Some (Some (IntDQ.inverse d)).
Proof.
  eexists. split; [vm_compute; reflexivity|].
  apply (chain_element_positions (Ops := IntDQ.ops) 4); [lia|vm_compute; reflexivity].
Defined.

Lemma consistent_results_close_the_loop_witness :
  compute_loop_error 3 (pairwise_results Sample.result_of 3) true = Ok (0, 0).
Proof.
  apply (consistent_results_close_the_loop (Ops := IntDQ.ops) Sample.result_of 3 true 0).
  - lia.
  - exact IntDQ_mul_identity_l.
  - intros k H1 H2. assert (k = 1%nat) as -> by lia. reflexivity.
  - reflexivity.
  - exact IntDQ_pose_error_refl.
Defined.

Lemma pair_loop_fills_every_list_witness :
  exists s1 : Sample.run_state,
    pair_loop Sample.ransac (pair_at (Sample.solver_failure_world []) 0%nat 0)
      Sample.pairs3 (begin_iteration Sample.start) = Ok s1 /\
    entry_complete (length Sample.pairs3) (result_entry s1) /\
    len (results_dq_H_E s1) = len Sample.pairs3 /\
    len (results_poses_H_E s1) = len Sample.pairs3 /\
    dataset_names (result_entry s1) = Sample.pairs3.*1 /\
    pose_pair_num s1 = len Sample.pairs3.
Proof.
  eexists. split; [vm_compute; reflexivity|].
  apply (pair_loop_fills_every_list (Ops := IntDQ.ops) Sample.ransac
           (pair_at (Sample.solver_failure_world []) 0%nat 0)
           Sample.pairs3 Sample.start).
  vm_compute. reflexivity.
Defined.

Lemma poses_match_estimates_witness :
  exists s1 : Sample.run_state,
    pair_loop Sample.ransac (pair_at (Sample.solver_failure_world []) 0%nat 0)
      Sample.pairs3 (begin_iteration Sample.start) = Ok s1 /\
    results_poses_H_E s1 = poses_of (results_dq_H_E s1).
Proof.
  eexists. split; [vm_compute; reflexivity|].
  apply (poses_match_estimates (Ops := IntDQ.ops) Sample.ransac
           (pair_at (Sample.solver_failure_world []) 0%nat 0)
           Sample.pairs3 Sample.start).
  vm_compute. reflexivity.
Defined.

Lemma optimized_results_in_pair_order_witness :
  exists s1 : Sample.run_state,
    pair_loop Sample.ransac_optimized
      (pair_at (Sample.optimizer_failure_world []) 0%nat 0)
      Sample.pairs3 (begin_iteration Sample.start) = Ok s1 /\
    results_dq_H_E s1
      = (fun k => optimized_estimate
                    (pair_at (Sample.optimizer_failure_world []) 0%nat 0 k))
          <$> py_range 0 (len Sample.pairs3) /\
    optimization_success (result_entry s1)
      = (fun k => optimizer_returned
                    (pair_at (Sample.optimizer_failure_world []) 0%nat 0 k))
          <$> py_range 0 (len Sample.pairs3).
Proof.
  eexists. split; [vm_compute; reflexivity|].
  apply (optimized_results_in_pair_order (Ops := IntDQ.ops) Sample.ransac_optimized
           (pair_at (Sample.optimizer_failure_world []) 0%nat 0)
           Sample.pairs3 Sample.start);
    [reflexivity|vm_compute; reflexivity].
Defined.

Lemma loop_error_iff_all_flags_witness :
  exists s' : Sample.run_state,
    run_iteration 3 (len Sample.pairs3) Sample.pairs3 Sample.ransac_optimized
      (pair_at (Sample.optimizer_failure_world []) 0%nat 0) (Ok tt) Sample.start
      = Ok s' /\
    (is_Some (loop_error_position (result_entry s')) <->
     Forall (eq true) (optimization_success (result_entry s'))) /\
    (is_Some (loop_error_orientation (result_entry s')) <->
     Forall (eq true) (optimization_success (result_entry s'))).
Proof.
  eexists. split; [vm_compute; reflexivity|].
  apply (loop_error_iff_all_flags (Ops := IntDQ.ops) 3 Sample.pairs3
           Sample.ransac_optimized
           (pair_at (Sample.optimizer_failure_world []) 0%nat 0) (Ok tt) Sample.start).
  vm_compute. reflexivity.
Defined.

Lemma optimized_iteration_completes_witness :
  exists s1 : Sample.run_state,
    pair_loop Sample.ransac_optimized
      (pair_at (Sample.solver_failure_world []) 0%nat 0)
      Sample.pairs3 (begin_iteration Sample.start) = Ok s1 /\
    exists s' : Sample.run_state,
      run_iteration 3 (len Sample.pairs3) Sample.pairs3 Sample.ransac_optimized
        (pair_at (Sample.solver_failure_world []) 0%nat 0) (Ok tt) Sample.start
      = Ok s'.
Proof.
  eexists. split; [vm_compute; reflexivity|].
  eapply (optimized_iteration_completes (Ops := IntDQ.ops) 3 Sample.pairs3
            Sample.ransac_optimized
            (pair_at (Sample.solver_failure_world []) 0%nat 0) Sample.start);
    [reflexivity|lia|reflexivity|vm_compute; reflexivity].
Defined.

Lemma unoptimized_iteration_has_loop_error_witness :
  exists s' : Sample.run_state,
    run_iteration 3 (len Sample.pairs3) Sample.pairs3 Sample.ransac
      (pair_at (Sample.consistent_world []) 0%nat 0) (Ok tt) Sample.start = Ok s' /\
    exists err,
      compute_loop_error 3 (results_dq_H_E s') true = Ok err /\
      loop_error_position (result_entry s') = Some err.1 /\
      loop_error_orientation (result_entry s') = Some err.2.
Proof.
  eexists. split; [vm_compute; reflexivity|].
  apply (unoptimized_iteration_has_loop_error (Ops := IntDQ.ops) 3 Sample.pairs3
           Sample.ransac (pair_at (Sample.consistent_world []) 0%nat 0)
           (Ok tt) Sample.start);
    [reflexivity|vm_compute; reflexivity].
Defined.

Lemma zip_combinations2_witness :
  zip (combinations2 Sample.files3) (combinations2 [false; true; true]) =
    (fun p : (string * bool) * (string * bool) => ((p.1.1, p.2.1), (p.1.2, p.2.2)))
      <$> combinations2 (zip Sample.files3 [false; true; true]).
Proof. apply (zip_combinations2 Sample.files3 [false; true; true]). reflexivity. Defined.

Lemma main_writes_one_entry_per_iteration_witness :
  exists s : Sample.run_state,
    main (Sample.args3 2) (Sample.consistent_world [Sample.ransac; Sample.baseline])
      = Ok s /\
    length (results_file s)
      = total_iterations (Sample.args3 2) [Sample.ransac; Sample.baseline].
Proof.
  eexists. split; [vm_compute; reflexivity|].
  apply (main_writes_one_entry_per_iteration (Ops := IntDQ.ops) (Sample.args3 2)
           (Sample.consistent_world [Sample.ransac; Sample.baseline])).
  vm_compute. reflexivity.
Defined.

Lemma main_writes_complete_entries_witness :
  exists s : Sample.run_state,
    main (Sample.args3 2) (Sample.consistent_world [Sample.ransac; Sample.baseline])
      = Ok s /\
    Forall (entry_complete (length (combinations2 Sample.files3))) (results_file s).
Proof.
  eexists. split; [vm_compute; reflexivity|].
  apply (main_writes_complete_entries (Ops := IntDQ.ops) (Sample.args3 2)
           (Sample.consistent_world [Sample.ransac; Sample.baseline])).
  vm_compute. reflexivity.
Defined.

Lemma main_needs_three_files_witness :
  exists s : Sample.run_state,
    main (Sample.args3 1) (Sample.consistent_world [Sample.baseline]) = Ok s /\
    length Sample.files3 = 3%nat.
Proof.
  eexists. split; [vm_compute; reflexivity|].
  eapply (main_needs_three_files (Ops := IntDQ.ops) (Sample.args3 1)
            (Sample.consistent_world [Sample.baseline])).
  vm_compute. reflexivity.
Defined.

Lemma create_path_ensures_directory_witness :
  bool_decide ("res" ∈ ["res"]) = true /\
  create_path "res/results.csv" ["res"] = (["res"], Ok tt).
Proof.
  apply (create_path_ensures_directory (Dirs := Sample.dirs) "res/results.csv" [] ["res"]).
  - exact Sample_makedirs_returns.
  - exact Sample_makedirs_found.
  - vm_compute. reflexivity.
Defined.

Lemma write_result_files_completes_iff_witness :
  ((forall i, 0 <= i < 3 ->
      file_exists ∅ (dq_H_E_file "res" "RANSAC" i)
      = file_exists ∅ (poses_H_E_file "res" "RANSAC" i)) ->
   exists fs',
     write_result_files Sample.format_dq Sample.format_pose Sample.csv_line
       "res" "RANSAC" 3 Sample.estimates3 Sample.poses3 new_result_entry ∅ = Ok fs' /\
     (files_paired "res" ∅ -> files_paired "res" fs')) /\
  (forall k, 0 <= k < 3 ->
     file_exists ∅ (dq_H_E_file "res" "RANSAC" k)
     <> file_exists ∅ (poses_H_E_file "res" "RANSAC" k) ->
     write_result_files Sample.format_dq Sample.format_pose Sample.csv_line
       "res" "RANSAC" 3 Sample.estimates3 Sample.poses3 new_result_entry ∅
     = Raise AssertionError).
Proof.
  apply (write_result_files_completes_iff Sample.format_dq Sample.format_pose
           Sample.csv_line "res" "RANSAC" 3 Sample.estimates3 Sample.poses3
           new_result_entry ∅); reflexivity.
Defined.

Lemma write_result_files_rows_witness :
  exists fs' : file_store,
    write_result_files Sample.format_dq Sample.format_pose Sample.csv_line
      "res" "RANSAC" 3 Sample.estimates3 Sample.poses3 new_result_entry ∅ = Ok fs' /\
    fs' !! result_file_path "res"
      = Some (content ∅ (result_file_path "res")
              ++ (Sample.csv_line new_result_entry <$> py_range 0 3)).
Proof.
  eexists. split; [vm_compute; reflexivity|].
  apply (write_result_files_rows Sample.format_dq Sample.format_pose
           Sample.csv_line "res" "RANSAC" 3 Sample.estimates3 Sample.poses3
           new_result_entry ∅); [reflexivity|reflexivity|vm_compute; reflexivity].
Defined.

Lemma write_result_files_pair_files_witness :
  exists fs' : file_store,
    write_result_files Sample.format_dq Sample.format_pose Sample.csv_line
      "res" "RANSAC" 3 Sample.estimates3 Sample.poses3 new_result_entry ∅ = Ok fs' /\
    (forall i dq pose, 0 <= i < 3 ->
       Sample.estimates3 !! Z.to_nat i = Some dq ->
       Sample.poses3 !! Z.to_nat i = Some pose ->
       fs' !! dq_H_E_file "res" "RANSAC" i
         = Some (content ∅ (dq_H_E_file "res" "RANSAC" i)
                 ++ estimate_lines Sample.format_dq dq) /\
       fs' !! poses_H_E_file "res" "RANSAC" i
         = Some (content ∅ (poses_H_E_file "res" "RANSAC" i)
                 ++ pose_lines Sample.format_pose dq pose)) /\
    (forall q, q <> result_file_path "res" ->
       (forall i, 0 <= i < 3 -> q <> dq_H_E_file "res" "RANSAC" i /\
                                q <> poses_H_E_file "res" "RANSAC" i) ->
       fs' !! q = (∅ : file_store) !! q).
Proof.
  eexists. split; [vm_compute; reflexivity|].
  apply (write_result_files_pair_files Sample.format_dq Sample.format_pose
           Sample.csv_line "res" "RANSAC" 3 Sample.estimates3 Sample.poses3
           new_result_entry ∅); [reflexivity|reflexivity|vm_compute; reflexivity].
Defined.
